(** * Schedule proposal and retrieval engine: a shallow embedding

    The development follows the Python sources
    - [gemini_calendar_chat.py]      (class [GeminiCalendarChat]),
    - [gemini_calendar_assistant.py] (class [GeminiCalendarAssistant]),
    - [supabase-integration/embedding_service.py] (class [EmbeddingService]),
    - [gemini_flask_server.py]       (class [ChatManager] and the routes).

    Conventions of the embedding.
    - A Python [str] is a [string]; each character stands for the Unicode
      code point with the same number (so the texts covered are those whose
      code points are below 256).
    - A Python [dict] with string keys is a [gmap string _]; a missing key
      raises [KeyError].
    - Code that may raise returns a value of [res]; [try ... except
      Exception] is a [match] on it.
    - What the external services answer (the text generation model, the
      uuid generator, the clock, the ISO-8601 parser of the standard
      library) is an argument of the function that asks for it. *)

From Stdlib Require Import ZArith QArith Lia Bool List Ascii String.
From Stdlib Require PrimFloat.
From Stdlib Require Floats.
From stdpp Require Import base option list strings gmap pretty sorting.

Local Open Scope Z_scope.

(** ** Python values and exceptions *)

Module Py.

Inductive exn : Type :=
| KeyError (key : string)
| ValueError (msg : string)
| TypeError (msg : string)
| AttributeError (msg : string)
| IndexError (msg : string)
| OverflowError (msg : string)
| RuntimeError (msg : string).

(** [str(e)] for an exception [e]: the message, and for [KeyError] the
    [repr] of the key. *)
Definition str_exn (e : exn) : string :=
  match e with
  | KeyError k => "'" +:+ k +:+ "'"
  | ValueError m | TypeError m | AttributeError m | IndexError m | OverflowError m
  | RuntimeError m => m
  end.

Inductive res (A : Type) : Type :=
| Ok (a : A)
| Raise (e : exn).
Arguments Ok {A} a.
Arguments Raise {A} e.

Definition bind {A B} (m : res A) (k : A -> res B) : res B :=
  match m with
  | Ok a => k a
  | Raise e => Raise e
  end.

(** A [for] loop whose body may raise, threading the loop's variables. *)
Fixpoint for_each {A S} (body : S -> A -> res S) (l : list A) (s : S) : res S :=
  match l with
  | [] => Ok s
  | x :: l' => bind (body s x) (for_each body l')
  end.

(** [enumerate(l, start)] *)
Fixpoint enumerate {A} (l : list A) (start : nat) : list (nat * A) :=
  match l with
  | [] => []
  | x :: l' => (start, x) :: enumerate l' (S start)
  end.

(** [d[k]] *)
Definition getitem {V} (d : gmap string V) (k : string) : res V :=
  match d !! k with
  | Some v => Ok v
  | None => Raise (KeyError k)
  end.

(** *** Strings *)

Definition code (c : ascii) : Z := Z.of_N (N_of_ascii c).
Definition chr (z : Z) : ascii := ascii_of_N (Z.to_N z).

(** [str.lower] on code points below 256: the capitals are A-Z,
    U+00C0-U+00D6 and U+00D8-U+00DE, each 32 below its small letter. *)
Definition lower_char (c : ascii) : ascii :=
  let n := code c in
  if ((65 <=? n) && (n <=? 90)) || ((192 <=? n) && (n <=? 222) && negb (n =? 215))
  then chr (n + 32) else c.

Fixpoint lower (s : string) : string :=
  match s with
  | EmptyString => EmptyString
  | String c s' => String (lower_char c) (lower s')
  end.

(** [str.isspace] on code points below 256 *)
Definition isspace (c : ascii) : bool :=
  let n := code c in
  ((9 <=? n) && (n <=? 13)) || ((28 <=? n) && (n <=? 32)) || (n =? 133) || (n =? 160).

(** [s.split()]: the maximal runs of characters that are not white space.
    [cur] is the run being read, in reverse. *)
Fixpoint split_aux (s : string) (cur : list ascii) : list string :=
  match s with
  | EmptyString =>
      match cur with [] => [] | _ => [string_of_list_ascii (rev cur)] end
  | String c s' =>
      if isspace c
      then match cur with
           | [] => split_aux s' []
           | _ => string_of_list_ascii (rev cur) :: split_aux s' []
           end
      else split_aux s' (c :: cur)
  end.
Definition split (s : string) : list string := split_aux s [].

(** [sub in s] *)
Fixpoint contains (sub s : string) : bool :=
  String.prefix sub s ||
  match s with
  | EmptyString => false
  | String _ s' => contains sub s'
  end.

(** [s.replace(old, new)] for a one-character [old] *)
Fixpoint replace (s : string) (old : ascii) (new : string) : string :=
  match s with
  | EmptyString => EmptyString
  | String c s' =>
      if Ascii.eqb c old then new +:+ replace s' old new
      else String c (replace s' old new)
  end.

(** [s.encode('utf-8')], one or two bytes for a code point below 256 *)
Fixpoint encode_utf8 (s : string) : list Z :=
  match s with
  | EmptyString => []
  | String c s' =>
      let n := code c in
      if n <? 128 then n :: encode_utf8 s'
      else Z.lor 192 (Z.shiftr n 6) :: Z.lor 128 (Z.land n 63) :: encode_utf8 s'
  end.

(** [str(n)] for a natural number *)
Definition str_nat (n : nat) : string := pretty n.

End Py.

Export Py.

Declare Scope py_scope.
Delimit Scope py_scope with py.
Notation "x <- m ;; k" := (Py.bind m (fun x => k))
  (at level 100, m at next level, right associativity) : py_scope.
Local Open Scope py_scope.

(** ** [datetime] values

    A [datetime] is its wall-clock reading, counted in microseconds from
    0001-01-01T00:00:00 of its own calendar, and its UTC offset (absent for
    a naive value).  The [hour] attribute is the hour of the wall clock. *)

Module DT.

Record datetime : Type := mk_datetime {
  wall : Z;
  utcoffset : option Z
}.

Definition usec_per_hour : Z := 3600000000.

Definition hour (d : datetime) : Z := (wall d / usec_per_hour) mod 24.

(** The point of the common time line a value denotes: UTC for an aware
    value, the wall clock itself for a naive one. *)
Definition instant (d : datetime) : Z := wall d - default 0 (utcoffset d).

Definition aware (d : datetime) : bool := bool_decide (is_Some (utcoffset d)).

(** [a < b]: two naive values compare by wall clock, two aware values by
    UTC instant, and a naive value does not compare with an aware one. *)
Definition lt (a b : datetime) : res bool :=
  match utcoffset a, utcoffset b with
  | None, None => Ok (wall a <? wall b)
  | Some oa, Some ob => Ok (wall a - oa <? wall b - ob)
  | _, _ => Raise (TypeError "can't compare offset-naive and offset-aware datetimes")
  end.

(** *** A parser for the textual form the program itself writes

    [fromisoformat_basic] reads [YYYY-MM-DDTHH:MM:SS], optionally followed
    by [+HH:MM] or [-HH:MM].  It is the part of the standard library's
    [datetime.fromisoformat] that every version of it accepts; the
    theorems below hold for any parser and use this one for examples. *)

Definition digit (c : ascii) : option Z :=
  let n := code c in
  if (48 <=? n) && (n <=? 57) then Some (n - 48) else None.

Fixpoint number (cs : list ascii) (acc : Z) : option Z :=
  match cs with
  | [] => Some acc
  | c :: cs' => d ← digit c; number cs' (acc * 10 + d)
  end.

Definition field (cs : list ascii) (i n : nat) : option Z :=
  number (take n (drop i cs)) 0.

Definition is_leap (y : Z) : bool :=
  (y mod 4 =? 0) && (negb (y mod 100 =? 0) || (y mod 400 =? 0)).

Definition days_in_month (y m : Z) : Z :=
  if m =? 2 then (if is_leap y then 29 else 28)
  else if (m =? 4) || (m =? 6) || (m =? 9) || (m =? 11) then 30 else 31.

Definition days_before_month (y m : Z) : Z :=
  nth (Z.to_nat (m - 1)) [0; 31; 59; 90; 120; 151; 181; 212; 243; 273; 304; 334] 0
  + (if (2 <? m) && is_leap y then 1 else 0).

(** [date(y, m, d).toordinal()] *)
Definition toordinal (y m d : Z) : Z :=
  let p := y - 1 in
  p * 365 + p / 4 - p / 100 + p / 400 + days_before_month y m + d.

Definition guard (b : bool) : option unit := if b then Some tt else None.

Definition parse_offset (cs : list ascii) : option (option Z) :=
  match cs with
  | [] => Some None
  | sg :: _ =>
      sign ← (if Ascii.eqb sg "+" then Some 1
              else if Ascii.eqb sg "-" then Some (-1) else None);
      _ ← guard (bool_decide (length cs = 6%nat) && bool_decide (cs !! 3%nat = Some ":"%char));
      hh ← field cs 1 2;
      mm ← field cs 4 2;
      _ ← guard ((hh <? 24) && (mm <? 60));
      Some (Some (sign * (hh * 60 + mm) * 60000000))
  end.

Definition parse_basic (s : string) : option datetime :=
  let cs := list_ascii_of_string s in
  _ ← guard (bool_decide (19 ≤ length cs)%nat
             && bool_decide (cs !! 4%nat = Some "-"%char)
             && bool_decide (cs !! 7%nat = Some "-"%char)
             && bool_decide (cs !! 10%nat = Some "T"%char)
             && bool_decide (cs !! 13%nat = Some ":"%char)
             && bool_decide (cs !! 16%nat = Some ":"%char));
  y ← field cs 0 4; m ← field cs 5 2; d ← field cs 8 2;
  hh ← field cs 11 2; mm ← field cs 14 2; ss ← field cs 17 2;
  _ ← guard ((1 <=? y) && (1 <=? m) && (m <=? 12) && (1 <=? d) && (d <=? days_in_month y m)
             && (hh <? 24) && (mm <? 60) && (ss <? 60));
  off ← parse_offset (drop 19 cs);
  Some {| wall := ((((toordinal y m d) * 24 + hh) * 60 + mm) * 60 + ss) * 1000000;
          utcoffset := off |}.

Definition fromisoformat_basic (s : string) : res datetime :=
  match parse_basic s with
  | Some d => Ok d
  | None => Raise (ValueError ("Invalid isoformat string: '" +:+ s +:+ "'"))
  end.

End DT.

Export DT.

(** ** Interval conflict detection

    [_events_overlap] and the double loop of [_analyze_schedule_conflicts]
    have the same text in both classes; the classes differ in the record
    they append for a conflict and in the dictionary they return. *)

Module Calendar.

Abbreviation event := (gmap string string).

(** An event read as the pair of the instants of its start and end. *)
Abbreviation interval := (Z * Z)%type.

Section WithParser.

(** [datetime.fromisoformat], of the standard library. *)
Variable fromisoformat : string -> res datetime.

(** [datetime.fromisoformat(event[k].replace('Z', '+00:00'))] *)
Definition parse_time (e : event) (k : string) : res datetime :=
  s <- getitem e k;; fromisoformat (replace s "Z" "+00:00").

Definition _events_overlap (event1 event2 : event) : res bool :=
  start1 <- parse_time event1 "start";;
  end1 <- parse_time event1 "end";;
  start2 <- parse_time event2 "start";;
  end2 <- parse_time event2 "end";;
  b <- DT.lt start1 end2;;
  if b then DT.lt start2 end1 else Ok false.

(** The two nested [for] loops; [mk] builds the dictionary appended to
    [conflicts], and [events[i+1:]] is [drop (i + 1) events]. *)
Definition conflict_loop {C} (mk : event -> event -> C) (events : list event)
  : res (list C) :=
  for_each (fun conflicts '(i, event1) =>
    for_each (fun conflicts '(j, event2) =>
        b <- _events_overlap event1 event2;;
        Ok (if b : bool then conflicts ++ [mk event1 event2] else conflicts))
      (enumerate (drop (i + 1) events) (i + 1)) conflicts)
    (enumerate events 0) [].

(** *** What the loops are compared with *)

Definition overlapb (a b : interval) : bool := (a.1 <? b.2) && (b.1 <? a.2).

(** [stamped aw e iv]: both ends of [e] parse, to values of the same
    awareness [aw], and denote the instants [iv]. *)
Definition stamped (aw : bool) (e : event) (iv : interval) : Prop :=
  exists ds de,
    parse_time e "start" = Ok ds /\ parse_time e "end" = Ok de /\
    aware ds = aw /\ aware de = aw /\ instant ds = iv.1 /\ instant de = iv.2.

(** The index pairs [(i, j)], [i < j], whose intervals overlap, in the
    order of the loops. *)
Definition conflict_pairs (times : list interval) : list (nat * nat) :=
  i ← seq 0 (length times);
  (fun j => (i, j)) <$>
    filter (fun j => overlapb (times !!! i) (times !!! j) = true)
           (seq (S i) (length times - S i)).

End WithParser.

(** The dictionaries of [GeminiCalendarChat]. *)
Module Chat.
Record conflict : Type := {
  event1 : event; event2 : event; type : string; severity : string
}.
Definition mk_conflict (e1 e2 : event) : conflict :=
  {| event1 := e1; event2 := e2; type := "time_overlap"; severity := "high" |}.

Inductive analysis : Type :=
| Success (conflicts : list conflict) (conflict_count : nat) (message : string)
| Failure (error : string).

Definition _analyze_schedule_conflicts (fromisoformat : string -> res datetime)
    (events : list event) : analysis :=
  match conflict_loop fromisoformat mk_conflict events with
  | Ok conflicts =>
      Success conflicts (length conflicts)
        ("Found " +:+ str_nat (length conflicts) +:+ " scheduling conflicts")
  | Raise e => Failure ("Failed to analyze conflicts: " +:+ str_exn e)
  end.
End Chat.

(** The dictionaries of [GeminiCalendarAssistant]. *)
Module Assistant.
Record conflict : Type := { event1 : event; event2 : event; type : string }.
Definition mk_conflict (e1 e2 : event) : conflict :=
  {| event1 := e1; event2 := e2; type := "time_overlap" |}.

Inductive analysis : Type :=
| Success (conflicts : list conflict) (conflict_count : nat)
| Failure (error : string).

Definition _analyze_schedule_conflicts (fromisoformat : string -> res datetime)
    (events : list event) : analysis :=
  match conflict_loop fromisoformat mk_conflict events with
  | Ok conflicts => Success conflicts (length conflicts)
  | Raise e => Failure ("Failed to analyze conflicts: " +:+ str_exn e)
  end.
End Assistant.

(** An event dictionary with a title, a start and an end. *)
Definition ev (title start end_ : string) : event :=
  <["title" := title]> (<["start" := start]> (<["end" := end_]> ∅)).

End Calendar.

Import Calendar.

(** ** Sleep impact ([GeminiCalendarChat])

    The floating-point values 8.0, 7.0 and 6.0 and the target are rational
    numbers here; [<] on finite floats is [<] on the rationals they denote.
    [str_float x] is the text Python prints for the float [x]. *)

Module Sleep.

Definition Qltb (x y : Q) : bool :=
  match (x ?= y)%Q with Lt => true | _ => false end.

(** [[x for x in l if p(x)]] where [p] may raise *)
Definition select {A} (p : A -> res bool) (l : list A) : res (list A) :=
  for_each (fun acc x => b <- p x;; Ok (if b : bool then acc ++ [x] else acc)) l [].

Record sleep_report : Type := {
  estimated_sleep_hours : Q;
  below_target : bool;
  evening_events_count : nat;
  morning_events_count : nat;
  message : string
}.

Inductive assessment : Type :=
| Assessed (r : sleep_report)
| Failure (error : string).

Section WithParser.

Variable fromisoformat : string -> res datetime.
Variable str_float : Q -> string.

(** [datetime.fromisoformat(e['start'].replace('Z', '+00:00')).hour] *)
Definition start_hour (e : event) : res Z :=
  d <- parse_time fromisoformat e "start";; Ok (hour d).

Definition _calculate_sleep_hours (evening_events morning_events : list event) : res Q :=
  late_evening_events <- select (fun e => h <- start_hour e;; Ok (22 <=? h)) evening_events;;
  early_morning_events <- select (fun e => h <- start_hour e;; Ok (h <=? 7)) morning_events;;
  if Nat.eqb (length late_evening_events) 0 && Nat.eqb (length early_morning_events) 0
  then Ok 8%Q
  else if Nat.ltb 0 (length late_evening_events) then Ok 6%Q
  else Ok 7%Q.

(** The loop that sorts the events into [evening_events] and
    [morning_events]. *)
Definition classify (events : list event) : res (list event * list event) :=
  for_each (fun '(evening_events, morning_events) event =>
      hour <- start_hour event;;
      Ok (if 18 <=? hour then (evening_events ++ [event], morning_events)
          else if hour <=? 8 then (evening_events, morning_events ++ [event])
          else (evening_events, morning_events)))
    events ([], []).

Definition _assess_sleep_impact (events : list event) (sleep_target_hours : Q)
  : assessment :=
  match
    (lists <- classify events;;
     let '(evening_events, morning_events) := lists in
     estimated_sleep_hours <- _calculate_sleep_hours evening_events morning_events;;
     Ok {| estimated_sleep_hours := estimated_sleep_hours;
           below_target := Qltb estimated_sleep_hours sleep_target_hours;
           evening_events_count := length evening_events;
           morning_events_count := length morning_events;
           message := "Estimated sleep: " +:+ str_float estimated_sleep_hours
                      +:+ "h (target: " +:+ str_float sleep_target_hours +:+ "h)" |})
  with
  | Ok r => Assessed r
  | Raise e => Failure ("Failed to assess sleep impact: " +:+ str_exn e)
  end.

End WithParser.

End Sleep.

Import Sleep.

(** ** The data model

    The dataclasses of [gemini_calendar_chat.py].  Those of
    [gemini_calendar_assistant.py] are the same without the fields
    [description] and [location], which stay [None] there, and without
    [session_id], which stays empty there. *)

Module Model.

Record CalendarEvent : Type := {
  ce_id : string;
  ce_title : string;
  ce_start : string;
  ce_end : string;
  ce_duration_minutes : Z;
  ce_source : string;
  ce_change_type : string;
  ce_original_event_id : option string;
  ce_accepted : option bool;
  ce_description : option string;
  ce_location : option string
}.

Record ChangeItem : Type := {
  ci_id : string;
  ci_type : string;
  ci_event : CalendarEvent;
  ci_target_event_id : option string;
  ci_rationale : string;
  ci_accepted : string
}.

(** The [sleep_assessment] dictionary a proposal is created with; the
    assistant's has no event counts. *)
Record SleepAssessment : Type := {
  sa_estimated_sleep_hours : Q;
  sa_below_target : bool;
  sa_event_counts : option (nat * nat)
}.

Record Proposal : Type := {
  id : string;
  revision : Z;
  changes : list ChangeItem;
  summary : string;
  sleep_assessment : SleepAssessment;
  status : string;
  created_at : string;
  previous_proposal_id : option string
}.

Record Preferences : Type := {
  sleep_target_hours : Q;
  priorities : list string;
  protected_windows : list (string * string);
  iteration_count : Z
}.

Record ConversationContext : Type := {
  problem_statement : string;
  clarifying_questions : list string;
  user_answers : list string;
  current_events : list CalendarEvent;
  proposals : list Proposal;
  preferences : Preferences;
  session_id : string
}.

(** [ConversationContext()] with the fields [__post_init__] fills in. *)
Definition new_context (session : string) : ConversationContext :=
  {| problem_statement := "";
     clarifying_questions := [];
     user_answers := [];
     current_events := [];
     proposals := [];
     preferences := {| sleep_target_hours := 7; priorities := ["sleep"; "focus"];
                       protected_windows := []; iteration_count := 0 |};
     session_id := session |}.

Definition set_problem_statement (c : ConversationContext) (s : string) : ConversationContext :=
  {| problem_statement := s;
     clarifying_questions := clarifying_questions c;
     user_answers := user_answers c;
     current_events := current_events c;
     proposals := proposals c;
     preferences := preferences c;
     session_id := session_id c |}.

Definition set_clarifying_questions (c : ConversationContext) (l : list string)
  : ConversationContext :=
  {| problem_statement := problem_statement c;
     clarifying_questions := l;
     user_answers := user_answers c;
     current_events := current_events c;
     proposals := proposals c;
     preferences := preferences c;
     session_id := session_id c |}.

Definition set_user_answers (c : ConversationContext) (l : list string) : ConversationContext :=
  {| problem_statement := problem_statement c;
     clarifying_questions := clarifying_questions c;
     user_answers := l;
     current_events := current_events c;
     proposals := proposals c;
     preferences := preferences c;
     session_id := session_id c |}.

Definition set_current_events (c : ConversationContext) (l : list CalendarEvent)
  : ConversationContext :=
  {| problem_statement := problem_statement c;
     clarifying_questions := clarifying_questions c;
     user_answers := user_answers c;
     current_events := l;
     proposals := proposals c;
     preferences := preferences c;
     session_id := session_id c |}.

Definition set_proposals (c : ConversationContext) (l : list Proposal) : ConversationContext :=
  {| problem_statement := problem_statement c;
     clarifying_questions := clarifying_questions c;
     user_answers := user_answers c;
     current_events := current_events c;
     proposals := l;
     preferences := preferences c;
     session_id := session_id c |}.

(** A proposed event, as the proposal builders create it. *)
Definition proposed_event (ident title start end_ : string) (minutes : Z)
    (change_type : string) (description : option string) : CalendarEvent :=
  {| ce_id := ident; ce_title := title; ce_start := start; ce_end := end_;
     ce_duration_minutes := minutes; ce_source := "proposed";
     ce_change_type := change_type; ce_original_event_id := None;
     ce_accepted := None; ce_description := description; ce_location := None |}.

Definition change_item (ident type : string) (event : CalendarEvent)
    (target : option string) (rationale : string) : ChangeItem :=
  {| ci_id := ident; ci_type := type; ci_event := event;
     ci_target_event_id := target; ci_rationale := rationale;
     ci_accepted := "pending" |}.

(** A change whose identifier is built from [uid_change] and whose event's
    identifier from [uid_event], two values of [uuid.uuid4().hex[:8]]. *)
Definition fresh_change (uid_change uid_event : string)
    (type title start end_ : string) (minutes : Z)
    (description : option string) (target : option string) (rationale : string)
  : ChangeItem :=
  change_item ("change_" +:+ uid_change) type
    (proposed_event ("event_" +:+ uid_event) title start end_ minutes type description)
    target rationale.

(** An event of the calendar, as the mock calendar returns it. *)
Definition current_event (ident title start end_ : string) (minutes : Z) : CalendarEvent :=
  {| ce_id := ident; ce_title := title; ce_start := start; ce_end := end_;
     ce_duration_minutes := minutes; ce_source := "current";
     ce_change_type := "none"; ce_original_event_id := None;
     ce_accepted := None; ce_description := None; ce_location := None |}.

(** [end - start] for two [datetime] values, in microseconds. *)
Definition dt_sub (end_ start : datetime) : res Z :=
  match utcoffset end_, utcoffset start with
  | None, None => Ok (wall end_ - wall start)
  | Some oe, Some os => Ok ((wall end_ - oe) - (wall start - os))
  | _, _ => Raise (TypeError "can't subtract offset-naive and offset-aware datetimes")
  end.

(** [timedelta.total_seconds()] for a difference of [d] microseconds: the
    quotient [d / 10**6] of two integers, which Python rounds once, to the
    nearest binary64 value (ties to even).  Floats are the [spec_float]
    values of the standard library, by which it specifies the binary64
    operations; its division, on the two integers written with exponent 0,
    rounds their quotient in this way, whatever the size of [d]. *)
Definition total_seconds (d : Z) : SpecFloat.spec_float :=
  match d with
  | Z0 => SpecFloat.S754_zero false
  | Zpos p =>
      FloatAxioms.SF64div (SpecFloat.S754_finite false p 0)
                          (SpecFloat.S754_finite false 1000000 0)
  | Zneg p =>
      FloatAxioms.SF64div (SpecFloat.S754_finite true p 0)
                          (SpecFloat.S754_finite false 1000000 0)
  end.

(** The float [60.0], which is 8444249301319680 * 2^-47. *)
Definition sixty : SpecFloat.spec_float :=
  SpecFloat.S754_finite false 8444249301319680 (-47).

(** [int(x)] for a float [x]: its value without the fraction. *)
Definition int_of_float (x : SpecFloat.spec_float) : res Z :=
  match x with
  | SpecFloat.S754_zero _ => Ok 0
  | SpecFloat.S754_finite s m e =>
      let n := if 0 <=? e then Zpos m * 2 ^ e else Zpos m / 2 ^ (- e) in
      Ok (if s then - n else n)
  | SpecFloat.S754_infinity _ =>
      Raise (OverflowError "cannot convert float infinity to integer")
  | SpecFloat.S754_nan => Raise (ValueError "cannot convert float NaN to integer")
  end.

(** [int(delta.total_seconds() / 60)] for a difference of [d]
    microseconds: two roundings in binary64, then the fraction is cut. *)
Definition minutes_of (d : Z) : res Z :=
  int_of_float (FloatAxioms.SF64div (total_seconds d) sixty).

(** [_calculate_duration], with the same text in both classes. *)
Definition _calculate_duration (fromisoformat : string -> res datetime)
    (start end_ : string) : res Z :=
  start_dt <- fromisoformat (replace start "Z" "+00:00");;
  end_dt <- fromisoformat (replace end_ "Z" "+00:00");;
  d <- dt_sub end_dt start_dt;;
  minutes_of d.

End Model.

Export Model.

(** ** [GeminiCalendarChat]

    [uuid8 n] is [uuid.uuid4().hex[:8]] for the [n]-th identifier drawn in
    the session, and [drawn] counts the identifiers drawn so far.  A turn
    receives what the clock and the text generation model answer during it:
    [now] is [datetime.now().isoformat()], [reply] the outcome of
    [generate_content].  [_build_calendar_context_prompt] only formats the
    text sent to the model and is not part of the embedding. *)

Module GeminiCalendarChat.

Record session : Type := {
  context : ConversationContext;
  conversation_history : list (string * string);
  drawn : nat
}.

Definition with_context (s : session) (c : ConversationContext) : session :=
  {| context := c; conversation_history := conversation_history s; drawn := drawn s |}.

Definition say (s : session) (role content : string) : session :=
  {| context := context s;
     conversation_history := conversation_history s ++ [(role, content)];
     drawn := drawn s |}.

Definition draw (s : session) (n : nat) : session :=
  {| context := context s; conversation_history := conversation_history s;
     drawn := (drawn s + n)%nat |}.

(** A function call of the model.  [bad_arguments] stands for a call whose
    arguments do not fit the signature of the function it names, so that
    calling it raises [TypeError].  [unreadable_args] stands for a call
    whose [args] cannot be made a dictionary: [dict(function_call.args)]
    raises [e] (a [TypeError] when [args] is not set), which happens before
    the [try] of [_execute_calendar_function]. *)
Inductive function_call : Type :=
| get_calendar_events (start_date end_date : string) (max_results : Z)
| create_calendar_event (title start_datetime end_datetime description location : string)
| update_calendar_event (event_id : string) (updates : list (string * string))
| delete_calendar_event (event_id : string)
| generate_schedule_proposal (problem_description : string)
    (constraints : option (list string)) (focus_period : string)
| analyze_schedule_conflicts (events : list event)
| assess_sleep_impact (events : list event) (sleep_target_hours : Q)
| bad_arguments (name : string) (msg : string)
| unknown_function (name : string)
| unreadable_args (name : string) (e : exn).

(** The dictionaries the calendar functions return. *)
Inductive function_result : Type :=
| r_error (error : string)
| r_events (events : list CalendarEvent) (count : nat) (message : string)
| r_created (event_id : string) (event : CalendarEvent) (message : string)
| r_updated (event_id message : string) (updates : list (string * string))
| r_deleted (event_id message : string)
| r_proposal (proposal : Proposal) (message : string)
| r_conflicts (conflicts : list Calendar.Chat.conflict) (conflict_count : nat) (message : string)
| r_sleep (report : sleep_report).

(** What [generate_content] returns: the first function call among its
    parts, if any, and its [text] (reading which may raise). *)
Record response : Type := {
  function_call_part : option function_call;
  text : res string
}.

Section Methods.

Variable fromisoformat : string -> res datetime.
Variable uuid8 : nat -> string.
Variable str_float : Q -> string.

Definition _get_calendar_events (s : session) (start_date end_date : string)
    (max_results : Z) : function_result * session :=
  let mock_events :=
    [current_event "event_1" "Team Meeting"
       (start_date +:+ "T09:00:00Z") (start_date +:+ "T10:00:00Z") 60;
     current_event "event_2" "Lunch Break"
       (start_date +:+ "T12:00:00Z") (start_date +:+ "T13:00:00Z") 60;
     current_event "event_3" "Project Review"
       (start_date +:+ "T14:00:00Z") (start_date +:+ "T15:30:00Z") 90] in
  (r_events mock_events (length mock_events)
     ("Retrieved " +:+ str_nat (length mock_events) +:+ " events from "
      +:+ start_date +:+ " to " +:+ end_date),
   with_context s (set_current_events (context s) mock_events)).

Definition _create_calendar_event (s : session)
    (title start_datetime end_datetime description location : string)
  : function_result * session :=
  let event_id := "event_" +:+ uuid8 (drawn s) in
  (match _calculate_duration fromisoformat start_datetime end_datetime with
   | Ok minutes =>
       r_created event_id
         {| ce_id := event_id; ce_title := title; ce_start := start_datetime;
            ce_end := end_datetime; ce_duration_minutes := minutes;
            ce_source := "proposed"; ce_change_type := "add";
            ce_original_event_id := None; ce_accepted := None;
            ce_description := Some description; ce_location := Some location |}
         ("Created event: " +:+ title +:+ " from " +:+ start_datetime
          +:+ " to " +:+ end_datetime)
   | Raise e => r_error ("Failed to create event: " +:+ str_exn e)
   end,
   draw s 1).

Definition _update_calendar_event (event_id : string) (updates : list (string * string))
  : function_result :=
  r_updated event_id ("Updated event " +:+ event_id) updates.

Definition _delete_calendar_event (event_id : string) : function_result :=
  r_deleted event_id ("Deleted event " +:+ event_id).

Definition _generate_proposal_changes (k : nat) (problem : string)
    (constraints : list string) : list ChangeItem * nat :=
  let changes : list ChangeItem := [] in
  let '(changes, k) :=
    if contains "hectic" (lower problem) || contains "busy" (lower problem)
    then (changes ++ [fresh_change (uuid8 k) (uuid8 (S k)) "add" "Focus Time"
                        "2025-01-15T09:00:00Z" "2025-01-15T11:00:00Z" 120
                        (Some "Dedicated focus time for deep work") None
                        "Added dedicated focus time to reduce hectic schedule and improve productivity"],
          (k + 2)%nat)
    else (changes, k) in
  let '(changes, k) :=
    if contains "sleep" (lower problem) || contains "tired" (lower problem)
    then (changes ++ [fresh_change (uuid8 k) (uuid8 (S k)) "move" "Evening Activity"
                        "2025-01-15T18:00:00Z" "2025-01-15T19:00:00Z" 60
                        (Some "Moved to earlier time for better sleep")
                        (Some "existing_evening_event")
                        "Moved evening activity earlier to improve sleep schedule and ensure adequate rest"],
          (k + 2)%nat)
    else (changes, k) in
  let '(changes, k) :=
    if contains "meeting" (lower problem) || contains "conflict" (lower problem)
    then (changes ++ [fresh_change (uuid8 k) (uuid8 (S k)) "adjust" "Meeting Adjustment"
                        "2025-01-15T10:30:00Z" "2025-01-15T11:30:00Z" 60
                        (Some "Adjusted time to resolve conflicts")
                        (Some "conflicting_meeting")
                        "Adjusted meeting time to resolve scheduling conflicts"],
          (k + 2)%nat)
    else (changes, k) in
  match changes with
  | [] => (changes ++ [fresh_change (uuid8 k) (uuid8 (S k)) "add" "Optimization Block"
                         "2025-01-15T14:00:00Z" "2025-01-15T15:00:00Z" 60
                         (Some "General schedule optimization") None
                         "Added optimization block to improve overall schedule balance"],
           (k + 2)%nat)
  | _ => (changes, k)
  end.

Definition _generate_schedule_proposal (now : string) (s : session)
    (problem_description : string) (constraints : option (list string))
    (focus_period : string) : function_result * session :=
  let constraints := default [] constraints in
  let proposal_id := "proposal_" +:+ uuid8 (drawn s) in
  let '(changes, k) :=
    _generate_proposal_changes (S (drawn s)) problem_description constraints in
  let proposal :=
    {| id := proposal_id;
       revision := 1;
       changes := changes;
       summary := "Schedule optimization for: " +:+ problem_description;
       sleep_assessment :=
         {| sa_estimated_sleep_hours := 7.5; sa_below_target := false;
            sa_event_counts := Some (2, 1)%nat |};
       status := "pending";
       created_at := now;
       previous_proposal_id := None |} in
  (r_proposal proposal
     ("Generated proposal with " +:+ str_nat (length changes)
      +:+ " changes to optimize your schedule"),
   {| context := set_proposals (context s) (proposals (context s) ++ [proposal]);
      conversation_history := conversation_history s;
      drawn := k |}).

(** [_execute_calendar_function].  The name and the arguments of the call
    are read before the [try]: what that raises leaves the method. *)
Definition _execute_calendar_function (now : string) (s : session) (fc : function_call)
  : res (function_result * session) :=
  match fc with
  | unreadable_args name e => Raise e
  | get_calendar_events start_date end_date max_results =>
      Ok (_get_calendar_events s start_date end_date max_results)
  | create_calendar_event title start_datetime end_datetime description location =>
      Ok (_create_calendar_event s title start_datetime end_datetime description location)
  | update_calendar_event event_id updates =>
      Ok (_update_calendar_event event_id updates, s)
  | delete_calendar_event event_id => Ok (_delete_calendar_event event_id, s)
  | generate_schedule_proposal problem_description constraints focus_period =>
      Ok (_generate_schedule_proposal now s problem_description constraints focus_period)
  | analyze_schedule_conflicts events =>
      Ok (match Calendar.Chat._analyze_schedule_conflicts fromisoformat events with
          | Calendar.Chat.Success conflicts n message => r_conflicts conflicts n message
          | Calendar.Chat.Failure error => r_error error
          end, s)
  | assess_sleep_impact events sleep_target_hours =>
      Ok (match _assess_sleep_impact fromisoformat str_float events sleep_target_hours with
          | Assessed report => r_sleep report
          | Sleep.Failure error => r_error error
          end, s)
  | bad_arguments name msg => Ok (r_error ("Function execution failed: " +:+ msg), s)
  | unknown_function name => Ok (r_error ("Unknown function: " +:+ name), s)
  end.

(** The string values of a result that has an ['event_id'].  The test
    ['Created' in str(function_result)] looks for the word in the printed
    dictionary, where it can only occur inside one of these values. *)
Definition printed_values (r : function_result) : list string :=
  match r with
  | r_created event_id event message =>
      [event_id; ce_id event; ce_title event; ce_start event; ce_end event;
       default "" (ce_description event); default "" (ce_location event); message]
  | r_updated event_id message updates =>
      event_id :: message :: flat_map (fun kv => [kv.1; kv.2]) updates
  | r_deleted event_id message => [event_id; message]
  | _ => []
  end.

(** The white check mark U+2705 that opens a confirmation, in UTF-8. *)
Definition check_mark : string := "✅".

Definition _generate_function_result_response (function_result : function_result)
    (user_input : string) : string :=
  let completed (message : string) := "I completed the requested action: " +:+ message in
  match function_result with
  | r_error "" => completed "Action completed successfully."
  | r_error error =>
      "I encountered an issue: " +:+ error
      +:+ ". Please try again or rephrase your request."
  | r_events _ count _ =>
      "I found " +:+ str_nat count
      +:+ " events in your calendar. Let me analyze them to help optimize your schedule."
  | r_proposal proposal _ =>
      "I've generated a schedule proposal with " +:+ str_nat (length (changes proposal))
      +:+ " optimizations. The proposal includes: " +:+ summary proposal
      +:+ ". Would you like me to explain the changes in detail?"
  | r_conflicts _ conflict_count _ =>
      if Nat.ltb 0 conflict_count
      then "I found " +:+ str_nat conflict_count
           +:+ " scheduling conflicts in your calendar. I can help you resolve these conflicts by suggesting alternative times."
      else "Great news! I didn't find any scheduling conflicts in your calendar."
  | r_created _ _ message | r_updated _ message _ | r_deleted _ message =>
      let action :=
        if existsb (contains "Created") (printed_values function_result) then "created"
        else if existsb (contains "Updated") (printed_values function_result) then "updated"
        else "deleted" in
      check_mark +:+ " I've " +:+ action +:+ " the calendar event successfully. " +:+ message
  | r_sleep report => completed (message report)
  end.

(** [_is_clarifying_question].  The conjunction is evaluated from the left;
    its third operand calls [includes], which a [str] does not have. *)
Definition _is_clarifying_question (c : ConversationContext) (response : string) : res bool :=
  if contains "?" response then
    if Nat.ltb (length (user_answers c)) (length (clarifying_questions c)) then
      Raise (AttributeError "'str' object has no attribute 'includes'")
    else Ok false
  else Ok false.

Definition _process_enhanced_response (now : string) (s : session) (response : response)
    (user_input : string) : res string * session :=
  match function_call_part response with
  | Some fc =>
      match _execute_calendar_function now s fc with
      | Raise e => (Raise e, s)
      | Ok (function_result, s) =>
          (Ok (_generate_function_result_response function_result user_input), s)
      end
  | None =>
      match text response with
      | Raise e => (Raise e, s)
      | Ok response_text =>
          match _is_clarifying_question (context s) response_text with
          | Raise e => (Raise e, s)
          | Ok true =>
              (Ok response_text,
               with_context s (set_clarifying_questions (context s)
                 (clarifying_questions (context s) ++ [response_text])))
          | Ok false =>
              if Nat.ltb (length (user_answers (context s)))
                         (length (clarifying_questions (context s)))
              then (Ok response_text,
                    with_context s (set_user_answers (context s)
                      (user_answers (context s) ++ [user_input])))
              else (Ok response_text, s)
          end
      end
  end.

(** [chat_with_calendar_context]: one turn of the conversation. *)
Definition chat_with_calendar_context (now : string) (reply : res response)
    (s : session) (user_input : string) : string * session :=
  let s := say s "user" user_input in
  let s :=
    if String.eqb (problem_statement (context s)) ""
    then with_context s (set_problem_statement (context s) user_input)
    else s in
  let '(outcome, s) :=
    match reply with
    | Raise e => (Raise e, s)
    | Ok response => _process_enhanced_response now s response user_input
    end in
  match outcome with
  | Ok processed_response => (processed_response, say s "assistant" processed_response)
  | Raise e =>
      let error_msg := "I encountered an error: " +:+ str_exn e in
      (error_msg, say s "assistant" error_msg)
  end.

(** [GeminiCalendarChat()], for the session identifier drawn at its
    creation. *)
Definition new_session (session_id : string) : session :=
  {| context := new_context session_id; conversation_history := []; drawn := 0 |}.

End Methods.

End GeminiCalendarChat.

(** ** [GeminiCalendarAssistant]

    A turn may ask the model twice: [reply] answers the prompt of the turn,
    [follow_up] the prompt that reports the result of a function call.
    [json_dumps] is [json.dumps(_, indent=2)] on a result dictionary, which
    raises [TypeError] on a value it cannot print.  The calls are those of
    [GeminiCalendarChat] without [assess_sleep_impact].
    [_build_conversation_prompt] only formats the text sent to the model
    and is not part of the embedding. *)

Module GeminiCalendarAssistant.

Record session : Type := {
  context : ConversationContext;
  drawn : nat
}.

Definition with_context (s : session) (c : ConversationContext) : session :=
  {| context := c; drawn := drawn s |}.

Inductive function_call : Type :=
| get_calendar_events (start_date end_date : string) (max_results : Z)
| create_calendar_event (title start_datetime end_datetime description location : string)
| update_calendar_event (event_id : string) (updates : list (string * string))
| delete_calendar_event (event_id : string)
| generate_schedule_proposal (problem_description : string)
    (constraints : option (list string)) (focus_period : string)
| analyze_schedule_conflicts (events : list event)
| bad_arguments (name : string) (msg : string)
| unknown_function (name : string)
| unreadable_args (name : string) (e : exn).

Inductive function_result : Type :=
| r_error (error : string)
| r_events (events : list CalendarEvent) (count : nat)
| r_created (event_id : string) (event : CalendarEvent) (message : string)
| r_updated (event_id message : string) (updates : list (string * string))
| r_deleted (event_id message : string)
| r_proposal (proposal : Proposal) (message : string)
| r_conflicts (conflicts : list Calendar.Assistant.conflict) (conflict_count : nat).

Record response : Type := {
  function_call_part : option function_call;
  text : res string
}.

(** The dictionary [process_user_input] returns, by its ['type']. *)
Inductive turn_result : Type :=
| t_error (message : string) (suggestions : list string)
| t_clarifying_question (question message : string)
| t_proposal (message : string) (proposal : option Proposal)
| t_response (message : string)
| t_function_result (message : string) (function_result : function_result).

Section Methods.

Variable fromisoformat : string -> res datetime.
Variable uuid8 : nat -> string.
Variable json_dumps : function_result -> res string.

Definition _get_calendar_events (s : session) (start_date end_date : string)
    (max_results : Z) : function_result * session :=
  let mock_events :=
    [current_event "event_1" "Team Meeting"
       (start_date +:+ "T09:00:00Z") (start_date +:+ "T10:00:00Z") 60;
     current_event "event_2" "Lunch Break"
       (start_date +:+ "T12:00:00Z") (start_date +:+ "T13:00:00Z") 60] in
  (r_events mock_events (length mock_events),
   with_context s (set_current_events (context s) mock_events)).

Definition _create_calendar_event (s : session)
    (title start_datetime end_datetime description location : string)
  : function_result * session :=
  let event_id := "event_" +:+ uuid8 (drawn s) in
  (match _calculate_duration fromisoformat start_datetime end_datetime with
   | Ok minutes =>
       r_created event_id
         {| ce_id := event_id; ce_title := title; ce_start := start_datetime;
            ce_end := end_datetime; ce_duration_minutes := minutes;
            ce_source := "proposed"; ce_change_type := "add";
            ce_original_event_id := None; ce_accepted := None;
            ce_description := None; ce_location := None |}
         ("Created event: " +:+ title)
   | Raise e => r_error ("Failed to create event: " +:+ str_exn e)
   end,
   {| context := context s; drawn := S (drawn s) |}).

Definition _update_calendar_event (event_id : string) (updates : list (string * string))
  : function_result :=
  r_updated event_id ("Updated event " +:+ event_id) updates.

Definition _delete_calendar_event (event_id : string) : function_result :=
  r_deleted event_id ("Deleted event " +:+ event_id).

Definition _generate_proposal_changes (k : nat) (problem : string)
    (constraints : list string) : list ChangeItem * nat :=
  let changes : list ChangeItem := [] in
  let '(changes, k) :=
    if contains "hectic" (lower problem) || contains "busy" (lower problem)
    then (changes ++ [fresh_change (uuid8 k) (uuid8 (S k)) "add" "Focus Time"
                        "2025-01-15T09:00:00Z" "2025-01-15T11:00:00Z" 120 None None
                        "Added dedicated focus time to reduce hectic schedule"],
          (k + 2)%nat)
    else (changes, k) in
  let '(changes, k) :=
    if contains "sleep" (lower problem)
    then (changes ++ [fresh_change (uuid8 k) (uuid8 (S k)) "move" "Evening Activity"
                        "2025-01-15T18:00:00Z" "2025-01-15T19:00:00Z" 60 None
                        (Some "existing_evening_event")
                        "Moved evening activity earlier to improve sleep schedule"],
          (k + 2)%nat)
    else (changes, k) in
  (changes, k).

Definition _generate_schedule_proposal (now : string) (s : session)
    (problem_description : string) (constraints : option (list string))
    (focus_period : string) : function_result * session :=
  let constraints := default [] constraints in
  let proposal_id := "proposal_" +:+ uuid8 (drawn s) in
  let '(changes, k) :=
    _generate_proposal_changes (S (drawn s)) problem_description constraints in
  let proposal :=
    {| id := proposal_id;
       revision := 1;
       changes := changes;
       summary := "Schedule optimization for: " +:+ problem_description;
       sleep_assessment :=
         {| sa_estimated_sleep_hours := 7.5; sa_below_target := false;
            sa_event_counts := None |};
       status := "pending";
       created_at := now;
       previous_proposal_id := None |} in
  (r_proposal proposal
     ("Generated proposal with " +:+ str_nat (length changes) +:+ " changes"),
   {| context := set_proposals (context s) (proposals (context s) ++ [proposal]);
      drawn := k |}).

(** [_execute_function_call].  The name and the arguments of the call are
    read before the [try]: what that raises leaves the method. *)
Definition _execute_function_call (now : string) (s : session) (fc : function_call)
  : res (function_result * session) :=
  match fc with
  | unreadable_args name e => Raise e
  | get_calendar_events start_date end_date max_results =>
      Ok (_get_calendar_events s start_date end_date max_results)
  | create_calendar_event title start_datetime end_datetime description location =>
      Ok (_create_calendar_event s title start_datetime end_datetime description location)
  | update_calendar_event event_id updates =>
      Ok (_update_calendar_event event_id updates, s)
  | delete_calendar_event event_id => Ok (_delete_calendar_event event_id, s)
  | generate_schedule_proposal problem_description constraints focus_period =>
      Ok (_generate_schedule_proposal now s problem_description constraints focus_period)
  | analyze_schedule_conflicts events =>
      Ok (match Calendar.Assistant._analyze_schedule_conflicts fromisoformat events with
          | Calendar.Assistant.Success conflicts n => r_conflicts conflicts n
          | Calendar.Assistant.Failure error => r_error error
          end, s)
  | bad_arguments name msg => Ok (r_error ("Function execution failed: " +:+ msg), s)
  | unknown_function name => Ok (r_error ("Unknown function: " +:+ name), s)
  end.

(** [_continue_conversation_with_result].  The prompt, with the printed
    result in it, is built before the [try]: a result [json.dumps] cannot
    print makes the method raise. *)
Definition _continue_conversation_with_result (follow_up : res response)
    (function_result : function_result) (user_input : string) : res turn_result :=
  printed <- json_dumps function_result;;
  match (r <- follow_up;; text r) with
  | Ok response_text => Ok (t_function_result response_text function_result)
  | Raise _ =>
      Ok (t_function_result
            ("I completed the requested action: " +:+ printed)
            function_result)
  end.

Definition _extract_proposal_from_response (response_text : string) : option Proposal :=
  None.

Definition _process_gemini_response (now : string) (follow_up : res response)
    (s : session) (response : response) (user_input : string)
  : res turn_result * session :=
  match function_call_part response with
  | Some fc =>
      match _execute_function_call now s fc with
      | Raise e => (Raise e, s)
      | Ok (function_result, s) =>
          (_continue_conversation_with_result follow_up function_result user_input, s)
      end
  | None =>
      match text response with
      | Raise e => (Raise e, s)
      | Ok response_text =>
          if contains "?" response_text
             && Nat.ltb (length (user_answers (context s)))
                        (length (clarifying_questions (context s)))
          then (Ok (t_clarifying_question response_text response_text),
                with_context s (set_clarifying_questions (context s)
                  (clarifying_questions (context s) ++ [response_text])))
          else if contains "proposal" (lower response_text)
                  || contains "schedule" (lower response_text)
          then (Ok (t_proposal response_text (_extract_proposal_from_response response_text)), s)
          else (Ok (t_response response_text), s)
      end
  end.

(** [process_user_input]: one turn of the conversation. *)
Definition process_user_input (now : string) (reply follow_up : res response)
    (s : session) (user_input : string) : turn_result * session :=
  let s :=
    if String.eqb (problem_statement (context s)) ""
    then with_context s (set_problem_statement (context s) user_input)
    else s in
  let '(outcome, s) :=
    match reply with
    | Raise e => (Raise e, s)
    | Ok response => _process_gemini_response now follow_up s response user_input
    end in
  match outcome with
  | Ok result => (result, s)
  | Raise e =>
      (t_error ("I encountered an error: " +:+ str_exn e)
               ["Try rephrasing your request"; "Check your calendar permissions"],
       s)
  end.

Definition new_session : session :=
  {| context := new_context ""; drawn := 0 |}.

End Methods.

End GeminiCalendarAssistant.

(** ** MD5 ([hashlib.md5], RFC 1321)

    Words are integers below 2^32, bytes integers below 256. *)

Module MD5.

Definition w32 (x : Z) : Z := x mod 4294967296.

Definition rotl (x c : Z) : Z := w32 (Z.lor (Z.shiftl x c) (Z.shiftr x (32 - c))).

Definition not32 (x : Z) : Z := Z.lxor x 4294967295.

Definition shifts : list Z :=
  [7; 12; 17; 22; 7; 12; 17; 22; 7; 12; 17; 22; 7; 12; 17; 22;
   5; 9; 14; 20; 5; 9; 14; 20; 5; 9; 14; 20; 5; 9; 14; 20;
   4; 11; 16; 23; 4; 11; 16; 23; 4; 11; 16; 23; 4; 11; 16; 23;
   6; 10; 15; 21; 6; 10; 15; 21; 6; 10; 15; 21; 6; 10; 15; 21].

(** [floor(2^32 * abs(sin(i + 1)))] for [i] from 0 to 63 *)
Definition sines : list Z :=
  [3614090360; 3905402710; 606105819; 3250441966; 4118548399; 1200080426;
   2821735955; 4249261313; 1770035416; 2336552879; 4294925233; 2304563134;
   1804603682; 4254626195; 2792965006; 1236535329; 4129170786; 3225465664;
   643717713; 3921069994; 3593408605; 38016083; 3634488961; 3889429448;
   568446438; 3275163606; 4107603335; 1163531501; 2850285829; 4243563512;
   1735328473; 2368359562; 4294588738; 2272392833; 1839030562; 4259657740;
   2763975236; 1272893353; 4139469664; 3200236656; 681279174; 3936430074;
   3572445317; 76029189; 3654602809; 3873151461; 530742520; 3299628645;
   4096336452; 1126891415; 2878612391; 4237533241; 1700485571; 2399980690;
   4293915773; 2240044497; 1873313359; 4264355552; 2734768916; 1309151649;
   4149444226; 3174756917; 718787259; 3951481745].

(** The message followed by the byte 128, zeros up to 56 modulo 64, and
    the length in bits as eight bytes, least significant first. *)
Definition padding (msg : list Z) : list Z :=
  let n := Z.of_nat (length msg) in
  let zeros := Z.to_nat ((55 - n) mod 64) in
  let bits := 8 * n in
  msg ++ [128] ++ repeat 0 zeros
      ++ map (fun i => (bits / 2 ^ (8 * i)) mod 256) [0; 1; 2; 3; 4; 5; 6; 7].

Definition word_le (bs : list Z) : Z :=
  nth 0 bs 0 + 256 * nth 1 bs 0 + 65536 * nth 2 bs 0 + 16777216 * nth 3 bs 0.

Definition bytes_le (w : Z) : list Z :=
  [w mod 256; (w / 256) mod 256; (w / 65536) mod 256; (w / 16777216) mod 256].

(** The sixteen words of a block of 64 bytes. *)
Definition words_of (block : list Z) : list Z :=
  map (fun i => word_le (take 4 (drop (4 * i) block))) (seq 0 16).

Definition step (m : list Z) (st : Z * Z * Z * Z) (i : Z) : Z * Z * Z * Z :=
  let '(a, b, c, d) := st in
  let '(f, g) :=
    if i <? 16 then (Z.lor (Z.land b c) (Z.land (not32 b) d), i)
    else if i <? 32 then (Z.lor (Z.land d b) (Z.land (not32 d) c), (5 * i + 1) mod 16)
    else if i <? 48 then (Z.lxor (Z.lxor b c) d, (3 * i + 5) mod 16)
    else (Z.lxor c (Z.lor b (not32 d)), (7 * i) mod 16) in
  let f := w32 (f + a + nth (Z.to_nat i) sines 0 + nth (Z.to_nat g) m 0) in
  (d, w32 (b + rotl f (nth (Z.to_nat i) shifts 0)), b, c).

Definition compress (h : Z * Z * Z * Z) (block : list Z) : Z * Z * Z * Z :=
  let '(a0, b0, c0, d0) := h in
  let '(a, b, c, d) := fold_left (step (words_of block)) (map Z.of_nat (seq 0 64)) h in
  (w32 (a0 + a), w32 (b0 + b), w32 (c0 + c), w32 (d0 + d)).

Fixpoint blocks (n : nat) (bs : list Z) : list (list Z) :=
  match n with
  | O => []
  | S n' => take 64 bs :: blocks n' (drop 64 bs)
  end.

Definition state (msg : list Z) : Z * Z * Z * Z :=
  let padded := padding msg in
  fold_left compress (blocks (length padded / 64) padded)
            (1732584193, 4023233417, 2562383102, 271733878).

(** [hashlib.md5(msg).digest()] *)
Definition digest (msg : list Z) : list Z :=
  let '(a, b, c, d) := state msg in
  bytes_le a ++ bytes_le b ++ bytes_le c ++ bytes_le d.

Definition hex_digit (d : Z) : ascii :=
  if d <? 10 then chr (48 + d) else chr (87 + d).

Fixpoint hex (bs : list Z) : string :=
  match bs with
  | [] => EmptyString
  | b :: bs' => String (hex_digit (b / 16)) (String (hex_digit (b mod 16)) (hex bs'))
  end.

(** [hashlib.md5(msg).hexdigest()] *)
Definition hexdigest (msg : list Z) : string := hex (digest msg).

End MD5.

(** ** [EmbeddingService]: the fallback embedding

    A value of the embedding is a rational number: for an integer [h] below
    2^32 the floating-point computation [(h / 2**31) - 1.0] is exact, both
    the quotient and the difference being multiples of 2^-31 of magnitude at
    most 2. *)

Module Embedding.

(** The value of a hexadecimal digit. *)
Definition hex_value (c : ascii) : option Z :=
  let n := code c in
  if (48 <=? n) && (n <=? 57) then Some (n - 48)
  else if (97 <=? n) && (n <=? 102) then Some (n - 87)
  else if (65 <=? n) && (n <=? 70) then Some (n - 55)
  else None.

(** [int(s, 16)] for a string of hexadecimal digits *)
Fixpoint int16_from (s : string) (acc : Z) : res Z :=
  match s with
  | EmptyString => Ok acc
  | String c s' =>
      match hex_value c with
      | Some d => int16_from s' (acc * 16 + d)
      | None => Raise (ValueError "invalid literal for int() with base 16")
      end
  end.

Definition int16 (s : string) : res Z :=
  match s with
  | EmptyString => Raise (ValueError "invalid literal for int() with base 16")
  | _ => int16_from s 0
  end.

(** [l[i]] for a list *)
Definition item {A} (l : list A) (i : nat) : res A :=
  match l !! i with
  | Some x => Ok x
  | None => Raise (IndexError "list index out of range")
  end.

(** The text hashed for dimension [i]:
    [text_lower if i < len(text_lower) else words[i % len(words)] if words
    else text_lower]. *)
Definition source_text (text_lower : string) (words : list string) (i : nat) : res string :=
  if Nat.ltb i (String.length text_lower) then Ok text_lower
  else match words with
       | [] => Ok text_lower
       | _ => item words (i mod length words)
       end.

(** The body of the loop, for dimension [i]. *)
Definition dimension (text_lower : string) (words : list string) (i : nat) : res Q :=
  source_text <- source_text text_lower words i;;
  let hash_input := encode_utf8 (source_text +:+ "_" +:+ str_nat i) in
  hash_value <- int16 (substring 0 8 (MD5.hexdigest hash_input));;
  Ok (inject_Z hash_value / inject_Z (2 ^ 31) - 1)%Q.

Definition _generate_fallback_embedding (text : string) : res (list Q) :=
  let text_lower := lower text in
  let words := split text_lower in
  for_each (fun hash_values i =>
              normalized_value <- dimension text_lower words i;;
              Ok (hash_values ++ [normalized_value]))
           (seq 0 768) [].

End Embedding.

Import Embedding.

(** ** [EmbeddingService.similarity]

    Vectors are lists of binary64 floats.  [ddot] is the inner product
    numpy computes for two arrays of one length (it may add the products in
    any order and round them as its routine likes); the norm of a vector is
    the square root of its inner product with itself. *)

Module Similarity.

Import PrimFloat.

Section WithSum.

Variable ddot : list float -> list float -> float.

(** [np.dot(vec1, vec2)] for two one-dimensional arrays *)
Definition np_dot (vec1 vec2 : list float) : res float :=
  if Nat.eqb (length vec1) (length vec2)
  then Ok (ddot vec1 vec2)
  else Raise (ValueError ("shapes (" +:+ str_nat (length vec1) +:+ ",) and ("
                          +:+ str_nat (length vec2) +:+ ",) not aligned: "
                          +:+ str_nat (length vec1) +:+ " (dim 0) != "
                          +:+ str_nat (length vec2) +:+ " (dim 0)")).

(** [np.linalg.norm(vec)] *)
Definition np_linalg_norm (vec : list float) : float :=
  PrimFloat.sqrt (ddot vec vec).

(** The body of the [try] block. *)
Definition cosine (embedding1 embedding2 : list float) : res float :=
  dot_product <- np_dot embedding1 embedding2;;
  let norm1 := np_linalg_norm embedding1 in
  let norm2 := np_linalg_norm embedding2 in
  if PrimFloat.eqb norm1 0 || PrimFloat.eqb norm2 0 then Ok 0%float
  else Ok (PrimFloat.div dot_product (PrimFloat.mul norm1 norm2)).

Definition similarity (embedding1 embedding2 : list float) : float :=
  match cosine embedding1 embedding2 with
  | Ok s => s
  | Raise _ => 0%float
  end.

End WithSum.

(** The inner product that rounds each product and adds from left to
    right. *)
Definition ddot_left (xs ys : list float) : float :=
  fold_left PrimFloat.add (zip_with PrimFloat.mul xs ys) 0%float.

End Similarity.

Import Similarity.

(** ** [EmbeddingService]: embeddings from the model's reply, and retrieval

    [get_embedding] asks the text generation model for 768 numbers and
    reads them from its reply.  [reply] is the outcome of
    [generate_content] followed by the reading of [response.text].  The
    values of an embedding are of a type [F] of floats: [py_float] is
    Python's [float] on a string, [of_exact q] the float of the rational
    value [q] (the values of the fallback embedding are floats exactly) and
    [zero] is [0.0]. *)

Module EmbeddingService.

(** The characters that [re.sub(r'[^\d\.,\-]', '', s)] keeps: digits, the
    period, the comma and the minus sign. *)
Definition numeric_char (c : ascii) : bool :=
  let n := code c in
  ((48 <=? n) && (n <=? 57)) || (n =? 46) || (n =? 44) || (n =? 45).

Fixpoint re_sub_non_numeric (s : string) : string :=
  match s with
  | EmptyString => EmptyString
  | String c s' =>
      if numeric_char c then String c (re_sub_non_numeric s') else re_sub_non_numeric s'
  end.

(** [s.split(sep)] for a one-character separator.  [cur] is the piece
    being read, in reverse. *)
Fixpoint split_on_aux (sep : ascii) (s : string) (cur : list ascii) : list string :=
  match s with
  | EmptyString => [string_of_list_ascii (rev cur)]
  | String c s' =>
      if Ascii.eqb c sep
      then string_of_list_ascii (rev cur) :: split_on_aux sep s' []
      else split_on_aux sep s' (c :: cur)
  end.

Definition split_on (s : string) (sep : ascii) : list string := split_on_aux sep s [].

Fixpoint lstrip_list (cs : list ascii) : list ascii :=
  match cs with
  | [] => []
  | c :: cs' => if isspace c then lstrip_list cs' else cs
  end.

(** [s.strip()] *)
Definition strip (s : string) : string :=
  string_of_list_ascii
    (rev (lstrip_list (rev (lstrip_list (list_ascii_of_string s))))).

Section WithFloat.

Context {F : Type}.
Variable py_float : string -> res F.
Variable of_exact : Q -> F.
Variable zero : F.

(** [[float(x.strip()) for x in embedding_text.split(',') if x.strip()]] *)
Definition parse_values (embedding_text : string) : res (list F) :=
  for_each (fun embedding x =>
              if String.eqb (strip x) "" then Ok embedding
              else v <- py_float (strip x);; Ok (embedding ++ [v]))
           (split_on embedding_text ",") [].

(** The three branches on [len(embedding)]. *)
Definition fit (embedding : list F) : list F :=
  if Nat.eqb (length embedding) 768 then embedding
  else if Nat.ltb 768 (length embedding) then take 768 embedding
  else embedding ++ repeat zero (768 - length embedding).

(** [self._generate_fallback_embedding(text)], as floats. *)
Definition fallback_floats (text : string) : res (list F) :=
  hash_values <- _generate_fallback_embedding text;; Ok (of_exact <$> hash_values).

Definition get_embedding (reply : res string) (text : string) : res (list F) :=
  match
    (response_text <- reply;;
     if String.eqb response_text "" then fallback_floats text
     else
       match parse_values (re_sub_non_numeric (strip response_text)) with
       | Ok embedding => Ok (fit embedding)
       | Raise (ValueError _) | Raise (IndexError _) => fallback_floats text
       | Raise e => Raise e
       end)
  with
  | Ok embedding => Ok embedding
  | Raise _ => fallback_floats text
  end.

(** [get_embeddings_batch]; [reply i] is the outcome of the model for the
    text at index [i]. *)
Definition get_embeddings_batch (reply : nat -> res string) (texts : list string)
  : res (list (list F)) :=
  for_each (fun embeddings '(i, text) =>
              embedding <- get_embedding (reply i) text;;
              Ok (embeddings ++ [embedding]))
           (enumerate texts 0) [].

End WithFloat.

(** *** [find_most_similar] *)

(** An entry of [similarities]. *)
Record scored : Type := {
  r_index : nat;
  r_similarity : PrimFloat.float;
  r_embedding : list PrimFloat.float
}.

(** [similarities.sort(key=lambda x: x['similarity'], reverse=True)].  The
    sort of Python is stable, also in reverse, and compares keys with [<];
    for keys none of which is NaN its result is the list built here, where
    each entry in turn goes behind the entries whose key is not smaller. *)
Fixpoint insert_descending (x : scored) (l : list scored) : list scored :=
  match l with
  | [] => [x]
  | y :: l' =>
      if PrimFloat.ltb (r_similarity y) (r_similarity x) then x :: y :: l'
      else y :: insert_descending x l'
  end.

Definition sort_descending (l : list scored) : list scored :=
  fold_left (fun sorted x => insert_descending x sorted) l [].

(** [l[:k]] for an integer [k], which counts from the end when negative. *)
Definition slice_to {A} (l : list A) (k : Z) : list A :=
  if 0 <=? k then take (Z.to_nat k) l
  else take (length l - Z.to_nat (- k)) l.

Section WithSum.

Variable ddot : list PrimFloat.float -> list PrimFloat.float -> PrimFloat.float.

(** The list [similarities] before it is sorted. *)
Definition score_all (query_embedding : list PrimFloat.float)
    (candidate_embeddings : list (list PrimFloat.float)) : list scored :=
  (fun '(i, candidate) =>
     {| r_index := i;
        r_similarity := similarity ddot query_embedding candidate;
        r_embedding := candidate |}) <$> enumerate candidate_embeddings 0.

Definition find_most_similar (query_embedding : list PrimFloat.float)
    (candidate_embeddings : list (list PrimFloat.float)) (k : Z) : list scored :=
  slice_to (sort_descending (score_all query_embedding candidate_embeddings)) k.

End WithSum.

End EmbeddingService.

(** ** The chat server ([gemini_flask_server.py])

    [chat_manager.sessions] is a Python [dict], which keeps its keys in the
    order of their insertion: here a list of keys and sessions without
    repeated keys.  The chat objects it holds are changed in place by a
    turn; here the session after the turn is put back under its key.

    Requests are handled one after another.  The [data] of a request is
    the outcome of [request.get_json()]: the JSON object the client sent,
    with string values, or [None] for the body [null]; for a body that is
    not JSON the call raises or gives [None], by the version of Flask.  A
    handler calls it inside its [try] and answers 500 when it raises.  A
    handler returns the JSON it answers with and the sessions after the
    request.  [time_now] is [int(time.time())],
    [construct] the outcome of [GeminiCalendarChat()] (the session
    identifier of its context, when it does not raise), [now] and [reply]
    are what the turn receives, and [timestamp] is the
    [datetime.now().isoformat()] of the answer. *)

Module ChatServer.

Abbreviation session_dict := (list (string * GeminiCalendarChat.session)).

(** [d.get(k)] *)
Fixpoint dict_get (d : session_dict) (k : string) : option GeminiCalendarChat.session :=
  match d with
  | [] => None
  | (k', v) :: d' => if String.eqb k' k then Some v else dict_get d' k
  end.

(** [d[k] = v]: in place for a key of [d], at the end for a new key *)
Fixpoint dict_set (d : session_dict) (k : string) (v : GeminiCalendarChat.session) : session_dict :=
  match d with
  | [] => [(k, v)]
  | (k', v') :: d' => if String.eqb k' k then (k', v) :: d' else (k', v') :: dict_set d' k v
  end.

(** [del d[k]] for a key of [d] *)
Fixpoint dict_del (d : session_dict) (k : string) : session_dict :=
  match d with
  | [] => []
  | (k', v') :: d' => if String.eqb k' k then d' else (k', v') :: dict_del d' k
  end.

(** The dictionary [get_calendar_context] returns. *)
Record calendar_context : Type := {
  cc_session_id : string;
  cc_problem_statement : string;
  questions_asked : list string;
  answers_provided : list string;
  current_events_count : nat;
  proposals_generated : nat;
  cc_preferences : Preferences
}.

(** [GeminiCalendarChat.get_calendar_context] *)
Definition get_calendar_context (chat : GeminiCalendarChat.session) : calendar_context :=
  let context := GeminiCalendarChat.context chat in
  {| cc_session_id := session_id context;
     cc_problem_statement := problem_statement context;
     questions_asked := clarifying_questions context;
     answers_provided := user_answers context;
     current_events_count := length (current_events context);
     proposals_generated := length (proposals context);
     cc_preferences := preferences context |}.

(** An entry of [sessions_info]. *)
Record session_info : Type := {
  si_session_id : string;
  si_problem_statement : string;
  si_questions_asked : nat;
  si_proposals_generated : nat
}.

(** The JSON answers, with their status codes. *)
Inductive http_response : Type :=
| started (session_id message timestamp : string)
| replied (response session_id timestamp : string)
| context_of (context : calendar_context) (session_id : string)
| cleared (message : string)
| status_of (active_sessions : nat) (sessions : list session_info) (timestamp : string)
| healthy (timestamp : string) (active_sessions : nat)
| bad_request (error : string)
| server_error (error : string).

Definition status_code (r : http_response) : Z :=
  match r with
  | bad_request _ => 400
  | server_error _ => 500
  | _ => 200
  end.

Definition greeting : string :=
  "Hello! I'm ready to help you optimize your schedule. What scheduling challenge are you facing?".

Section Handlers.

Variable fromisoformat : string -> res datetime.
Variable uuid8 : nat -> string.
Variable str_float : Q -> string.

(** [ChatManager.get_or_create_session] *)
Definition get_or_create_session (time_now : Z) (construct : res string)
    (sessions : session_dict) (session_id : option string)
  : res (string * GeminiCalendarChat.session * session_dict) :=
  let session_id :=
    match session_id with
    | Some given => if String.eqb given "" then "session_" +:+ pretty time_now else given
    | None => "session_" +:+ pretty time_now
    end in
  match dict_get sessions session_id with
  | Some chat => Ok (session_id, chat, sessions)
  | None =>
      uid <- construct;;
      let chat := GeminiCalendarChat.new_session uid in
      Ok (session_id, chat, dict_set sessions session_id chat)
  end.

(** [ChatManager.clear_session] *)
Definition clear_session (sessions : session_dict) (session_id : string) : session_dict :=
  match dict_get sessions session_id with
  | Some _ => dict_del sessions session_id
  | None => sessions
  end.

Definition health_check (timestamp : string) (sessions : session_dict) : http_response :=
  healthy timestamp (length sessions).

Definition start_conversation (time_now : Z) (construct : res string) (now : string)
    (reply : res GeminiCalendarChat.response) (timestamp : string)
    (sessions : session_dict) (data : res (option (gmap string string)))
  : http_response * session_dict :=
  match data with
  | Raise e => (server_error (str_exn e), sessions)
  | Ok data =>
      let data := default ∅ data in
      let session_id := data !! "session_id" in
      match get_or_create_session time_now construct sessions session_id with
      | Raise e => (server_error (str_exn e), sessions)
      | Ok (session_id, chat_instance, sessions) =>
          let '(initial_response, chat_instance) :=
            GeminiCalendarChat.chat_with_calendar_context fromisoformat uuid8 str_float
              now reply chat_instance greeting in
          (started session_id initial_response timestamp,
           dict_set sessions session_id chat_instance)
      end
  end.

Definition send_message (time_now : Z) (construct : res string) (now : string)
    (reply : res GeminiCalendarChat.response) (timestamp : string)
    (sessions : session_dict) (data : res (option (gmap string string)))
  : http_response * session_dict :=
  match data with
  | Raise e => (server_error (str_exn e), sessions)
  | Ok data =>
      match data ≫= (fun data => data !! "message") with
      | None => (bad_request "Message is required", sessions)
      | Some message =>
          match data ≫= (fun data => data !! "session_id") with
          | None | Some "" => (bad_request "Session ID is required", sessions)
          | Some session_id =>
              match get_or_create_session time_now construct sessions (Some session_id) with
              | Raise e => (server_error (str_exn e), sessions)
              | Ok (_, chat_instance, sessions) =>
                  let '(response, chat_instance) :=
                    GeminiCalendarChat.chat_with_calendar_context fromisoformat uuid8
                      str_float now reply chat_instance message in
                  (replied response session_id timestamp,
                   dict_set sessions session_id chat_instance)
              end
          end
      end
  end.

(** [get_context]; [session_id] is [request.args.get('session_id')]. *)
Definition get_context (time_now : Z) (construct : res string)
    (sessions : session_dict) (session_id : option string) : http_response * session_dict :=
  match session_id with
  | None | Some "" => (bad_request "Session ID is required", sessions)
  | Some session_id =>
      match get_or_create_session time_now construct sessions (Some session_id) with
      | Raise e => (server_error (str_exn e), sessions)
      | Ok (_, chat_instance, sessions) =>
          (context_of (get_calendar_context chat_instance) session_id, sessions)
      end
  end.

Definition clear_conversation (sessions : session_dict)
    (data : res (option (gmap string string))) : http_response * session_dict :=
  match data with
  | Raise e => (server_error (str_exn e), sessions)
  | Ok data =>
      let data := default ∅ data in
      match data !! "session_id" with
      | None | Some "" => (cleared "Conversation cleared", [])
      | Some session_id =>
          (cleared "Conversation cleared", clear_session sessions session_id)
      end
  end.

Definition get_status (timestamp : string) (sessions : session_dict) : http_response :=
  let sessions_info :=
    (fun '(session_id, chat_instance) =>
       let context := get_calendar_context chat_instance in
       {| si_session_id := session_id;
          si_problem_statement := cc_problem_statement context;
          si_questions_asked := length (questions_asked context);
          si_proposals_generated := proposals_generated context |}) <$> sessions in
  status_of (length sessions) sessions_info timestamp.

End Handlers.

End ChatServer.

(** * Reference definitions and sample data *)

(** ** Conflicts *)

(** The conflict built by [mk] for the events at a pair of indices. *)
Definition conflict_at {C} (mk : event -> event -> C) (events : list event)
    (p : nat * nat) : C :=
  mk (events !!! p.1) (events !!! p.2).

(** The unordered pair [{i, j}] is among the reported index pairs. *)
Definition reported (ps : list (nat * nat)) (i j : nat) : Prop :=
  (i, j) ∈ ps \/ (j, i) ∈ ps.

Definition start_at (times : list interval) (i : nat) : Z := (times !!! i).1.
Definition end_at (times : list interval) (i : nat) : Z := (times !!! i).2.

(** The successful results of the two classes for the reported pairs
    [ps]: for each pair, in the order of [ps], the record of the two events
    at its indices. *)
Definition chat_success (events : list event) (ps : list (nat * nat)) : Chat.analysis :=
  Chat.Success
    ((fun p => {| Chat.event1 := events !!! p.1; Chat.event2 := events !!! p.2;
                  Chat.type := "time_overlap"; Chat.severity := "high" |}) <$> ps)
    (length ps)
    ("Found " +:+ str_nat (length ps) +:+ " scheduling conflicts").

Definition assistant_success (events : list event) (ps : list (nat * nat))
  : Assistant.analysis :=
  Assistant.Success
    ((fun p => {| Assistant.event1 := events !!! p.1; Assistant.event2 := events !!! p.2;
                  Assistant.type := "time_overlap" |}) <$> ps)
    (length ps).

(** *** Sample events, read with [fromisoformat_basic] *)

Module Sample.

Definition dt_of (s : string) : datetime :=
  match fromisoformat_basic (replace s "Z" "+00:00") with
  | Ok d => d
  | Raise _ => {| wall := 0; utcoffset := None |}
  end.

Definition span (start end_ : string) : interval :=
  (instant (dt_of start), instant (dt_of end_)).

Definition standup : event := ev "Standup" "2025-01-15T09:00:00Z" "2025-01-15T10:30:00Z".
Definition review : event := ev "Review" "2025-01-15T10:00:00Z" "2025-01-15T11:00:00Z".
Definition lunch : event := ev "Lunch" "2025-01-15T11:00:00Z" "2025-01-15T12:00:00Z".
(** A reminder without duration, at 10:15. *)
Definition reminder : event := ev "Reminder" "2025-01-15T10:15:00Z" "2025-01-15T10:15:00Z".
(** An event that ends an hour before it starts. *)
Definition backwards : event := ev "Backwards" "2025-01-15T10:00:00Z" "2025-01-15T09:00:00Z".
Definition workday : event := ev "Workday" "2025-01-15T08:00:00Z" "2025-01-15T17:00:00Z".
(** An event whose times carry no offset. *)
Definition dentist : event := ev "Dentist" "2025-01-15T10:00:00" "2025-01-15T11:00:00".
Definition errand : event := ev "Errand" "2025-01-15T11:00:00" "2025-01-15T12:00:00".
(** An event whose start carries an offset and whose end carries none. *)
Definition handover : event := ev "Handover" "2025-01-15T09:00:00Z" "2025-01-15T10:00:00".

Definition standup_t := span "2025-01-15T09:00:00Z" "2025-01-15T10:30:00Z".
Definition review_t := span "2025-01-15T10:00:00Z" "2025-01-15T11:00:00Z".
Definition lunch_t := span "2025-01-15T11:00:00Z" "2025-01-15T12:00:00Z".
Definition reminder_t := span "2025-01-15T10:15:00Z" "2025-01-15T10:15:00Z".
Definition backwards_t := span "2025-01-15T10:00:00Z" "2025-01-15T09:00:00Z".
Definition workday_t := span "2025-01-15T08:00:00Z" "2025-01-15T17:00:00Z".

End Sample.

(** ** Sleep *)

(** The text of a float with an integral value, for the examples. *)
Definition str_float_integral (x : Q) : string :=
  pretty (Qnum x / Z.pos (Qden x)) +:+ ".0".

(** The start of each event of [timed] parses, to the hour paired with it. *)
Definition hours_of (fromisoformat : string -> res datetime)
    (timed : list (event * Z)) : Prop :=
  Forall (fun p => start_hour fromisoformat p.1 = Ok p.2) timed.

(** The estimate in the words of the specification, over the start hours of
    the events: the first rule that matches decides. *)
Definition spec_estimated_sleep (hours : list Z) : Q :=
  let late_evening := existsb (fun h => 22 <=? h) hours in
  let early_morning := existsb (fun h => h <=? 7) hours in
  if negb late_evening && negb early_morning then 8
  else if late_evening then 6
  else 7.

(** ** Proposals *)

(** What is observed of a change: its type, the title of its event and the
    event it targets. *)
Definition shape (c : ChangeItem) : string * string * option string :=
  (ci_type c, ce_title (ci_event c), ci_target_event_id c).

(** A trigger fires when the lowercased text contains one of its words. *)
Definition fires (words : list string) (problem : string) : bool :=
  existsb (fun w => contains w (lower problem)) words.

(** The builder in the words of the specification: the three triggers in
    their order, each adding one change, and the generic change when none
    fired. *)
Definition spec_build (problem : string) : list (string * string * option string) :=
  let hectic := fires ["hectic"; "busy"] problem in
  let sleep := fires ["sleep"; "tired"] problem in
  let meeting := fires ["meeting"; "conflict"] problem in
  (if hectic then [("add", "Focus Time", None)] else [])
  ++ (if sleep then [("move", "Evening Activity", Some "existing_evening_event")] else [])
  ++ (if meeting then [("adjust", "Meeting Adjustment", Some "conflicting_meeting")] else [])
  ++ (if negb (hectic || sleep || meeting)
      then [("add", "Optimization Block", None)] else []).

Definition well_formed_change (c : ChangeItem) : Prop :=
  ce_source (ci_event c) = "proposed"
  /\ ce_change_type (ci_event c) = ci_type c
  /\ ci_accepted c = "pending"
  /\ ci_rationale c <> "".

(** ** The conversation *)

(** The revision chain of a list of proposals: a proposal without
    predecessor has revision 1, and one that names a predecessor has the
    revision after that of a proposal of the list with that identifier. *)
Definition chain_ok (ps : list Proposal) : Prop :=
  Forall (fun p =>
            match previous_proposal_id p with
            | None => revision p = 1
            | Some q_id =>
                exists q, q ∈ ps /\ id q = q_id /\ revision p = revision q + 1
            end) ps.

(** A turn leaves the proposals as they are or appends one first revision
    without predecessor. *)
Definition appends_first_revision (ps ps' : list Proposal) : Prop :=
  ps' = ps \/
  exists p, ps' = ps ++ [p] /\ revision p = 1 /\ previous_proposal_id p = None.

(** *** A sample session *)

(** Identifiers for the examples: the number of the draw, as eight digits. *)
Definition uuid8_sample (n : nat) : string :=
  "0000000" +:+ str_nat (n mod 10).

Definition first_proposal : Proposal :=
  {| id := "proposal_aaaaaaaa"; revision := 1; changes := [];
     summary := "Schedule optimization for: busy week";
     sleep_assessment := {| sa_estimated_sleep_hours := 7.5; sa_below_target := false;
                            sa_event_counts := Some (2, 1)%nat |};
     status := "pending"; created_at := "2025-01-14T08:00:00";
     previous_proposal_id := None |}.

(** A second revision, derived from [first_proposal]. *)
Definition second_proposal : Proposal :=
  {| id := "proposal_bbbbbbbb"; revision := 2; changes := [];
     summary := "Schedule optimization for: busy week, later mornings";
     sleep_assessment := {| sa_estimated_sleep_hours := 7.5; sa_below_target := false;
                            sa_event_counts := Some (2, 1)%nat |};
     status := "pending"; created_at := "2025-01-14T09:00:00";
     previous_proposal_id := Some "proposal_aaaaaaaa" |}.

Definition revised_session : GeminiCalendarChat.session :=
  {| GeminiCalendarChat.context :=
       set_proposals (set_problem_statement (new_context "session-1") "busy week")
                     [first_proposal; second_proposal];
     GeminiCalendarChat.conversation_history := [];
     GeminiCalendarChat.drawn := 0 |}.

Definition proposal_call : res GeminiCalendarChat.response :=
  Ok {| GeminiCalendarChat.function_call_part :=
          Some (GeminiCalendarChat.generate_schedule_proposal
                  "my schedule is so hectic" None "week");
        GeminiCalendarChat.text := Raise (ValueError "no text part") |}.

(** *** Clarifying questions *)

(** A session with one question asked and not yet answered. *)
Definition asked_context : ConversationContext :=
  set_clarifying_questions (set_problem_statement (new_context "session-1") "busy week")
                           ["Which days are the worst?"].

Definition asked_chat : GeminiCalendarChat.session :=
  {| GeminiCalendarChat.context := asked_context;
     GeminiCalendarChat.conversation_history := [];
     GeminiCalendarChat.drawn := 0 |}.

Definition asked_assistant : GeminiCalendarAssistant.session :=
  {| GeminiCalendarAssistant.context := asked_context;
     GeminiCalendarAssistant.drawn := 0 |}.

Definition chat_says (s : string) : res GeminiCalendarChat.response :=
  Ok {| GeminiCalendarChat.function_call_part := None; GeminiCalendarChat.text := Ok s |}.

Definition assistant_says (s : string) : res GeminiCalendarAssistant.response :=
  Ok {| GeminiCalendarAssistant.function_call_part := None;
        GeminiCalendarAssistant.text := Ok s |}.


(** *** A turn in which text generation fails *)

(** The context after the first statement of a failed turn: the user's
    text becomes the problem statement when there was none. *)
Definition noted (c : ConversationContext) (user_input : string) : ConversationContext :=
  if String.eqb (problem_statement c) "" then set_problem_statement c user_input else c.

(** ** The fallback embedding *)

(** The number a list of bytes denotes, most significant byte first. *)
Definition be_value (bs : list Z) : Z := fold_left (fun acc b => acc * 256 + b) bs 0.

(** The leading 32 bits of the digest: its first four bytes, which are the
    first eight digits of [hexdigest]. *)
Definition leading32 (msg : list Z) : Z := be_value (take 4 (MD5.digest msg)).



Definition normalize (h : Z) : Q := (inject_Z h / inject_Z (2 ^ 31) - 1)%Q.

(** The text hashed for dimension [i], as the code selects it. *)
Definition fallback_source (text : string) (i : nat) : string :=
  let text_lower := lower text in
  let words := split text_lower in
  if Nat.ltb i (String.length text_lower) then text_lower
  else match words with
       | [] => text_lower
       | _ => words !!! (i mod length words)%nat
       end.



(** Dimension [i] as the code computes it: the leading 32 bits. *)
Definition fallback_value (text : string) (i : nat) : Q :=
  normalize (leading32 (encode_utf8 (fallback_source text i +:+ "_" +:+ str_nat i))).

(** ** Conversations of several turns *)

(** What a turn of [GeminiCalendarChat] receives: the reading of the
    clock, the outcome of [generate_content] and the user's text. *)
Record chat_turn : Type := {
  ct_now : string;
  ct_reply : res GeminiCalendarChat.response;
  ct_input : string
}.

(** The session after the turns of a conversation, in their order. *)
Definition chat_run (fromisoformat : string -> res datetime) (uuid8 : nat -> string)
    (str_float : Q -> string) (turns : list chat_turn) (s : GeminiCalendarChat.session)
  : GeminiCalendarChat.session :=
  fold_left (fun s t =>
               (GeminiCalendarChat.chat_with_calendar_context fromisoformat uuid8 str_float
                  (ct_now t) (ct_reply t) s (ct_input t)).2)
            turns s.

(** What the turns add to the conversation history: each user text and the
    answer returned for it. *)
Fixpoint chat_transcript (fromisoformat : string -> res datetime) (uuid8 : nat -> string)
    (str_float : Q -> string) (turns : list chat_turn) (s : GeminiCalendarChat.session)
  : list (string * string) :=
  match turns with
  | [] => []
  | t :: turns' =>
      let '(answer, s') :=
        GeminiCalendarChat.chat_with_calendar_context fromisoformat uuid8 str_float
          (ct_now t) (ct_reply t) s (ct_input t) in
      ("user", ct_input t) :: ("assistant", answer)
        :: chat_transcript fromisoformat uuid8 str_float turns' s'
  end.

(** What a turn of [GeminiCalendarAssistant] receives. *)
Record assistant_turn : Type := {
  at_now : string;
  at_reply : res GeminiCalendarAssistant.response;
  at_follow_up : res GeminiCalendarAssistant.response;
  at_input : string
}.

Definition assistant_run (fromisoformat : string -> res datetime) (uuid8 : nat -> string)
    (json_dumps : GeminiCalendarAssistant.function_result -> res string)
    (turns : list assistant_turn) (s : GeminiCalendarAssistant.session)
  : GeminiCalendarAssistant.session :=
  fold_left (fun s t =>
               (GeminiCalendarAssistant.process_user_input fromisoformat uuid8 json_dumps
                  (at_now t) (at_reply t) (at_follow_up t) s (at_input t)).2)
            turns s.

(** The session after a function call: the one the call returns, and the
    session as it was when the call raises. *)
Definition session_after {R S} (outcome : res (R * S)) (s : S) : S :=
  match outcome with
  | Ok (_, s') => s'
  | Raise _ => s
  end.

(** A call that neither reads the calendar nor asks for a proposal. *)
Definition chat_keeps_context (fc : GeminiCalendarChat.function_call) : bool :=
  match fc with
  | GeminiCalendarChat.get_calendar_events _ _ _
  | GeminiCalendarChat.generate_schedule_proposal _ _ _ => false
  | _ => true
  end.

Definition assistant_keeps_context (fc : GeminiCalendarAssistant.function_call) : bool :=
  match fc with
  | GeminiCalendarAssistant.get_calendar_events _ _ _
  | GeminiCalendarAssistant.generate_schedule_proposal _ _ _ => false
  | _ => true
  end.

(** ** Floats in order *)

(** A float that is a number: it equals itself, which NaN does not. *)
Definition is_number (x : PrimFloat.float) : Prop := PrimFloat.eqb x x = true.

(** The place of a float in the order of the numbers: its class (negative
    infinity, negative, zero, positive, positive infinity), then exponent
    and mantissa, counted downwards for a negative number. *)
Definition sf_rank (x : SpecFloat.spec_float) : Z * Z * Z :=
  match x with
  | SpecFloat.S754_nan => (0, 0, 0)
  | SpecFloat.S754_zero _ => (0, 0, 0)
  | SpecFloat.S754_infinity true => (-2, 0, 0)
  | SpecFloat.S754_infinity false => (2, 0, 0)
  | SpecFloat.S754_finite false m e => (1, e, Z.pos m)
  | SpecFloat.S754_finite true m e => (-1, - e, - Z.pos m)
  end.

Definition rank (x : PrimFloat.float) : Z * Z * Z := sf_rank (FloatOps.Prim2SF x).

(** The lexicographic order of the ranks. *)
Definition rank_lt (a b : Z * Z * Z) : Prop :=
  a.1.1 < b.1.1
  \/ (a.1.1 = b.1.1 /\ (a.1.2 < b.1.2 \/ (a.1.2 = b.1.2 /\ a.2 < b.2))).

(** ** Retrieval *)

(** [a] is ranked before [b]: its similarity is greater, or the two are
    equal and [a] comes first among the candidates. *)
Definition ranked_before (a b : EmbeddingService.scored) : Prop :=
  PrimFloat.ltb (EmbeddingService.r_similarity b) (EmbeddingService.r_similarity a) = true
  \/ (PrimFloat.eqb (EmbeddingService.r_similarity a) (EmbeddingService.r_similarity b) = true
      /\ (EmbeddingService.r_index a < EmbeddingService.r_index b)%nat).

(** ** A reader of decimal numbers

    [float_decimal] reads an optional minus sign, digits and an optional
    period with further digits, to the rational number written; it stands
    for [float] in the examples. *)

Definition is_digit (c : ascii) : bool := bool_decide (is_Some (DT.digit c)).

Fixpoint leading_digits (cs : list ascii) : list ascii :=
  match cs with
  | c :: cs' => if is_digit c then c :: leading_digits cs' else []
  | [] => []
  end.

Definition float_decimal (s : string) : res Q :=
  let invalid := Raise (ValueError ("could not convert string to float: '" +:+ s +:+ "'")) in
  let cs := list_ascii_of_string s in
  let '(sign, body) :=
    match cs with
    | c :: rest => if Ascii.eqb c "-" then (-1, rest) else (1, cs)
    | [] => (1, cs)
    end in
  let whole := leading_digits body in
  match drop (length whole) body with
  | [] =>
      match whole with
      | [] => invalid
      | _ => Ok (inject_Z (sign * default 0 (DT.number whole 0)))
      end
  | c :: fraction =>
      if Ascii.eqb c "." && negb (bool_decide (whole = []) && bool_decide (fraction = []))
      then match DT.number fraction 0%Z with
           | Some f =>
               Ok (inject_Z sign
                   * (inject_Z (default 0%Z (DT.number whole 0%Z))
                      + inject_Z f / inject_Z (10 ^ Z.of_nat (length fraction))))%Q
           | None => invalid
           end
      else invalid
  end.

(** ** Requests to the chat server *)

(** The body of a request with a session identifier and a message. *)
Definition message_request (session_id message : string) : gmap string string :=
  <["message" := message]> {["session_id" := session_id]}.

(** The body of a request with a session identifier only. *)
Definition session_request (session_id : string) : gmap string string :=
  {["session_id" := session_id]}.

(** * Theorems *)

(** ** The embedding of Python at work *)

Example lower_Tired : lower "So TIRED" = "so tired".
Proof. reflexivity. Qed.

Example split_two :
  split ("  my  schedule" +:+ String (chr 9) "is ") = ["my"; "schedule"; "is"].
Proof. reflexivity. Qed.

Example contains_mid : contains "sleep" "i need sleep now" = true.
Proof. reflexivity. Qed.

Example replace_Z : replace "2025-01-15T09:00:00Z" "Z" "+00:00" = "2025-01-15T09:00:00+00:00".
Proof. reflexivity. Qed.

Example toordinal_2025_01_15 : toordinal 2025 1 15 = 739266.
Proof. reflexivity. Qed.

Example parse_utc_hour :
  (d <- fromisoformat_basic "2025-01-15T22:30:00+00:00";; Ok (hour d, utcoffset d))
  = Ok (22, Some 0).
Proof. vm_compute. reflexivity. Qed.

Example parse_offset_instant :
  (a <- fromisoformat_basic "2025-01-15T09:00:00+02:00";;
   b <- fromisoformat_basic "2025-01-15T08:00:00+00:00";; lt a b) = Ok true.
Proof. vm_compute. reflexivity. Qed.

Example parse_mixed_awareness :
  (a <- fromisoformat_basic "2025-01-15T09:00:00";;
   b <- fromisoformat_basic "2025-01-15T09:00:00+00:00";; lt a b)
  = Raise (TypeError "can't compare offset-naive and offset-aware datetimes").
Proof. vm_compute. reflexivity. Qed.

Example back_to_back_no_conflict :
  Chat._analyze_schedule_conflicts fromisoformat_basic
    [ev "a" "2025-01-15T09:00:00Z" "2025-01-15T10:00:00Z";
     ev "b" "2025-01-15T10:00:00Z" "2025-01-15T11:00:00Z"]
  = Chat.Success [] 0 "Found 0 scheduling conflicts".
Proof. vm_compute. reflexivity. Qed.

Example half_hour_overlap :
  let a := ev "a" "2025-01-15T09:00:00Z" "2025-01-15T10:30:00Z" in
  let b := ev "b" "2025-01-15T10:00:00Z" "2025-01-15T11:00:00Z" in
  Chat._analyze_schedule_conflicts fromisoformat_basic [a; b]
  = Chat.Success [Chat.mk_conflict a b] 1 "Found 1 scheduling conflicts".
Proof. vm_compute. reflexivity. Qed.

Example missing_end_key :
  Chat._analyze_schedule_conflicts fromisoformat_basic
    [<["start" := "2025-01-15T09:00:00Z"]> ∅; ev "b" "2025-01-15T10:00:00Z" "2025-01-15T11:00:00Z"]
  = Chat.Failure "Failed to analyze conflicts: 'end'".
Proof. vm_compute. reflexivity. Qed.

(** ** Properties of the conflict detector *)

Section ConflictFacts.

Variable fromisoformat : string -> res datetime.

Lemma lt_same_awareness (a b : datetime) :
  aware a = aware b -> DT.lt a b = Ok (instant a <? instant b).
Proof.
  unfold aware, DT.lt, instant.
  destruct (utcoffset a), (utcoffset b); simpl; intros H.
  - reflexivity.
  - discriminate.
  - discriminate.
  - rewrite !Z.sub_0_r. reflexivity.
Qed.

Lemma events_overlap_stamped aw e1 e2 t1 t2 :
  stamped fromisoformat aw e1 t1 -> stamped fromisoformat aw e2 t2 ->
  _events_overlap fromisoformat e1 e2 = Ok (overlapb t1 t2).
Proof.
  intros (s1 & d1 & Hs1 & Hd1 & As1 & Ad1 & Is1 & Id1)
         (s2 & d2 & Hs2 & Hd2 & As2 & Ad2 & Is2 & Id2).
  unfold _events_overlap. rewrite Hs1, Hd1, Hs2, Hd2. simpl.
  rewrite (lt_same_awareness s1 d2) by congruence. simpl.
  rewrite (lt_same_awareness s2 d1) by congruence.
  unfold overlapb. rewrite Is1, Id1, Is2, Id2.
  destruct (t1.1 <? t2.2); reflexivity.
Qed.

Section Loops.

Context {C : Type} (mk : event -> event -> C).
Variables (aw : bool) (events : list event) (times : list interval).
Hypothesis Hst : Forall2 (stamped fromisoformat aw) events times.

Lemma stamped_at i :
  (i < length events)%nat ->
  events !! i = Some (events !!! i) /\
  stamped fromisoformat aw (events !!! i) (times !!! i).
Proof.
  intros Hi.
  assert (He : events !! i = Some (events !!! i))
    by (apply list_lookup_lookup_total_lt; exact Hi).
  assert (Ht : times !! i = Some (times !!! i)).
  { apply list_lookup_lookup_total_lt.
    rewrite <- (Forall2_length _ _ _ Hst). exact Hi. }
  split; [exact He|].
  exact (Forall2_lookup_lr _ _ _ _ _ _ Hst He Ht).
Qed.

Lemma inner_loop i m : forall k acc,
  (i < length events)%nat -> (k + m = length events)%nat ->
  for_each (fun conflicts '(j, event2) =>
              b <- _events_overlap fromisoformat (events !!! i) event2;;
              Ok (if b : bool then conflicts ++ [mk (events !!! i) event2]
                  else conflicts))
           (enumerate (drop k events) k) acc
  = Ok (acc ++ ((fun j => conflict_at mk events (i, j)) <$>
                  filter (fun j => overlapb (times !!! i) (times !!! j) = true)
                         (seq k m))).
Proof.
  induction m as [|m IH]; intros k acc Hi Hk.
  - rewrite drop_ge by lia. simpl. rewrite app_nil_r. reflexivity.
  - destruct (stamped_at k) as [Hk1 Hk2]; [lia|].
    destruct (stamped_at i) as [_ Hi2]; [lia|].
    rewrite (drop_S _ _ _ Hk1). cbn [enumerate for_each seq].
    rewrite (events_overlap_stamped _ _ _ _ _ Hi2 Hk2). cbn [bind].
    rewrite IH by lia.
    rewrite filter_cons.
    destruct (decide (overlapb (times !!! i) (times !!! k) = true)) as [Ho|Ho].
    + rewrite Ho. rewrite fmap_cons, <- app_assoc. reflexivity.
    + apply not_true_is_false in Ho. rewrite Ho. reflexivity.
Qed.

Lemma outer_loop m : forall i acc,
  (i + m = length events)%nat ->
  for_each (fun conflicts '(i, event1) =>
    for_each (fun conflicts '(j, event2) =>
        b <- _events_overlap fromisoformat event1 event2;;
        Ok (if b : bool then conflicts ++ [mk event1 event2] else conflicts))
      (enumerate (drop (i + 1) events) (i + 1)) conflicts)
    (enumerate (drop i events) i) acc
  = Ok (acc ++ (conflict_at mk events <$>
          (i' ← seq i m;
           (fun j => (i', j)) <$>
             filter (fun j => overlapb (times !!! i') (times !!! j) = true)
                    (seq (S i') (length times - S i'))))).
Proof.
  induction m as [|m IH]; intros i acc Hi.
  - rewrite drop_ge by lia. simpl. rewrite app_nil_r. reflexivity.
  - destruct (stamped_at i) as [Hi1 _]; [lia|].
    rewrite (drop_S _ _ _ Hi1). cbn [enumerate for_each seq].
    rewrite (inner_loop i (length times - S i)).
    2: lia.
    2: { rewrite <- (Forall2_length _ _ _ Hst). lia. }
    cbn [bind]. rewrite IH by lia.
    rewrite bind_cons, fmap_app, <- app_assoc, <- list_fmap_compose.
    rewrite Nat.add_1_r. reflexivity.
Qed.

Lemma conflict_loop_pairs :
  conflict_loop fromisoformat mk events
  = Ok (conflict_at mk events <$> conflict_pairs times).
Proof.
  unfold conflict_loop, conflict_pairs.
  rewrite <- (Forall2_length _ _ _ Hst).
  rewrite <- (drop_0 events) at 1.
  rewrite (outer_loop (length events) 0 []) by lia.
  rewrite (Forall2_length _ _ _ Hst). reflexivity.
Qed.

End Loops.

(** Membership in [conflict_pairs]: exactly the pairs [i < j] below the
    length whose intervals overlap. *)
Lemma elem_of_conflict_pairs (times : list interval) (i j : nat) :
  (i, j) ∈ conflict_pairs times <->
  (i < j < length times)%nat /\
  (times !!! i).1 < (times !!! j).2 /\ (times !!! j).1 < (times !!! i).2.
Proof.
  unfold conflict_pairs. rewrite list_elem_of_bind. split.
  - intros (i' & Hin & Hi'). apply list_elem_of_fmap in Hin as (j' & Heq & Hj').
    inversion Heq; subst i' j'. clear Heq.
    apply list_elem_of_filter in Hj' as [Ho Hj'].
    apply elem_of_seq in Hi', Hj'. unfold overlapb in Ho.
    apply andb_true_iff in Ho as [H1 H2].
    apply Z.ltb_lt in H1, H2. split; [lia|]. split; assumption.
  - intros (Hij & H1 & H2). exists i. split.
    + apply list_elem_of_fmap. exists j. split; [reflexivity|].
      apply list_elem_of_filter. split.
      * unfold overlapb. apply andb_true_iff. split; apply Z.ltb_lt; assumption.
      * apply elem_of_seq. lia.
    + apply elem_of_seq. lia.
Qed.

Lemma NoDup_conflict_pairs (times : list interval) : NoDup (conflict_pairs times).
Proof.
  unfold conflict_pairs. apply NoDup_bind.
  - intros i1 i2 [a b] _ _ H1 H2.
    apply list_elem_of_fmap in H1 as (j1 & E1 & _).
    apply list_elem_of_fmap in H2 as (j2 & E2 & _). congruence.
  - intros i _. apply NoDup_fmap_2.
    + intros j1 j2 E. congruence.
    + apply NoDup_filter, NoDup_seq.
  - apply NoDup_seq.
Qed.

End ConflictFacts.

Lemma reported_iff (times : list interval) (i j : nat) :
  (i < length times)%nat -> (j < length times)%nat ->
  reported (conflict_pairs times) i j <->
  i <> j /\ start_at times i < end_at times j /\ start_at times j < end_at times i.
Proof.
  intros Hi Hj. unfold reported, start_at, end_at.
  rewrite !elem_of_conflict_pairs. split.
  - intros [(Hlt & H1 & H2)|(Hlt & H1 & H2)]; (split; [lia|split; assumption]).
  - intros (Hne & H1 & H2).
    destruct (decide (i < j)%nat); [left|right]; (split; [lia|split; assumption]).
Qed.

(** C1, as the code has it.  For a list of events whose starts and ends
    parse to timestamps of one time line (all with a UTC offset, or all
    without), [_analyze_schedule_conflicts] succeeds, and its conflicts are,
    in the order of [conflict_pairs], the records with [event1] the event
    at [i], [event2] the event at [j], the type "time_overlap" and the
    severity "high", for the index pairs [(i, j)] of [conflict_pairs]: a
    list without repetition that holds [(i, j)] exactly when [i < j] are
    indices of the list with [start_i < end_j] and [start_j < end_i]; the
    count and the message give their number.  Hence an unordered pair of
    distinct events is reported (once) iff the two overlap, no event is
    reported against itself, the overlap test is symmetric, and two events
    that only touch are not a conflict. *)
Theorem analyze_conflicts_exact
    (fromisoformat : string -> res datetime) (aw : bool)
    (events : list event) (times : list interval) :
  Forall2 (stamped fromisoformat aw) events times ->
  let ps := conflict_pairs times in
  Chat._analyze_schedule_conflicts fromisoformat events
    = Chat.Success
        ((fun p => {| Chat.event1 := events !!! p.1; Chat.event2 := events !!! p.2;
                      Chat.type := "time_overlap"; Chat.severity := "high" |}) <$> ps)
        (length ps)
        ("Found " +:+ str_nat (length ps) +:+ " scheduling conflicts")
  /\ NoDup ps
  /\ (forall i j, (i, j) ∈ ps <->
        (i < j < length events)%nat /\
        start_at times i < end_at times j /\ start_at times j < end_at times i)
  /\ (forall i j, (i < length events)%nat -> (j < length events)%nat ->
        (reported ps i j <->
           i <> j /\ start_at times i < end_at times j /\ start_at times j < end_at times i)
        /\ ((i, j) ∈ ps -> (j, i) ∉ ps)
        /\ ((i, i) ∉ ps)
        /\ _events_overlap fromisoformat (events !!! i) (events !!! j)
           = _events_overlap fromisoformat (events !!! j) (events !!! i)
        /\ (end_at times i = start_at times j ->
            _events_overlap fromisoformat (events !!! i) (events !!! j) = Ok false
            /\ ~ reported ps i j)).
Proof.
  intros Hst ps. pose proof (Forall2_length _ _ _ Hst) as Hlen.
  split; [|split; [|split]].
  - unfold Chat._analyze_schedule_conflicts.
    rewrite (conflict_loop_pairs fromisoformat Chat.mk_conflict aw events times Hst).
    unfold conflict_at, Chat.mk_conflict. fold ps. rewrite !length_fmap. reflexivity.
  - apply NoDup_conflict_pairs.
  - intros i j. unfold ps. rewrite elem_of_conflict_pairs, Hlen. reflexivity.
  - intros i j Hi Hj.
    destruct (stamped_at fromisoformat aw events times Hst i Hi) as [_ Si].
    destruct (stamped_at fromisoformat aw events times Hst j Hj) as [_ Sj].
    assert (Hrep := reported_iff times i j ltac:(lia) ltac:(lia)).
    split; [exact Hrep|]. split; [|split; [|split]].
    + unfold ps. rewrite !elem_of_conflict_pairs. lia.
    + unfold ps. rewrite elem_of_conflict_pairs. lia.
    + rewrite (events_overlap_stamped _ _ _ _ _ _ Si Sj).
      rewrite (events_overlap_stamped _ _ _ _ _ _ Sj Si).
      unfold overlapb. rewrite andb_comm. reflexivity.
    + intros Htouch. split.
      * rewrite (events_overlap_stamped _ _ _ _ _ _ Si Sj).
        unfold overlapb, start_at, end_at in *.
        rewrite Htouch, Z.ltb_irrefl, andb_false_r. reflexivity.
      * fold ps in Hrep. rewrite Hrep. lia.
Qed.

(** C1 fails as stated.  The times of the three events all parse, and the
    first two overlap; but the third carries no UTC offset where the others
    do, times of the two kinds do not compare, and the detector returns the
    error dictionary: no pair is emitted, not even the overlapping one.
    The overlap test is not symmetric either: an event with times of both
    kinds is compared with another without error in one order, and raises
    in the other, so the result for a list depends on the order of its
    events. *)
Lemma mixed_offsets_emit_no_pair :
  Forall (fun e => exists ds de,
            parse_time fromisoformat_basic e "start" = Ok ds
            /\ parse_time fromisoformat_basic e "end" = Ok de)
         [Sample.standup; Sample.review; Sample.dentist; Sample.errand; Sample.handover]
  /\ _events_overlap fromisoformat_basic Sample.standup Sample.review = Ok true
  /\ Chat._analyze_schedule_conflicts fromisoformat_basic
       [Sample.standup; Sample.review; Sample.dentist]
     = Chat.Failure
         "Failed to analyze conflicts: can't compare offset-naive and offset-aware datetimes"
  /\ _events_overlap fromisoformat_basic Sample.errand Sample.handover = Ok false
  /\ _events_overlap fromisoformat_basic Sample.handover Sample.errand
     = Raise (TypeError "can't compare offset-naive and offset-aware datetimes")
  /\ Chat._analyze_schedule_conflicts fromisoformat_basic [Sample.errand; Sample.handover]
     = Chat.Success [] 0 "Found 0 scheduling conflicts"
  /\ Chat._analyze_schedule_conflicts fromisoformat_basic [Sample.handover; Sample.errand]
     = Chat.Failure
         "Failed to analyze conflicts: can't compare offset-naive and offset-aware datetimes".
Proof.
  split; [|repeat split; vm_compute; reflexivity].
  repeat constructor; eexists; eexists; split; vm_compute; reflexivity.
Qed.

Lemma chat_analyze_stamped fromisoformat aw events times :
  Forall2 (stamped fromisoformat aw) events times ->
  Chat._analyze_schedule_conflicts fromisoformat events
  = chat_success events (conflict_pairs times).
Proof.
  intros Hst. unfold Chat._analyze_schedule_conflicts, chat_success.
  rewrite (conflict_loop_pairs fromisoformat Chat.mk_conflict aw events times Hst).
  unfold conflict_at. rewrite !length_fmap. reflexivity.
Qed.

Lemma assistant_analyze_stamped fromisoformat aw events times :
  Forall2 (stamped fromisoformat aw) events times ->
  Assistant._analyze_schedule_conflicts fromisoformat events
  = assistant_success events (conflict_pairs times).
Proof.
  intros Hst. unfold Assistant._analyze_schedule_conflicts, assistant_success.
  rewrite (conflict_loop_pairs fromisoformat Assistant.mk_conflict aw events times Hst).
  unfold conflict_at. rewrite !length_fmap. reflexivity.
Qed.

Lemma stamped_sample_event title s e :
  fromisoformat_basic (replace s "Z" "+00:00") = Ok (Sample.dt_of s) ->
  fromisoformat_basic (replace e "Z" "+00:00") = Ok (Sample.dt_of e) ->
  aware (Sample.dt_of s) = true -> aware (Sample.dt_of e) = true ->
  stamped fromisoformat_basic true (ev title s e) (Sample.span s e).
Proof.
  intros Hs He As Ae. exists (Sample.dt_of s), (Sample.dt_of e).
  unfold parse_time, getitem, ev.
  assert (L1 : (<["title":=title]> (<["start":=s]> (<["end":=e]> ∅)) : event) !! "start" = Some s)
    by (rewrite lookup_insert_ne by discriminate; apply lookup_insert_eq).
  assert (L2 : (<["title":=title]> (<["start":=s]> (<["end":=e]> ∅)) : event) !! "end" = Some e)
    by (rewrite !lookup_insert_ne by discriminate; apply lookup_insert_eq).
  rewrite L1, L2. cbn [bind]. repeat split; assumption.
Defined.

Ltac stamped_sample :=
  repeat first
    [ apply Forall2_nil_2
    | apply Forall2_cons_2
    | apply stamped_sample_event; vm_compute; reflexivity ].

Lemma analyze_conflicts_exact_witness :
  Chat._analyze_schedule_conflicts fromisoformat_basic
    [Sample.standup; Sample.review; Sample.lunch]
  = chat_success [Sample.standup; Sample.review; Sample.lunch] [(0, 1)%nat].
Proof.
  exact (proj1 (analyze_conflicts_exact fromisoformat_basic true
                  [Sample.standup; Sample.review; Sample.lunch]
                  [Sample.standup_t; Sample.review_t; Sample.lunch_t]
                  ltac:(stamped_sample))).
Defined.

(** C2, as the code has it.  An event without duration (start = end = t)
    is reported against another event exactly when t lies strictly inside
    the other event's interval; so it conflicts neither with an event it
    only touches or lies outside of, nor with another event without
    duration. *)
Theorem zero_duration_conflict_iff_inside
    (fromisoformat : string -> res datetime) (aw : bool)
    (events : list event) (times : list interval) (i j : nat) :
  Forall2 (stamped fromisoformat aw) events times ->
  (i < length events)%nat -> (j < length events)%nat -> i <> j ->
  start_at times i = end_at times i ->
  let ps := conflict_pairs times in
  Chat._analyze_schedule_conflicts fromisoformat events = chat_success events ps
  /\ (reported ps i j <->
        start_at times j < start_at times i /\ start_at times i < end_at times j)
  /\ _events_overlap fromisoformat (events !!! i) (events !!! j)
     = Ok ((start_at times j <? start_at times i) && (start_at times i <? end_at times j))
  /\ (start_at times j = end_at times j -> ~ reported ps i j).
Proof.
  intros Hst Hi Hj Hne Hz ps.
  pose proof (Forall2_length _ _ _ Hst) as Hlen.
  assert (Hrep := reported_iff times i j ltac:(lia) ltac:(lia)). fold ps in Hrep.
  destruct (stamped_at fromisoformat aw events times Hst i Hi) as [_ Si].
  destruct (stamped_at fromisoformat aw events times Hst j Hj) as [_ Sj].
  split; [apply (chat_analyze_stamped _ aw); exact Hst|].
  split; [rewrite Hrep; lia|]. split.
  - rewrite (events_overlap_stamped _ _ _ _ _ _ Si Sj).
    unfold overlapb, start_at, end_at in *. rewrite <- Hz, andb_comm. reflexivity.
  - intros Hzj. rewrite Hrep. lia.
Qed.

Lemma zero_duration_conflict_iff_inside_witness :
  reported (conflict_pairs [Sample.workday_t; Sample.reminder_t]) 1 0
  /\ ~ reported (conflict_pairs [Sample.standup_t; Sample.reminder_t; Sample.reminder_t]) 1 2.
Proof.
  split.
  - apply (proj1 (proj2 (zero_duration_conflict_iff_inside fromisoformat_basic true
                  [Sample.workday; Sample.reminder]
                  [Sample.workday_t; Sample.reminder_t] 1 0
                  ltac:(stamped_sample) ltac:(simpl; lia) ltac:(simpl; lia)
                  ltac:(lia) ltac:(reflexivity)))).
    split; vm_compute; reflexivity.
  - apply (proj2 (proj2 (proj2 (zero_duration_conflict_iff_inside fromisoformat_basic true
                  [Sample.standup; Sample.reminder; Sample.reminder]
                  [Sample.standup_t; Sample.reminder_t; Sample.reminder_t] 1 2
                  ltac:(stamped_sample) ltac:(simpl; lia) ltac:(simpl; lia)
                  ltac:(lia) ltac:(reflexivity))))).
    reflexivity.
Defined.

(** C2 fails as stated: a reminder at 10:15 without duration is reported as
    a conflict with the event that runs from 08:00 to 17:00. *)
Lemma zero_duration_inside_is_reported :
  _events_overlap fromisoformat_basic Sample.reminder Sample.workday = Ok true
  /\ Chat._analyze_schedule_conflicts fromisoformat_basic [Sample.workday; Sample.reminder]
     = Chat.Success
         [{| Chat.event1 := Sample.workday; Chat.event2 := Sample.reminder;
             Chat.type := "time_overlap"; Chat.severity := "high" |}] 1
         "Found 1 scheduling conflicts".
Proof. split; vm_compute; reflexivity. Qed.

(** C3, as the code has it.  Neither class validates intervals: for a list
    whose timestamps parse on one time line the detector returns its
    successful result, never an error, whether or not an event ends before
    it starts; such an event takes part in the pairwise comparison like any
    other, and is reported against event [j] exactly when
    [start_j < end_i] and [start_i < end_j]. *)
Theorem malformed_interval_is_compared
    (fromisoformat : string -> res datetime) (aw : bool)
    (events : list event) (times : list interval) (i j : nat) :
  Forall2 (stamped fromisoformat aw) events times ->
  (i < length events)%nat -> (j < length events)%nat ->
  end_at times i < start_at times i ->
  let ps := conflict_pairs times in
  Chat._analyze_schedule_conflicts fromisoformat events = chat_success events ps
  /\ Assistant._analyze_schedule_conflicts fromisoformat events = assistant_success events ps
  /\ (reported ps i j <->
        start_at times j < end_at times i /\ start_at times i < end_at times j).
Proof.
  intros Hst Hi Hj Hbad ps.
  pose proof (Forall2_length _ _ _ Hst) as Hlen.
  assert (Hrep := reported_iff times i j ltac:(lia) ltac:(lia)). fold ps in Hrep.
  split; [apply (chat_analyze_stamped _ aw); exact Hst|].
  split; [apply (assistant_analyze_stamped _ aw); exact Hst|].
  rewrite Hrep. split.
  - intros (_ & H1 & H2). split; assumption.
  - intros (H1 & H2). split; [|split; assumption].
    intros ->. lia.
Qed.

Lemma malformed_interval_is_compared_witness :
  Chat._analyze_schedule_conflicts fromisoformat_basic [Sample.backwards; Sample.workday]
  = chat_success [Sample.backwards; Sample.workday] [(0, 1)%nat].
Proof.
  exact (proj1 (malformed_interval_is_compared fromisoformat_basic true
                  [Sample.backwards; Sample.workday]
                  [Sample.backwards_t; Sample.workday_t] 0 1
                  ltac:(stamped_sample) ltac:(simpl; lia) ltac:(simpl; lia)
                  ltac:(vm_compute; reflexivity))).
Defined.

(** C3 fails as stated: with an event that ends before it starts in the
    list, both classes return a successful analysis (no error), in which
    that event is even reported as a conflict. *)
Lemma malformed_interval_not_rejected :
  Chat._analyze_schedule_conflicts fromisoformat_basic [Sample.backwards; Sample.workday]
  = Chat.Success [Chat.mk_conflict Sample.backwards Sample.workday] 1
      "Found 1 scheduling conflicts"
  /\ Assistant._analyze_schedule_conflicts fromisoformat_basic [Sample.backwards; Sample.workday]
     = Assistant.Success [Assistant.mk_conflict Sample.backwards Sample.workday] 1
  /\ Chat._analyze_schedule_conflicts fromisoformat_basic [Sample.backwards]
     = Chat.Success [] 0 "Found 0 scheduling conflicts".
Proof. repeat split; vm_compute; reflexivity. Qed.

Example office_hours_sleep :
  _assess_sleep_impact fromisoformat_basic str_float_integral
    [Sample.standup; Sample.review; Sample.lunch] 7
  = Assessed {| estimated_sleep_hours := 8; below_target := false;
                evening_events_count := 0; morning_events_count := 0;
                message := "Estimated sleep: 8.0h (target: 7.0h)" |}.
Proof. vm_compute. reflexivity. Qed.

Example late_event_sleep :
  _assess_sleep_impact fromisoformat_basic str_float_integral
    [Sample.standup; ev "Call" "2025-01-15T22:30:00Z" "2025-01-15T23:00:00Z"] 7
  = Assessed {| estimated_sleep_hours := 6; below_target := true;
                evening_events_count := 1; morning_events_count := 0;
                message := "Estimated sleep: 6.0h (target: 7.0h)" |}.
Proof. vm_compute. reflexivity. Qed.

(** ** Properties of the sleep estimator *)

Section SleepFacts.

Variable fromisoformat : string -> res datetime.

Lemma Qltb_lt (x y : Q) : Qltb x y = true <-> (x < y)%Q.
Proof.
  unfold Qltb. rewrite Qlt_alt. destruct (x ?= y)%Q; split; congruence.
Qed.

(** A comprehension whose condition succeeds on every element keeps the
    elements on which it is true. *)
Lemma select_filter {A B} (pred : A -> res bool) (P : A * B -> Prop)
    `{!forall p, Decision (P p)} (l : list (A * B)) :
  Forall (fun p => pred p.1 = Ok (bool_decide (P p))) l ->
  select pred l.*1 = Ok (filter P l).*1.
Proof.
  unfold select. intros Hl.
  enough (G : forall acc,
    for_each (fun acc x => b <- pred x;; Ok (if b : bool then acc ++ [x] else acc)) l.*1 acc
    = Ok (acc ++ (filter P l).*1)) by apply (G []).
  induction Hl as [|p l Hp Hl IH]; intros acc.
  - simpl. rewrite app_nil_r. reflexivity.
  - rewrite fmap_cons. cbn [for_each]. rewrite Hp. cbn [bind].
    rewrite IH, filter_cons. destruct (decide (P p)) as [HP|HP].
    + rewrite bool_decide_eq_true_2 by exact HP.
      rewrite fmap_cons, <- app_assoc. reflexivity.
    + rewrite bool_decide_eq_false_2 by exact HP. reflexivity.
Qed.

Lemma classify_timed (timed : list (event * Z)) :
  hours_of fromisoformat timed ->
  classify fromisoformat timed.*1
  = Ok ((filter (fun p => 18 <= p.2) timed).*1, (filter (fun p => p.2 <= 8) timed).*1).
Proof.
  unfold classify. intros Hours.
  enough (G : forall ev0 mo0,
    for_each (fun '(evening_events, morning_events) event =>
        hour <- start_hour fromisoformat event;;
        Ok (if 18 <=? hour then (evening_events ++ [event], morning_events)
            else if hour <=? 8 then (evening_events, morning_events ++ [event])
            else (evening_events, morning_events)))
      timed.*1 (ev0, mo0)
    = Ok (ev0 ++ (filter (fun p => 18 <= p.2) timed).*1,
          mo0 ++ (filter (fun p => p.2 <= 8) timed).*1)) by apply (G [] []).
  induction Hours as [|[e h] l Hp Hl IH]; intros ev0 mo0.
  - simpl. rewrite !app_nil_r. reflexivity.
  - rewrite fmap_cons. cbn [for_each fst]. simpl in Hp. rewrite Hp. cbn [bind].
    rewrite !filter_cons. cbn [snd].
    destruct (Z.leb_spec 18 h) as [H18|H18].
    + rewrite IH. rewrite decide_True by lia. rewrite decide_False by lia.
      rewrite fmap_cons, <- app_assoc. reflexivity.
    + destruct (Z.leb_spec h 8) as [H8|H8]; rewrite IH.
      * rewrite decide_False by lia. rewrite decide_True by lia.
        rewrite fmap_cons, <- app_assoc. reflexivity.
      * rewrite decide_False by lia. rewrite decide_False by lia. reflexivity.
Qed.

Lemma hours_of_filter (timed : list (event * Z))
    (P : event * Z -> Prop) `{!forall p, Decision (P p)}
    (f : Z -> bool) (Q : event * Z -> Prop) `{!forall p, Decision (Q p)} :
  hours_of fromisoformat timed ->
  (forall p, f p.2 = bool_decide (Q p)) ->
  Forall (fun p => (h <- start_hour fromisoformat p.1;; Ok (f h))
                   = Ok (bool_decide (Q p))) (filter P timed).
Proof.
  intros Hours Hf. apply Forall_forall. intros p Hp.
  apply list_elem_of_filter in Hp as [_ Hp].
  rewrite (proj1 (Forall_forall _ _) Hours p Hp). cbn [bind]. rewrite Hf. reflexivity.
Qed.

Lemma late_count (timed : list (event * Z)) :
  length (filter (fun p : event * Z => 22 <= p.2) (filter (fun p => 18 <= p.2) timed))
  = length (filter (fun h => 22 <= h) timed.*2).
Proof.
  induction timed as [|[e h] l IH]; [reflexivity|].
  rewrite fmap_cons, !filter_cons. cbn [snd].
  destruct (decide (18 <= h)), (decide (22 <= h)); try lia;
    rewrite ?filter_cons; cbn [snd];
    rewrite ?decide_True by lia; rewrite ?decide_False by lia; simpl; lia.
Qed.

Lemma early_count (timed : list (event * Z)) :
  length (filter (fun p : event * Z => p.2 <= 7) (filter (fun p => p.2 <= 8) timed))
  = length (filter (fun h => h <= 7) timed.*2).
Proof.
  induction timed as [|[e h] l IH]; [reflexivity|].
  rewrite fmap_cons, !filter_cons. cbn [snd].
  destruct (decide (h <= 8)), (decide (h <= 7)); try lia;
    rewrite ?filter_cons; cbn [snd];
    rewrite ?decide_True by lia; rewrite ?decide_False by lia; simpl; lia.
Qed.

Lemma count_snd (timed : list (event * Z)) (Q : Z -> Prop) `{!forall h, Decision (Q h)} :
  length (filter (fun p : event * Z => Q p.2) timed) = length (filter Q timed.*2).
Proof.
  induction timed as [|[e h] l IH]; [reflexivity|].
  rewrite fmap_cons, !filter_cons. cbn [snd].
  destruct (decide (Q h)); simpl; lia.
Qed.

End SleepFacts.

Lemma none_selected (p : Z -> bool) (P : Z -> Prop) `{!forall h, Decision (P h)}
    (hours : list Z) :
  (forall h, p h = bool_decide (P h)) ->
  Nat.eqb (length (filter P hours)) 0 = negb (existsb p hours)
  /\ Nat.ltb 0 (length (filter P hours)) = existsb p hours.
Proof.
  intros Hp. induction hours as [|h l [IH1 IH2]]; [split; reflexivity|].
  rewrite filter_cons. cbn [existsb]. rewrite Hp.
  destruct (decide (P h)) as [HP|HP].
  - rewrite bool_decide_eq_true_2 by exact HP. split; reflexivity.
  - rewrite bool_decide_eq_false_2 by exact HP. split; assumption.
Qed.

(** C4. For events whose starts parse, with start hours [hours]:
    [classify] puts into [evening_events] exactly the events with hour >= 18
    and into [morning_events] exactly those with hour <= 8, and
    [_assess_sleep_impact] returns the estimate of the first matching rule
    (8 without an hour >= 22 and without an hour <= 7, 6 with an hour >= 22,
    7 otherwise), [below_target] = (estimate < target), and the numbers of
    evening and morning events. *)
Theorem assess_sleep_impact_rules
    (fromisoformat : string -> res datetime) (str_float : Q -> string)
    (timed : list (event * Z)) (sleep_target_hours : Q) :
  Forall (fun p => start_hour fromisoformat p.1 = Ok p.2) timed ->
  let events := timed.*1 in
  let hours := timed.*2 in
  classify fromisoformat events
  = Ok ((filter (fun p => 18 <= p.2) timed).*1, (filter (fun p => p.2 <= 8) timed).*1)
  /\ _assess_sleep_impact fromisoformat str_float events sleep_target_hours
     = Assessed {|
         estimated_sleep_hours := spec_estimated_sleep hours;
         below_target := Qltb (spec_estimated_sleep hours) sleep_target_hours;
         evening_events_count := length (filter (fun h => 18 <= h) hours);
         morning_events_count := length (filter (fun h => h <= 8) hours);
         message := "Estimated sleep: " +:+ str_float (spec_estimated_sleep hours)
                    +:+ "h (target: " +:+ str_float sleep_target_hours +:+ "h)" |}
  /\ (Qltb (spec_estimated_sleep hours) sleep_target_hours = true
      <-> (spec_estimated_sleep hours < sleep_target_hours)%Q).
Proof.
  intros Hours events hours.
  pose proof (classify_timed fromisoformat timed Hours) as Hc.
  split; [exact Hc|]. split; [|apply Qltb_lt].
  unfold _assess_sleep_impact. subst events. rewrite Hc. cbn [bind].
  unfold _calculate_sleep_hours.
  rewrite (select_filter _ (fun p : event * Z => 22 <= p.2)).
  2: { apply (hours_of_filter fromisoformat timed _ (fun h => 22 <=? h) _ Hours).
       intros [e h]. cbn [snd]. destruct (Z.leb_spec 22 h).
       - rewrite bool_decide_eq_true_2 by lia. reflexivity.
       - rewrite bool_decide_eq_false_2 by lia. reflexivity. }
  cbn [bind].
  rewrite (select_filter _ (fun p : event * Z => p.2 <= 7)).
  2: { apply (hours_of_filter fromisoformat timed _ (fun h => h <=? 7) _ Hours).
       intros [e h]. cbn [snd]. destruct (Z.leb_spec h 7).
       - rewrite bool_decide_eq_true_2 by lia. reflexivity.
       - rewrite bool_decide_eq_false_2 by lia. reflexivity. }
  cbn [bind]. rewrite !length_fmap, late_count, early_count.
  pose proof (count_snd timed (fun h => 18 <= h)) as Hev.
  pose proof (count_snd timed (fun h => h <= 8)) as Hmo.
  cbv beta in Hev, Hmo. rewrite Hev, Hmo. clear Hev Hmo.
  fold hours.
  destruct (none_selected (fun h => 22 <=? h) (fun h => 22 <= h) hours) as [L1 L2].
  { intros h. destruct (Z.leb_spec 22 h).
    - rewrite bool_decide_eq_true_2 by lia. reflexivity.
    - rewrite bool_decide_eq_false_2 by lia. reflexivity. }
  destruct (none_selected (fun h => h <=? 7) (fun h => h <= 7) hours) as [E1 _].
  { intros h. destruct (Z.leb_spec h 7).
    - rewrite bool_decide_eq_true_2 by lia. reflexivity.
    - rewrite bool_decide_eq_false_2 by lia. reflexivity. }
  rewrite L1, L2, E1. unfold spec_estimated_sleep.
  destruct (existsb (fun h => 22 <=? h) hours), (existsb (fun h => h <=? 7) hours);
    reflexivity.
Qed.

Lemma assess_sleep_impact_rules_witness :
  _assess_sleep_impact fromisoformat_basic str_float_integral
    [Sample.standup; ev "Call" "2025-01-15T22:30:00Z" "2025-01-15T23:00:00Z";
     ev "Run" "2025-01-16T06:00:00Z" "2025-01-16T07:00:00Z"] 7
  = Assessed {| estimated_sleep_hours := 6; below_target := true;
                evening_events_count := 1; morning_events_count := 1;
                message := "Estimated sleep: 6.0h (target: 7.0h)" |}.
Proof.
  exact (proj1 (proj2 (assess_sleep_impact_rules fromisoformat_basic str_float_integral
    [(Sample.standup, 9); (ev "Call" "2025-01-15T22:30:00Z" "2025-01-15T23:00:00Z", 22);
     (ev "Run" "2025-01-16T06:00:00Z" "2025-01-16T07:00:00Z", 6)] 7
    ltac:(repeat constructor; vm_compute; reflexivity)))).
Defined.

(** ** Properties of the proposal builders *)

Example hectic_one_add :
  shape <$> (GeminiCalendarChat._generate_proposal_changes uuid8_sample 0
               "my schedule is so hectic" []).1
  = [("add", "Focus Time", None)].
Proof. vm_compute. reflexivity. Qed.

Example no_keyword_one_block :
  (GeminiCalendarChat._generate_proposal_changes uuid8_sample 4 "help me plan my week" [])
  = ([fresh_change "00000004" "00000005" "add" "Optimization Block"
        "2025-01-15T14:00:00Z" "2025-01-15T15:00:00Z" 60
        (Some "General schedule optimization") None
        "Added optimization block to improve overall schedule balance"], 6%nat).
Proof. vm_compute. reflexivity. Qed.

(** C6, as the code has it, for [GeminiCalendarChat].  The builder returns
    a non-empty list: the changes of the triggers that fire, in the fixed
    order (hectic/busy: add Focus Time; sleep/tired: move Evening Activity,
    with a target; meeting/conflict: adjust, with a target), or the one
    generic add Optimization Block when none fires.  So a text with "hectic"
    and "sleep" gets the Focus Time change first and the Evening Activity
    change second, and exactly these two when it has neither "meeting" nor
    "conflict"; a text without any keyword gets exactly the Optimization
    Block. *)
Theorem chat_proposal_changes_by_triggers
    (uuid8 : nat -> string) (k : nat) (problem : string) (constraints : list string) :
  let changes :=
    (GeminiCalendarChat._generate_proposal_changes uuid8 k problem constraints).1 in
  changes <> []
  /\ shape <$> changes = spec_build problem
  /\ Forall well_formed_change changes
  /\ (contains "hectic" (lower problem) = true ->
      contains "sleep" (lower problem) = true ->
      take 2 (shape <$> changes)
      = [("add", "Focus Time", None);
         ("move", "Evening Activity", Some "existing_evening_event")]
      /\ (fires ["meeting"; "conflict"] problem = false -> length changes = 2%nat))
  /\ (fires ["hectic"; "busy"; "sleep"; "tired"; "meeting"; "conflict"] problem = false ->
      shape <$> changes = [("add", "Optimization Block", None)]).
Proof.
  unfold GeminiCalendarChat._generate_proposal_changes, spec_build, fires.
  cbn [existsb]. rewrite !orb_false_r.
  destruct (contains "hectic" (lower problem)), (contains "busy" (lower problem)),
           (contains "sleep" (lower problem)), (contains "tired" (lower problem)),
           (contains "meeting" (lower problem)), (contains "conflict" (lower problem));
    cbn; (split; [discriminate|]); (split; [reflexivity|]);
    (split; [repeat constructor; discriminate|]);
    (split; [intros; (discriminate || (split; [reflexivity|intros; (discriminate || reflexivity)]))
            |intros; (discriminate || reflexivity)]).
Qed.

Lemma chat_proposal_changes_by_triggers_witness :
  shape <$> (GeminiCalendarChat._generate_proposal_changes (fun _ => "0badc0de") 0
               "My week is HECTIC and I cannot sleep" []).1
  = [("add", "Focus Time", None);
     ("move", "Evening Activity", Some "existing_evening_event")].
Proof.
  pose proof (chat_proposal_changes_by_triggers (fun _ => "0badc0de") 0
                "My week is HECTIC and I cannot sleep" []) as H.
  destruct H as (_ & _ & _ & H & _).
  destruct (H ltac:(vm_compute; reflexivity) ltac:(vm_compute; reflexivity)) as [H2 Hlen].
  specialize (Hlen ltac:(vm_compute; reflexivity)).
  rewrite <- H2. rewrite take_ge; [reflexivity|].
  rewrite length_fmap, Hlen. lia.
Defined.

(** C6 fails as stated.  In [GeminiCalendarChat] a text with "hectic",
    "sleep" and "meeting" gets three changes, not two.  (The builder of
    [GeminiCalendarAssistant] has only the first two triggers, the second
    without "tired": it returns the empty list for a text without keywords
    and for one that only says "tired".) *)
Lemma three_triggers_three_changes :
  shape <$> (GeminiCalendarChat._generate_proposal_changes (fun _ => "0badc0de") 0
               "hectic meetings ruin my sleep" []).1
  = [("add", "Focus Time", None);
     ("move", "Evening Activity", Some "existing_evening_event");
     ("adjust", "Meeting Adjustment", Some "conflicting_meeting")]
  /\ (GeminiCalendarAssistant._generate_proposal_changes (fun _ => "0badc0de") 0
        "help me plan my week" []).1 = []
  /\ (GeminiCalendarAssistant._generate_proposal_changes (fun _ => "0badc0de") 0
        "I am always tired" []).1 = [].
Proof. repeat split; vm_compute; reflexivity. Qed.

(** ** Properties of the conversation state *)

Lemma chain_ok_append (ps ps' : list Proposal) :
  chain_ok ps -> appends_first_revision ps ps' -> chain_ok ps'.
Proof.
  intros Hok [->|(p & -> & Hrev & Hprev)]; [exact Hok|].
  unfold chain_ok in *. apply Forall_app. split.
  - eapply Forall_impl; [exact Hok|]. intros x Hx. cbv beta in *.
    destruct (previous_proposal_id x); [|exact Hx].
    destruct Hx as (q & Hq & Hid & Hr). exists q.
    split; [apply elem_of_app; left; exact Hq|]. split; assumption.
  - constructor; [|constructor]. rewrite Hprev. exact Hrev.
Qed.

Section ChatFacts.

Variable fromisoformat : string -> res datetime.
Variable uuid8 : nat -> string.
Variable str_float : Q -> string.

Import GeminiCalendarChat.

Lemma chat_execute_appends now s fc :
  let s' :=
    session_after (_execute_calendar_function fromisoformat uuid8 str_float now s fc) s in
  appends_first_revision (proposals (context s)) (proposals (context s'))
  /\ problem_statement (context s') = problem_statement (context s)
  /\ clarifying_questions (context s') = clarifying_questions (context s)
  /\ user_answers (context s') = user_answers (context s).
Proof.
  destruct fc; cbn; try (split; [left; reflexivity|repeat split]).
  unfold _generate_schedule_proposal.
    destruct (_generate_proposal_changes uuid8 (S (drawn s)) problem_description
                (default [] constraints)) as [chs k].
  cbn. split; [|repeat split]. right. eexists. split; [reflexivity|]. split; reflexivity.
Qed.

Lemma chat_never_classifies (c : ConversationContext) (response : string) :
  _is_clarifying_question c response <> Ok true.
Proof.
  unfold _is_clarifying_question.
  destruct (contains "?" response); [|discriminate].
  destruct (Nat.ltb _ _); discriminate.
Qed.

Lemma chat_turn_proposals now reply s user_input :
  let s' := (chat_with_calendar_context fromisoformat uuid8 str_float now reply s user_input).2 in
  appends_first_revision (proposals (context s)) (proposals (context s')).
Proof.
  unfold chat_with_calendar_context.
  set (s1 := if String.eqb _ _ then _ else _).
  assert (H1 : proposals (context s1) = proposals (context s)).
  { subst s1. cbn. destruct (String.eqb _ _); reflexivity. }
  destruct reply as [response|e]; cbn -[Nat.ltb].
  2: { rewrite H1. left. reflexivity. }
  unfold _process_enhanced_response.
  destruct (function_call_part response) as [fc|].
  - pose proof (chat_execute_appends now s1 fc) as (Ha & _).
    destruct (_execute_calendar_function fromisoformat uuid8 str_float now s1 fc)
      as [[r s2]|e]; cbn in *; rewrite <- H1; exact Ha.
  - destruct (text response) as [response_text|e]; cbn -[Nat.ltb].
    2: { rewrite H1. left. reflexivity. }
    destruct (_is_clarifying_question (context s1) response_text) as [[|]|e];
      cbn -[Nat.ltb].
    + rewrite H1. left. reflexivity.
    + match goal with |- context [Nat.ltb ?a ?b] => destruct (Nat.ltb a b) end;
        cbn; rewrite H1; left; reflexivity.
    + rewrite H1. left. reflexivity.
Qed.

End ChatFacts.

Section AssistantFacts.

Variable fromisoformat : string -> res datetime.
Variable uuid8 : nat -> string.
Variable json_dumps : GeminiCalendarAssistant.function_result -> res string.

Import GeminiCalendarAssistant.

Lemma assistant_execute_appends now s fc :
  let s' := session_after (_execute_function_call fromisoformat uuid8 now s fc) s in
  appends_first_revision (proposals (context s)) (proposals (context s')).
Proof.
  destruct fc; cbn; try (left; reflexivity).
  unfold _generate_schedule_proposal.
  destruct (_generate_proposal_changes uuid8 (S (drawn s)) problem_description
              (default [] constraints)) as [chs k].
  cbn. right. eexists. split; [reflexivity|]. split; reflexivity.
Qed.

Lemma assistant_turn_proposals now reply follow_up s user_input :
  let s' := (process_user_input fromisoformat uuid8 json_dumps now reply follow_up
               s user_input).2 in
  appends_first_revision (proposals (context s)) (proposals (context s')).
Proof.
  unfold process_user_input.
  set (s1 := if String.eqb _ _ then _ else _).
  assert (H1 : proposals (context s1) = proposals (context s)).
  { subst s1. destruct (String.eqb _ _); reflexivity. }
  destruct reply as [response|e]; cbn -[Nat.ltb].
  2: { rewrite H1. left. reflexivity. }
  unfold _process_gemini_response.
  destruct (function_call_part response) as [fc|].
  - pose proof (assistant_execute_appends now s1 fc) as Ha.
    destruct (_execute_function_call fromisoformat uuid8 now s1 fc) as [[r s2]|e];
      cbn in Ha; rewrite H1 in Ha; [|cbn; rewrite H1; exact Ha].
    destruct (_continue_conversation_with_result json_dumps follow_up r user_input);
      exact Ha.
  - destruct (text response) as [response_text|e]; cbn -[Nat.ltb].
    2: { rewrite H1. left. reflexivity. }
    destruct (contains "?" response_text && Nat.ltb _ _); cbn.
    + rewrite H1. left. reflexivity.
    + destruct (contains "proposal" (lower response_text)
                || contains "schedule" (lower response_text));
        cbn; rewrite H1; left; reflexivity.
Qed.

End AssistantFacts.

(** C7. Every turn of either class leaves the proposals of the context as
    they are or appends one proposal, which has revision 1 and no
    predecessor; hence the revision chain (revision 1 without predecessor,
    the predecessor's revision plus one and the predecessor's identifier
    otherwise) holds after the turn whenever it held before.  Neither class
    ever sets [previous_proposal_id]. *)
Theorem revision_chain_preserved
    (fromisoformat : string -> res datetime) (uuid8 : nat -> string)
    (str_float : Q -> string)
    (json_dumps : GeminiCalendarAssistant.function_result -> res string)
    (now user_input : string)
    (chat_reply : res GeminiCalendarChat.response)
    (reply follow_up : res GeminiCalendarAssistant.response)
    (chat : GeminiCalendarChat.session) (assistant : GeminiCalendarAssistant.session) :
  chain_ok (proposals (GeminiCalendarChat.context chat)) ->
  chain_ok (proposals (GeminiCalendarAssistant.context assistant)) ->
  let chat' :=
    (GeminiCalendarChat.chat_with_calendar_context fromisoformat uuid8 str_float
       now chat_reply chat user_input).2 in
  let assistant' :=
    (GeminiCalendarAssistant.process_user_input fromisoformat uuid8 json_dumps
       now reply follow_up assistant user_input).2 in
  appends_first_revision (proposals (GeminiCalendarChat.context chat))
                         (proposals (GeminiCalendarChat.context chat'))
  /\ chain_ok (proposals (GeminiCalendarChat.context chat'))
  /\ appends_first_revision (proposals (GeminiCalendarAssistant.context assistant))
                            (proposals (GeminiCalendarAssistant.context assistant'))
  /\ chain_ok (proposals (GeminiCalendarAssistant.context assistant')).
Proof.
  intros Hc Ha chat' assistant'.
  pose proof (chat_turn_proposals fromisoformat uuid8 str_float now chat_reply chat
                user_input) as H1.
  pose proof (assistant_turn_proposals fromisoformat uuid8 json_dumps now reply follow_up
                assistant user_input) as H2.
  cbv zeta in H1, H2. fold chat' in H1. fold assistant' in H2.
  split; [exact H1|]. split; [exact (chain_ok_append _ _ Hc H1)|].
  split; [exact H2|]. exact (chain_ok_append _ _ Ha H2).
Qed.

Lemma revised_session_chain :
  chain_ok (proposals (GeminiCalendarChat.context revised_session)).
Proof.
  repeat constructor. cbn. exists first_proposal.
  split; [apply list_elem_of_here|]. split; reflexivity.
Defined.

Lemma revision_chain_preserved_witness :
  chain_ok
    (proposals
       (GeminiCalendarChat.context
          (GeminiCalendarChat.chat_with_calendar_context fromisoformat_basic
             uuid8_sample str_float_integral "2025-01-15T08:00:00" proposal_call
             revised_session "please try again").2)).
Proof.
  exact (proj1 (proj2 (revision_chain_preserved fromisoformat_basic uuid8_sample
    str_float_integral (fun _ => Ok "{}") "2025-01-15T08:00:00" "please try again"
    proposal_call (Raise (RuntimeError "offline")) (Raise (RuntimeError "offline"))
    revised_session GeminiCalendarAssistant.new_session
    revised_session_chain ltac:(constructor)))).
Defined.

Example third_proposal_is_first_revision :
  (fun p => (id p, revision p, previous_proposal_id p)) <$>
    proposals
      (GeminiCalendarChat.context
         (GeminiCalendarChat.chat_with_calendar_context fromisoformat_basic
            uuid8_sample str_float_integral "2025-01-15T08:00:00" proposal_call
            revised_session "please try again").2)
  = [("proposal_aaaaaaaa", 1, None);
     ("proposal_bbbbbbbb", 2, Some "proposal_aaaaaaaa");
     ("proposal_00000000", 1, None)].
Proof. vm_compute. reflexivity. Qed.

(** In a context made by hand, with one question recorded and no answer
    (no conversation reaches such a context, see
    [no_question_without_question]), the response "What time do you usually
    go to bed?" has a question mark and no "proposal".
    [GeminiCalendarChat._is_clarifying_question] raises [AttributeError] on
    it: the turn answers with the error text and records no question.
    [GeminiCalendarAssistant], which has no test for "proposal", records
    "Shall I draft a proposal?" as a question. *)
Example hand_made_context_with_question :
  GeminiCalendarChat._is_clarifying_question asked_context
    "What time do you usually go to bed?"
  = Raise (AttributeError "'str' object has no attribute 'includes'")
  /\ (let '(answer, s') :=
        GeminiCalendarChat.chat_with_calendar_context fromisoformat_basic uuid8_sample
          str_float_integral "2025-01-15T08:00:00"
          (chat_says "What time do you usually go to bed?") asked_chat "Mondays" in
      answer = "I encountered an error: 'str' object has no attribute 'includes'"
      /\ clarifying_questions (GeminiCalendarChat.context s')
         = ["Which days are the worst?"]
      /\ user_answers (GeminiCalendarChat.context s') = [])
  /\ (let '(result, s') :=
        GeminiCalendarAssistant.process_user_input fromisoformat_basic uuid8_sample
          (fun _ => Ok "{}") "2025-01-15T08:00:00"
          (assistant_says "Shall I draft a proposal?") (Raise (RuntimeError "unused"))
          asked_assistant "Mondays" in
      result = GeminiCalendarAssistant.t_clarifying_question
                 "Shall I draft a proposal?" "Shall I draft a proposal?"
      /\ clarifying_questions (GeminiCalendarAssistant.context s')
         = ["Which days are the worst?"; "Shall I draft a proposal?"]).
Proof. repeat split; vm_compute; reflexivity. Qed.

(** While no question is recorded, no turn of either class records a
    question or an answer: the test "fewer answers than questions" fails
    on two empty lists. *)
Lemma no_question_without_question
    (fromisoformat : string -> res datetime) (uuid8 : nat -> string)
    (str_float : Q -> string)
    (json_dumps : GeminiCalendarAssistant.function_result -> res string)
    (now user_input : string)
    (chat_reply : res GeminiCalendarChat.response)
    (reply follow_up : res GeminiCalendarAssistant.response)
    (chat : GeminiCalendarChat.session) (assistant : GeminiCalendarAssistant.session) :
  clarifying_questions (GeminiCalendarChat.context chat) = [] ->
  clarifying_questions (GeminiCalendarAssistant.context assistant) = [] ->
  clarifying_questions
    (GeminiCalendarChat.context
       (GeminiCalendarChat.chat_with_calendar_context fromisoformat uuid8 str_float
          now chat_reply chat user_input).2) = []
  /\ clarifying_questions
       (GeminiCalendarAssistant.context
          (GeminiCalendarAssistant.process_user_input fromisoformat uuid8 json_dumps
             now reply follow_up assistant user_input).2) = [].
Proof.
  intros Hc Ha. split.
  - unfold GeminiCalendarChat.chat_with_calendar_context.
    set (s1 := if String.eqb _ _ then _ else _).
    assert (H1 : clarifying_questions (GeminiCalendarChat.context s1) = []).
    { subst s1. cbn. destruct (String.eqb _ _); exact Hc. }
    destruct chat_reply as [response|e]; cbn -[Nat.ltb]; [|exact H1].
    unfold GeminiCalendarChat._process_enhanced_response.
    destruct (GeminiCalendarChat.function_call_part response) as [fc|].
    + pose proof (chat_execute_appends fromisoformat uuid8 str_float now s1 fc)
        as (_ & _ & Hq & _).
      destruct (GeminiCalendarChat._execute_calendar_function fromisoformat uuid8
                  str_float now s1 fc) as [[r s2]|e]; cbn in *; congruence.
    + destruct (GeminiCalendarChat.text response) as [response_text|e];
        cbn -[Nat.ltb]; [|exact H1].
      unfold GeminiCalendarChat._is_clarifying_question. rewrite H1.
      cbn [length].
      replace (Nat.ltb (length (user_answers (GeminiCalendarChat.context s1))) 0)
        with false by (symmetry; apply Nat.ltb_ge; lia).
      destruct (contains "?" response_text); cbn; exact H1.
  - unfold GeminiCalendarAssistant.process_user_input.
    set (s1 := if String.eqb _ _ then _ else _).
    assert (H1 : clarifying_questions (GeminiCalendarAssistant.context s1) = []).
    { subst s1. destruct (String.eqb _ _); exact Ha. }
    destruct reply as [response|e]; cbn -[Nat.ltb]; [|exact H1].
    unfold GeminiCalendarAssistant._process_gemini_response.
    destruct (GeminiCalendarAssistant.function_call_part response) as [fc|].
    + assert (Hq : clarifying_questions
                     (GeminiCalendarAssistant.context
                        (session_after
                           (GeminiCalendarAssistant._execute_function_call fromisoformat
                              uuid8 now s1 fc) s1)) = []).
      { destruct fc; cbn; try exact H1.
        unfold GeminiCalendarAssistant._generate_schedule_proposal.
        destruct (GeminiCalendarAssistant._generate_proposal_changes _ _ _ _).
        cbn. exact H1. }
      destruct (GeminiCalendarAssistant._execute_function_call fromisoformat uuid8
                  now s1 fc) as [[r s2]|e]; [|exact Hq].
      destruct (GeminiCalendarAssistant._continue_conversation_with_result _ _ _ _);
        exact Hq.
    + destruct (GeminiCalendarAssistant.text response) as [response_text|e];
        cbn -[Nat.ltb]; [|exact H1].
      rewrite H1. cbn [length].
      replace (Nat.ltb (length (user_answers (GeminiCalendarAssistant.context s1))) 0)
        with false by (symmetry; apply Nat.ltb_ge; lia).
      rewrite andb_false_r.
      destruct (contains "proposal" (lower response_text)
                || contains "schedule" (lower response_text)); cbn; exact H1.
Qed.

(** C9, as the code has it.  When [generate_content] raises [e],
    [process_user_input] returns the error dictionary with the message
    "I encountered an error: " followed by the text of [e] and the two
    suggestions, and [chat_with_calendar_context] returns that message as
    plain text; no exception leaves the turn.  The questions, answers,
    events, proposals and preferences of the context are as before the
    turn, and so is the problem statement when there was one; when there
    was none, the user's text has become the problem statement.
    [GeminiCalendarChat] also keeps the user's text and the error message in
    its conversation history. *)
Theorem failed_generation_turn
    (fromisoformat : string -> res datetime) (uuid8 : nat -> string)
    (str_float : Q -> string)
    (json_dumps : GeminiCalendarAssistant.function_result -> res string)
    (now user_input : string) (e : exn)
    (follow_up : res GeminiCalendarAssistant.response)
    (chat : GeminiCalendarChat.session) (assistant : GeminiCalendarAssistant.session) :
  let message := "I encountered an error: " +:+ str_exn e in
  GeminiCalendarAssistant.process_user_input fromisoformat uuid8 json_dumps now
    (Raise e) follow_up assistant user_input
  = (GeminiCalendarAssistant.t_error message
       ["Try rephrasing your request"; "Check your calendar permissions"],
     GeminiCalendarAssistant.with_context assistant
       (noted (GeminiCalendarAssistant.context assistant) user_input))
  /\ GeminiCalendarChat.chat_with_calendar_context fromisoformat uuid8 str_float now
       (Raise e) chat user_input
     = (message,
        {| GeminiCalendarChat.context :=
             noted (GeminiCalendarChat.context chat) user_input;
           GeminiCalendarChat.conversation_history :=
             GeminiCalendarChat.conversation_history chat
             ++ [("user", user_input)] ++ [("assistant", message)];
           GeminiCalendarChat.drawn := GeminiCalendarChat.drawn chat |})
  /\ (forall c : ConversationContext,
        clarifying_questions (noted c user_input) = clarifying_questions c
        /\ user_answers (noted c user_input) = user_answers c
        /\ current_events (noted c user_input) = current_events c
        /\ proposals (noted c user_input) = proposals c
        /\ preferences (noted c user_input) = preferences c
        /\ session_id (noted c user_input) = session_id c
        /\ (problem_statement c <> "" -> noted c user_input = c)
        /\ (problem_statement c = "" -> problem_statement (noted c user_input) = user_input)).
Proof.
  intros message. split; [|split].
  - unfold GeminiCalendarAssistant.process_user_input, noted.
    destruct assistant as [c k]. cbn.
    destruct (String.eqb (problem_statement c) ""); reflexivity.
  - unfold GeminiCalendarChat.chat_with_calendar_context, noted.
    destruct chat as [c h k]. cbn.
    destruct (String.eqb (problem_statement c) "");
      unfold GeminiCalendarChat.say, GeminiCalendarChat.with_context; cbn;
      rewrite <- app_assoc; reflexivity.
  - intros c. unfold noted.
    destruct (String.eqb_spec (problem_statement c) "") as [Heq|Hne];
      repeat split; try reflexivity; try congruence.
Qed.

Lemma failed_generation_turn_witness :
  problem_statement
    (GeminiCalendarAssistant.context
       (GeminiCalendarAssistant.process_user_input fromisoformat_basic uuid8_sample
          (fun _ => Ok "{}") "2025-01-15T08:00:00"
          (Raise (RuntimeError "503 Service Unavailable")) (Raise (RuntimeError "unused"))
          asked_assistant "Mondays, mostly").2)
  = "busy week".
Proof.
  rewrite (proj1 (failed_generation_turn fromisoformat_basic uuid8_sample
    str_float_integral (fun _ => Ok "{}") "2025-01-15T08:00:00" "Mondays, mostly"
    (RuntimeError "503 Service Unavailable") (Raise (RuntimeError "unused"))
    asked_chat asked_assistant)).
  reflexivity.
Defined.

(** C9 fails as stated: on the first turn of a session a failure of
    [generate_content] leaves the context changed, the user's text having
    become the problem statement. *)
Lemma failed_first_turn_changes_context :
  let '(result, s') :=
    GeminiCalendarAssistant.process_user_input fromisoformat_basic uuid8_sample
      (fun _ => Ok "{}") "2025-01-15T08:00:00"
      (Raise (RuntimeError "503 Service Unavailable")) (Raise (RuntimeError "unused"))
      GeminiCalendarAssistant.new_session "My Tuesdays are too hectic" in
  result = GeminiCalendarAssistant.t_error
             "I encountered an error: 503 Service Unavailable"
             ["Try rephrasing your request"; "Check your calendar permissions"]
  /\ problem_statement (GeminiCalendarAssistant.context s') = "My Tuesdays are too hectic"
  /\ GeminiCalendarAssistant.context s'
     <> GeminiCalendarAssistant.context GeminiCalendarAssistant.new_session.
Proof.
  cbn. split; [reflexivity|]. split; [reflexivity|]. discriminate.
Qed.

Example md5_empty : MD5.hexdigest [] = "d41d8cd98f00b204e9800998ecf8427e".
Proof. vm_compute. reflexivity. Qed.

Example md5_abc : MD5.hexdigest (encode_utf8 "abc") = "900150983cd24fb0d6963f7d28e17f72".
Proof. vm_compute. reflexivity. Qed.

Example md5_fox :
  MD5.hexdigest (encode_utf8 "The quick brown fox jumps over the lazy dog")
  = "9e107d9d372bb6826bd81d3542a419d6".
Proof. vm_compute. reflexivity. Qed.

Example md5_two_blocks :
  MD5.hexdigest (repeat 97 56) = "3b0c8ac703f828b04c6c197006d17218"
  /\ MD5.hexdigest (repeat 97 64) = "014842d480b571495a4a0363793f7367"
  /\ MD5.hexdigest (repeat 97 119) = "8a7bd0732ed6a28ce75f6dabc90e1613".
Proof. repeat split; vm_compute; reflexivity. Qed.

Example md5_latin1 :
  MD5.hexdigest (encode_utf8 (String (chr 233) "_5")) = "5a00cb78973e00000b9a8dae54d71d4c".
Proof. vm_compute. reflexivity. Qed.

Example fallback_first_value :
  dimension "a" ["a"] 0 = Ok (inject_Z 1787983287 / inject_Z (2 ^ 31) - 1)%Q.
Proof. vm_compute. reflexivity. Qed.

(** ** Properties of the fallback embedding *)

Lemma hex_value_digit (d : Z) :
  0 <= d < 16 -> hex_value (MD5.hex_digit d) = Some d.
Proof.
  intros Hd.
  assert (H : d = 0 \/ d = 1 \/ d = 2 \/ d = 3 \/ d = 4 \/ d = 5 \/ d = 6 \/ d = 7 \/
              d = 8 \/ d = 9 \/ d = 10 \/ d = 11 \/ d = 12 \/ d = 13 \/ d = 14 \/ d = 15)
    by lia.
  repeat (destruct H as [->|H]; [reflexivity|]). subst d. reflexivity.
Qed.

Lemma int16_leading (b0 b1 b2 b3 : Z) (rest : list Z) :
  0 <= b0 < 256 -> 0 <= b1 < 256 -> 0 <= b2 < 256 -> 0 <= b3 < 256 ->
  int16 (substring 0 8 (MD5.hex (b0 :: b1 :: b2 :: b3 :: rest)))
  = Ok (be_value [b0; b1; b2; b3]).
Proof.
  intros H0 H1 H2 H3. cbn [MD5.hex substring int16 int16_from].
  assert (D : forall b, 0 <= b < 256 -> 0 <= b / 16 < 16 /\ 0 <= b mod 16 < 16).
  { intros b Hb. split; [|apply Z.mod_pos_bound; lia].
    split; [apply Z.div_pos; lia|apply Z.div_lt_upper_bound; lia]. }
  destruct (D b0 H0), (D b1 H1), (D b2 H2), (D b3 H3).
  rewrite !hex_value_digit by assumption.
  cbn [substring int16_from].
  replace (substring 0 0 (MD5.hex rest)) with EmptyString
    by (destruct (MD5.hex rest); reflexivity).
  unfold be_value. cbn [fold_left int16_from]. f_equal.
  pose proof (Z.div_mod b0 16 ltac:(lia)). pose proof (Z.div_mod b1 16 ltac:(lia)).
  pose proof (Z.div_mod b2 16 ltac:(lia)). pose proof (Z.div_mod b3 16 ltac:(lia)).
  lia.
Qed.

Lemma bytes_le_range (w : Z) : Forall (fun b => 0 <= b < 256) (MD5.bytes_le w).
Proof.
  unfold MD5.bytes_le. repeat constructor; apply Z.mod_pos_bound; lia.
Qed.

Lemma hash_value_leading (msg : list Z) :
  int16 (substring 0 8 (MD5.hexdigest msg)) = Ok (leading32 msg)
  /\ 0 <= leading32 msg < 2 ^ 32.
Proof.
  unfold MD5.hexdigest, leading32, MD5.digest.
  destruct (MD5.state msg) as [[[a b] c] d].
  pose proof (bytes_le_range a) as Ha. unfold MD5.bytes_le in *.
  inversion Ha as [|? ? H0 Ha1]; subst. inversion Ha1 as [|? ? H1 Ha2]; subst.
  inversion Ha2 as [|? ? H2 Ha3]; subst. inversion Ha3 as [|? ? H3 _]; subst.
  cbn [app take]. split.
  - apply int16_leading; assumption.
  - unfold be_value. cbn [fold_left]. clear Ha Ha1 Ha2 Ha3.
    generalize dependent (a mod 256). generalize dependent ((a / 256) mod 256).
    generalize dependent ((a / 65536) mod 256).
    generalize dependent ((a / 16777216) mod 256).
    intros. change (2 ^ 32) with 4294967296. lia.
Qed.


Lemma source_text_total (text : string) (i : nat) :
  source_text (lower text) (split (lower text)) i = Ok (fallback_source text i).
Proof.
  unfold source_text, fallback_source.
  destruct (Nat.ltb i (String.length (lower text))); [reflexivity|].
  destruct (split (lower text)) as [|w ws] eqn:Hw; [reflexivity|].
  unfold item.
  rewrite (list_lookup_lookup_total_lt (w :: ws) (i mod length (w :: ws))).
  - reflexivity.
  - apply Nat.mod_upper_bound. discriminate.
Qed.

Lemma dimension_total (text : string) (i : nat) :
  dimension (lower text) (split (lower text)) i = Ok (fallback_value text i).
Proof.
  unfold dimension. rewrite source_text_total. cbn [bind].
  rewrite (proj1 (hash_value_leading _)). reflexivity.
Qed.

Lemma collect_loop {A B} (g : A -> res B) (f : A -> B) (l : list A) :
  (forall x, g x = Ok (f x)) ->
  forall acc,
    for_each (fun values x => v <- g x;; Ok (values ++ [v])) l acc = Ok (acc ++ (f <$> l)).
Proof.
  intros Hg. induction l as [|x l IH]; intros acc.
  - simpl. rewrite app_nil_r. reflexivity.
  - cbn [for_each]. rewrite Hg. cbn [bind]. rewrite IH, fmap_cons, <- app_assoc.
    reflexivity.
Qed.

Lemma fallback_embedding_loop (text : string) :
  _generate_fallback_embedding text = Ok (fallback_value text <$> seq 0 768).
Proof.
  unfold _generate_fallback_embedding.
  apply (collect_loop (dimension (lower text) (split (lower text)))
                      (fallback_value text) (seq 0 768) (dimension_total text) []).
Qed.



(** ** Properties of the similarity *)

Import PrimFloat.

Example similarity_orthogonal :
  similarity ddot_left [1%float; 0%float] [0%float; 2%float] = 0%float.
Proof. vm_compute. reflexivity. Qed.

Example similarity_parallel :
  similarity ddot_left [3%float; 4%float] [6%float; 8%float] = 1%float.
Proof. vm_compute. reflexivity. Qed.

(** Overflow does not raise: the square of 2^600 is infinite, and the
    quotient of two infinities is not a number. *)
Example similarity_overflow :
  PrimFloat.is_nan (similarity ddot_left [0x1p+600%float] [0x1p+600%float]) = true.
Proof. vm_compute. reflexivity. Qed.

(** C10. [similarity] always returns a float: 0.0 when the norm of either
    vector is zero, 0.0 when the two vectors differ in length (where
    [np.dot] raises), 0.0 whenever the computation raises, and the quotient
    of the dot product by the product of the norms otherwise. *)
Theorem similarity_total
    (ddot : list PrimFloat.float -> list PrimFloat.float -> PrimFloat.float)
    (embedding1 embedding2 : list PrimFloat.float) :
  let norm1 := np_linalg_norm ddot embedding1 in
  let norm2 := np_linalg_norm ddot embedding2 in
  (PrimFloat.eqb norm1 0 || PrimFloat.eqb norm2 0 = true ->
   similarity ddot embedding1 embedding2 = 0%float)
  /\ (length embedding1 <> length embedding2 ->
      (exists e, cosine ddot embedding1 embedding2 = Raise e)
      /\ similarity ddot embedding1 embedding2 = 0%float)
  /\ (forall e, cosine ddot embedding1 embedding2 = Raise e ->
      similarity ddot embedding1 embedding2 = 0%float)
  /\ (length embedding1 = length embedding2 ->
      PrimFloat.eqb norm1 0 || PrimFloat.eqb norm2 0 = false ->
      similarity ddot embedding1 embedding2
      = PrimFloat.div (ddot embedding1 embedding2) (PrimFloat.mul norm1 norm2)).
Proof.
  intros norm1 norm2. unfold similarity, cosine, np_dot.
  fold norm1 norm2.
  destruct (Nat.eqb_spec (length embedding1) (length embedding2)) as [Hlen|Hlen];
    cbn [bind].
  - split; [intros Hz; rewrite Hz; reflexivity|].
    split; [intros Hne; contradiction|].
    split.
    + intros e He. destruct (PrimFloat.eqb norm1 0 || PrimFloat.eqb norm2 0);
        discriminate.
    + intros _ Hnz. rewrite Hnz. reflexivity.
  - split; [reflexivity|]. split; [intros _; split; [eexists|]; reflexivity|].
    split; [reflexivity|]. intros Heq. contradiction.
Qed.

Lemma similarity_total_witness :
  similarity ddot_left [1%float; 2%float; 3%float] [1%float; 2%float] = 0%float
  /\ similarity ddot_left [0%float; 0%float] [1%float; 2%float] = 0%float.
Proof.
  pose proof (similarity_total ddot_left [1%float; 2%float; 3%float] [1%float; 2%float])
    as (_ & H1 & _).
  pose proof (similarity_total ddot_left [0%float; 0%float] [1%float; 2%float])
    as (H2 & _).
  split.
  - apply H1. simpl. lia.
  - apply H2. vm_compute. reflexivity.
Defined.

(** * Further properties of the code *)

(** ** Loops that may raise *)

Lemma for_each_ok_inv {A S} (body : S -> A -> res S) (l : list A) :
  forall s s', for_each body l s = Ok s' ->
  Forall (fun x => exists s0 s1, body s0 x = Ok s1) l.
Proof.
  induction l as [|x l IH]; intros s s' H; [constructor|].
  cbn in H. destruct (body s x) as [s1|e] eqn:E; [|discriminate].
  constructor; [eauto|]. eapply IH. exact H.
Qed.

Lemma for_each_raise_inv {A S} (body : S -> A -> res S) (l : list A) :
  forall s e, for_each body l s = Raise e ->
  exists s0 x, x ∈ l /\ body s0 x = Raise e.
Proof.
  induction l as [|x l IH]; intros s e H; [discriminate|].
  cbn in H. destruct (body s x) as [s1|e1] eqn:E.
  - destruct (IH _ _ H) as (s0 & y & Hy & Hb).
    exists s0, y. split; [apply elem_of_cons; right; exact Hy|exact Hb].
  - cbn in H. injection H as <-. exists s, x. split; [apply list_elem_of_here|exact E].
Qed.

Lemma enumerate_lookup {A} (l : list A) :
  forall k i x, l !! i = Some x -> enumerate l k !! i = Some ((k + i)%nat, x).
Proof.
  induction l as [|y l IH]; intros k i x H; [discriminate|].
  destruct i as [|i]; cbn [enumerate].
  - cbn in H. injection H as ->. rewrite Nat.add_0_r. reflexivity.
  - change (enumerate l (S k) !! i = Some ((k + S i)%nat, x)).
    replace (k + S i)%nat with (S k + i)%nat by lia. apply IH. exact H.
Qed.

Lemma elem_of_enumerate {A} (l : list A) :
  forall k p, p ∈ enumerate l k -> exists i, l !! i = Some p.2 /\ p.1 = (k + i)%nat.
Proof.
  induction l as [|y l IH]; intros k p H; cbn in H.
  - apply elem_of_nil in H. destruct H.
  - apply elem_of_cons in H as [->|H].
    + exists 0%nat. split; [reflexivity|cbn; lia].
    + destruct (IH _ _ H) as (i & Hi & Hp). exists (S i). split; [exact Hi|lia].
Qed.

(** ** More on conflict detection *)

(** When the loops finish, every pair of events has been compared. *)
Lemma conflict_loop_ok_pairs (fromisoformat : string -> res datetime)
    {C} (mk : event -> event -> C) (events : list event) (cs : list C) :
  conflict_loop fromisoformat mk events = Ok cs ->
  forall i j e1 e2, (i < j)%nat -> events !! i = Some e1 -> events !! j = Some e2 ->
  exists b, _events_overlap fromisoformat e1 e2 = Ok b.
Proof.
  unfold conflict_loop. intros H i j e1 e2 Hij H1 H2.
  apply for_each_ok_inv in H. rewrite Forall_forall in H.
  destruct (H (i, e1)) as (s0 & s1 & Hin).
  { apply (list_elem_of_lookup_2 _ i). apply (enumerate_lookup events 0 i e1 H1). }
  cbn beta iota in Hin.
  apply for_each_ok_inv in Hin. rewrite Forall_forall in Hin.
  destruct (Hin (j, e2)) as (c0 & c1 & Hb).
  { apply (list_elem_of_lookup_2 _ (j - (i + 1))).
    replace j with ((i + 1) + (j - (i + 1)))%nat at 2 by lia.
    apply enumerate_lookup. rewrite lookup_drop.
    replace (i + 1 + (j - (i + 1)))%nat with j by lia. exact H2. }
  cbn beta iota in Hb.
  destruct (_events_overlap fromisoformat e1 e2) as [b|e]; [eauto|discriminate].
Qed.

(** When the loops raise, a comparison has raised. *)
Lemma conflict_loop_raise_pair (fromisoformat : string -> res datetime)
    {C} (mk : event -> event -> C) (events : list event) (e : exn) :
  conflict_loop fromisoformat mk events = Raise e ->
  exists e1 e2, e1 ∈ events /\ e2 ∈ events
                /\ _events_overlap fromisoformat e1 e2 = Raise e.
Proof.
  unfold conflict_loop. intros H.
  apply for_each_raise_inv in H as (s0 & [i e1] & Hin & H).
  apply elem_of_enumerate in Hin as (i' & Hi' & _). cbn in Hi'.
  apply for_each_raise_inv in H as (c0 & [j e2] & Hjn & H).
  apply elem_of_enumerate in Hjn as (j' & Hj' & _). cbn in Hj'.
  rewrite lookup_drop in Hj'.
  exists e1, e2. split; [eapply list_elem_of_lookup_2; exact Hi'|].
  split; [eapply list_elem_of_lookup_2; exact Hj'|].
  destruct (_events_overlap fromisoformat e1 e2) as [b|e']; [discriminate|].
  cbn in H. congruence.
Qed.

Lemma events_overlap_ok_parses (fromisoformat : string -> res datetime)
    (e1 e2 : event) (b : bool) :
  _events_overlap fromisoformat e1 e2 = Ok b ->
  (exists d, parse_time fromisoformat e1 "start" = Ok d)
  /\ (exists d, parse_time fromisoformat e1 "end" = Ok d)
  /\ (exists d, parse_time fromisoformat e2 "start" = Ok d)
  /\ (exists d, parse_time fromisoformat e2 "end" = Ok d).
Proof.
  unfold _events_overlap. intros H.
  destruct (parse_time fromisoformat e1 "start"); [|discriminate].
  destruct (parse_time fromisoformat e1 "end"); [|discriminate].
  destruct (parse_time fromisoformat e2 "start"); [|discriminate].
  destruct (parse_time fromisoformat e2 "end"); [|discriminate].
  eauto 8.
Qed.

(** Two loops over the same list whose bodies succeed or raise together
    succeed or raise together. *)
Lemma for_each_same_outcome {A S T} (body1 : S -> A -> res S) (body2 : T -> A -> res T)
    (l : list A) :
  (forall s t x, x ∈ l ->
     match body1 s x, body2 t x with
     | Ok _, Ok _ => True
     | Raise e1, Raise e2 => e1 = e2
     | _, _ => False
     end) ->
  forall s t,
    match for_each body1 l s, for_each body2 l t with
    | Ok _, Ok _ => True
    | Raise e1, Raise e2 => e1 = e2
    | _, _ => False
    end.
Proof.
  induction l as [|x l IH]; intros Hb s t; [exact I|].
  cbn [for_each]. specialize (Hb s t x (list_elem_of_here _ _)) as Hx.
  destruct (body1 s x) as [s1|e1], (body2 t x) as [t1|e2]; cbn [bind];
    try (destruct Hx; fail); [|exact Hx].
  apply IH. intros s' t' y Hy. apply Hb. apply elem_of_cons. right. exact Hy.
Qed.

(** The record built for a conflict has no influence on whether the loops
    finish. *)
Lemma conflict_loop_same_outcome (fromisoformat : string -> res datetime)
    {C D} (mk1 : event -> event -> C) (mk2 : event -> event -> D) (events : list event) :
  match conflict_loop fromisoformat mk1 events, conflict_loop fromisoformat mk2 events with
  | Ok _, Ok _ => True
  | Raise e1, Raise e2 => e1 = e2
  | _, _ => False
  end.
Proof.
  unfold conflict_loop. apply for_each_same_outcome. intros s t [i e1] _.
  apply for_each_same_outcome. intros s' t' [j e2] _.
  destruct (_events_overlap fromisoformat e1 e2) as [b|e]; cbn [bind]; [exact I|reflexivity].
Qed.

(** X1. A list of at most one event has no conflicts, whatever the event
    holds: with nothing to compare it with, the event is never read, so an
    event without a start or with an unreadable one goes unnoticed. *)
Theorem short_list_has_no_conflicts
    (fromisoformat : string -> res datetime) (events : list event) :
  (length events <= 1)%nat ->
  Chat._analyze_schedule_conflicts fromisoformat events
  = Chat.Success [] 0 "Found 0 scheduling conflicts"
  /\ Assistant._analyze_schedule_conflicts fromisoformat events
     = Assistant.Success [] 0.
Proof.
  intros Hlen. destruct events as [|e [|e' l]]; [split; reflexivity .. |].
  cbn in Hlen. lia.
Qed.

Lemma short_list_has_no_conflicts_witness :
  Chat._analyze_schedule_conflicts fromisoformat_basic [ev "Broken" "tomorrow" "later"]
  = Chat.Success [] 0 "Found 0 scheduling conflicts".
Proof.
  exact (proj1 (short_list_has_no_conflicts fromisoformat_basic
                  [ev "Broken" "tomorrow" "later"] ltac:(cbn; lia))).
Defined.

(** X2. Among two or more events, one event whose start or end is missing
    or unreadable makes the whole analysis fail: both classes return the
    error dictionary, and none of the conflicts between the other events. *)
Theorem unreadable_event_fails_analysis
    (fromisoformat : string -> res datetime) (events : list event) (e : event) :
  (2 <= length events)%nat ->
  e ∈ events ->
  (exists err, parse_time fromisoformat e "start" = Raise err)
  \/ (exists err, parse_time fromisoformat e "end" = Raise err) ->
  exists err,
    Chat._analyze_schedule_conflicts fromisoformat events
    = Chat.Failure ("Failed to analyze conflicts: " +:+ str_exn err)
    /\ Assistant._analyze_schedule_conflicts fromisoformat events
       = Assistant.Failure ("Failed to analyze conflicts: " +:+ str_exn err).
Proof.
  intros Hlen Hin Hbad.
  assert (Hno : forall C (mk : event -> event -> C) cs,
             conflict_loop fromisoformat mk events <> Ok cs).
  { intros C mk cs Hok.
    pose proof (conflict_loop_ok_pairs fromisoformat mk events cs Hok) as Hp.
    apply list_elem_of_lookup_1 in Hin as [k Hk].
    assert (Hparsed : (exists d, parse_time fromisoformat e "start" = Ok d)
                      /\ (exists d, parse_time fromisoformat e "end" = Ok d)).
    { destruct k as [|k].
      - destruct (lookup_lt_is_Some_2 events 1 ltac:(lia)) as [e2 H2].
        destruct (Hp 0%nat 1%nat e e2 ltac:(lia) Hk H2) as [b Hb].
        apply events_overlap_ok_parses in Hb as (Hs & He & _). split; assumption.
      - destruct (lookup_lt_is_Some_2 events 0 ltac:(lia)) as [e0 H0].
        destruct (Hp 0%nat (S k) e0 e ltac:(lia) H0 Hk) as [b Hb].
        apply events_overlap_ok_parses in Hb as (_ & _ & Hs & He). split; assumption. }
    destruct Hparsed as [[ds Hs] [de He]].
    destruct Hbad as [[err Hb]|[err Hb]]; congruence. }
  unfold Chat._analyze_schedule_conflicts, Assistant._analyze_schedule_conflicts.
  destruct (conflict_loop fromisoformat Chat.mk_conflict events) as [cs|err] eqn:E1;
    [destruct (Hno _ _ _ E1)|].
  destruct (conflict_loop fromisoformat Assistant.mk_conflict events) as [cs|err'] eqn:E2;
    [destruct (Hno _ _ _ E2)|].
  exists err. split; [reflexivity|].
  pose proof (conflict_loop_same_outcome fromisoformat Chat.mk_conflict
                Assistant.mk_conflict events) as Hsame.
  rewrite E1, E2 in Hsame. congruence.
Qed.

Lemma unreadable_event_fails_analysis_witness :
  exists err,
    Chat._analyze_schedule_conflicts fromisoformat_basic
      [Sample.standup; Sample.review; delete "end" Sample.lunch]
    = Chat.Failure ("Failed to analyze conflicts: " +:+ str_exn err)
    /\ Assistant._analyze_schedule_conflicts fromisoformat_basic
         [Sample.standup; Sample.review; delete "end" Sample.lunch]
       = Assistant.Failure ("Failed to analyze conflicts: " +:+ str_exn err).
Proof.
  apply (unreadable_event_fails_analysis fromisoformat_basic
           [Sample.standup; Sample.review; delete "end" Sample.lunch]
           (delete "end" Sample.lunch)).
  - cbn. lia.
  - apply elem_of_cons; right. apply elem_of_cons; right. apply list_elem_of_here.
  - right. exists (KeyError "end"). vm_compute. reflexivity.
Defined.

Lemma lt_raises_type_error (a b : datetime) (err : exn) :
  DT.lt a b = Raise err ->
  err = TypeError "can't compare offset-naive and offset-aware datetimes".
Proof.
  unfold DT.lt. destruct (utcoffset a), (utcoffset b); intros H; congruence.
Qed.

Lemma lt_mixed_raises (a b : datetime) :
  aware a <> aware b ->
  DT.lt a b = Raise (TypeError "can't compare offset-naive and offset-aware datetimes").
Proof.
  unfold DT.lt, aware. destruct (utcoffset a), (utcoffset b); intros H;
    try reflexivity; exfalso; apply H.
  - rewrite !bool_decide_eq_true_2 by eauto. reflexivity.
  - rewrite !bool_decide_eq_false_2 by (intros [? ?]; discriminate). reflexivity.
Qed.

(** X3. Events that can all be read still make the analysis fail when a
    start with a UTC offset meets an end without one (or the other way
    round): the comparison of the two raises [TypeError], and both classes
    return the error dictionary with its text. *)
Theorem mixed_awareness_fails_analysis
    (fromisoformat : string -> res datetime) (events : list event)
    (i j : nat) (ei ej : event) (start_i end_j : datetime) :
  Forall (fun e => (exists d, parse_time fromisoformat e "start" = Ok d)
                   /\ (exists d, parse_time fromisoformat e "end" = Ok d)) events ->
  (i < j)%nat -> events !! i = Some ei -> events !! j = Some ej ->
  parse_time fromisoformat ei "start" = Ok start_i ->
  parse_time fromisoformat ej "end" = Ok end_j ->
  aware start_i <> aware end_j ->
  Chat._analyze_schedule_conflicts fromisoformat events
  = Chat.Failure
      "Failed to analyze conflicts: can't compare offset-naive and offset-aware datetimes"
  /\ Assistant._analyze_schedule_conflicts fromisoformat events
     = Assistant.Failure
         "Failed to analyze conflicts: can't compare offset-naive and offset-aware datetimes".
Proof.
  intros Hall Hij Hi Hj Hsi Hej Hmix.
  assert (Hraise : forall C (mk : event -> event -> C),
    conflict_loop fromisoformat mk events
    = Raise (TypeError "can't compare offset-naive and offset-aware datetimes")).
  { intros C mk.
    destruct (conflict_loop fromisoformat mk events) as [cs|err] eqn:E.
    - destruct (conflict_loop_ok_pairs fromisoformat mk events cs E i j ei ej Hij Hi Hj)
        as [b Hb].
      unfold _events_overlap in Hb. rewrite Hsi, Hej in Hb. cbn [bind] in Hb.
      destruct (parse_time fromisoformat ei "end"); [|discriminate].
      destruct (parse_time fromisoformat ej "start"); [|discriminate].
      cbn [bind] in Hb. rewrite (lt_mixed_raises _ _ Hmix) in Hb. discriminate.
    - f_equal.
      apply conflict_loop_raise_pair in E as (e1 & e2 & H1 & H2 & E).
      rewrite Forall_forall in Hall.
      destruct (Hall e1 H1) as [[s1 Hs1] [t1 Ht1]].
      destruct (Hall e2 H2) as [[s2 Hs2] [t2 Ht2]].
      unfold _events_overlap in E. rewrite Hs1, Ht1, Hs2, Ht2 in E. cbn [bind] in E.
      destruct (DT.lt s1 t2) as [[|]|x] eqn:L; cbn [bind] in E.
      + exact (lt_raises_type_error _ _ _ E).
      + discriminate.
      + injection E as <-. exact (lt_raises_type_error _ _ _ L). }
  unfold Chat._analyze_schedule_conflicts, Assistant._analyze_schedule_conflicts.
  rewrite !Hraise. split; reflexivity.
Qed.

Lemma mixed_awareness_fails_analysis_witness :
  Chat._analyze_schedule_conflicts fromisoformat_basic
    [Sample.standup; ev "Dentist" "2025-01-15T16:00:00" "2025-01-15T17:00:00"]
  = Chat.Failure
      "Failed to analyze conflicts: can't compare offset-naive and offset-aware datetimes".
Proof.
  refine (proj1 (mixed_awareness_fails_analysis fromisoformat_basic
    [Sample.standup; ev "Dentist" "2025-01-15T16:00:00" "2025-01-15T17:00:00"]
    0 1 Sample.standup (ev "Dentist" "2025-01-15T16:00:00" "2025-01-15T17:00:00")
    (Sample.dt_of "2025-01-15T09:00:00Z") (Sample.dt_of "2025-01-15T17:00:00")
    _ _ _ _ _ _ _)).
  - repeat constructor; eexists; vm_compute; reflexivity.
  - lia.
  - reflexivity.
  - reflexivity.
  - vm_compute. reflexivity.
  - vm_compute. reflexivity.
  - vm_compute. discriminate.
Defined.

(** ** More on the sleep estimator *)

Lemma for_each_app {A S} (body : S -> A -> res S) (l1 l2 : list A) :
  forall s, for_each body (l1 ++ l2) s = bind (for_each body l1 s) (for_each body l2).
Proof.
  induction l1 as [|x l1 IH]; intros s; [reflexivity|].
  cbn [app for_each]. destruct (body s x) as [s1|e]; cbn [bind]; [apply IH|reflexivity].
Qed.

(** Two loops over lists related element by element, whose bodies keep a
    relation between the states and raise together, end in related states
    or raise together. *)
Lemma for_each_rel {A B S T} (P : A -> B -> Prop) (R : S -> T -> Prop)
    (body1 : S -> A -> res S) (body2 : T -> B -> res T) :
  (forall s t x y, R s t -> P x y ->
     match body1 s x, body2 t y with
     | Ok s', Ok t' => R s' t'
     | Raise e1, Raise e2 => e1 = e2
     | _, _ => False
     end) ->
  forall l1 l2, Forall2 P l1 l2 ->
  forall s t, R s t ->
    match for_each body1 l1 s, for_each body2 l2 t with
    | Ok s', Ok t' => R s' t'
    | Raise e1, Raise e2 => e1 = e2
    | _, _ => False
    end.
Proof.
  intros Hb l1 l2 Hl. induction Hl as [|x y l1 l2 Hxy Hl IH]; intros s t Hst; [exact Hst|].
  cbn [for_each]. specialize (Hb s t x y Hst Hxy).
  destruct (body1 s x) as [s1|e1], (body2 t y) as [t1|e2]; cbn [bind];
    try (destruct Hb; fail); [|exact Hb].
  apply IH. exact Hb.
Qed.

(** The assessment of events whose start hours are known. *)
Lemma assess_timed (fromisoformat : string -> res datetime) (str_float : Q -> string)
    (timed : list (event * Z)) (sleep_target_hours : Q) :
  hours_of fromisoformat timed ->
  _assess_sleep_impact fromisoformat str_float timed.*1 sleep_target_hours
  = Assessed {|
      estimated_sleep_hours := spec_estimated_sleep timed.*2;
      below_target := Qltb (spec_estimated_sleep timed.*2) sleep_target_hours;
      evening_events_count := length (filter (fun h => 18 <= h) timed.*2);
      morning_events_count := length (filter (fun h => h <= 8) timed.*2);
      message := "Estimated sleep: " +:+ str_float (spec_estimated_sleep timed.*2)
                 +:+ "h (target: " +:+ str_float sleep_target_hours +:+ "h)" |}.
Proof.
  intros Hours.
  pose proof (classify_timed fromisoformat timed Hours) as Hc.
  unfold _assess_sleep_impact. rewrite Hc. cbn [bind].
  unfold _calculate_sleep_hours.
  rewrite (select_filter _ (fun p : event * Z => 22 <= p.2)).
  2: { apply (hours_of_filter fromisoformat timed _ (fun h => 22 <=? h) _ Hours).
       intros [e h]. cbn [snd]. destruct (Z.leb_spec 22 h).
       - rewrite bool_decide_eq_true_2 by lia. reflexivity.
       - rewrite bool_decide_eq_false_2 by lia. reflexivity. }
  cbn [bind].
  rewrite (select_filter _ (fun p : event * Z => p.2 <= 7)).
  2: { apply (hours_of_filter fromisoformat timed _ (fun h => h <=? 7) _ Hours).
       intros [e h]. cbn [snd]. destruct (Z.leb_spec h 7).
       - rewrite bool_decide_eq_true_2 by lia. reflexivity.
       - rewrite bool_decide_eq_false_2 by lia. reflexivity. }
  cbn [bind]. rewrite !length_fmap, late_count, early_count.
  pose proof (count_snd timed (fun h => 18 <= h)) as Hev.
  pose proof (count_snd timed (fun h => h <= 8)) as Hmo.
  cbv beta in Hev, Hmo. rewrite Hev, Hmo. clear Hev Hmo.
  destruct (none_selected (fun h => 22 <=? h) (fun h => 22 <= h) timed.*2) as [L1 L2].
  { intros h. destruct (Z.leb_spec 22 h).
    - rewrite bool_decide_eq_true_2 by lia. reflexivity.
    - rewrite bool_decide_eq_false_2 by lia. reflexivity. }
  destruct (none_selected (fun h => h <=? 7) (fun h => h <= 7) timed.*2) as [E1 _].
  { intros h. destruct (Z.leb_spec h 7).
    - rewrite bool_decide_eq_true_2 by lia. reflexivity.
    - rewrite bool_decide_eq_false_2 by lia. reflexivity. }
  rewrite L1, L2, E1. unfold spec_estimated_sleep.
  destruct (existsb (fun h => 22 <=? h) timed.*2), (existsb (fun h => h <=? 7) timed.*2);
    reflexivity.
Qed.

(** The assessment fails at the first event whose start cannot be read. *)
Lemma assess_first_failure (fromisoformat : string -> res datetime) (str_float : Q -> string)
    (timed : list (event * Z)) (e : event) (rest : list event) (err : exn)
    (sleep_target_hours : Q) :
  hours_of fromisoformat timed ->
  start_hour fromisoformat e = Raise err ->
  _assess_sleep_impact fromisoformat str_float (timed.*1 ++ e :: rest) sleep_target_hours
  = Sleep.Failure ("Failed to assess sleep impact: " +:+ str_exn err).
Proof.
  intros Hours He. unfold _assess_sleep_impact.
  replace (Sleep.classify fromisoformat (timed.*1 ++ e :: rest)) with (@Raise (list event * list event) err);
    [reflexivity|].
  pose proof (classify_timed fromisoformat timed Hours) as Hc.
  unfold Sleep.classify in *. rewrite for_each_app, Hc. cbn [bind for_each].
  rewrite He. reflexivity.
Qed.

(** Either every start can be read, or there is a first one that cannot. *)
Lemma hours_split (fromisoformat : string -> res datetime) (events : list event) :
  (exists timed, events = timed.*1 /\ hours_of fromisoformat timed)
  \/ (exists timed e rest err,
        events = timed.*1 ++ e :: rest /\ hours_of fromisoformat timed
        /\ start_hour fromisoformat e = Raise err).
Proof.
  induction events as [|e events IH].
  - left. exists []. split; [reflexivity|constructor].
  - destruct (start_hour fromisoformat e) as [h|err] eqn:E.
    + destruct IH as [(timed & -> & Hh)|(timed & e' & rest & err & -> & Hh & He)].
      * left. exists ((e, h) :: timed). split; [reflexivity|].
        constructor; [exact E|exact Hh].
      * right. exists ((e, h) :: timed), e', rest, err.
        split; [reflexivity|]. split; [constructor; [exact E|exact Hh]|exact He].
    + right. exists [], e, events, err. split; [reflexivity|].
      split; [constructor|exact E].
Qed.

Lemma estimate_values (hours : list Z) :
  spec_estimated_sleep hours = 6%Q \/ spec_estimated_sleep hours = 7%Q
  \/ spec_estimated_sleep hours = 8%Q.
Proof.
  unfold spec_estimated_sleep.
  destruct (existsb (fun h => 22 <=? h) hours), (existsb (fun h => h <=? 7) hours); cbn; auto.
Qed.

Lemma estimate_without_counted (hours : list Z) :
  length (filter (fun h => 18 <= h) hours) = 0%nat ->
  length (filter (fun h => h <= 8) hours) = 0%nat ->
  spec_estimated_sleep hours = 8%Q.
Proof.
  intros Hev Hmo. unfold spec_estimated_sleep.
  replace (existsb (fun h => 22 <=? h) hours) with false.
  replace (existsb (fun h => h <=? 7) hours) with false; [reflexivity|].
  - symmetry. apply not_true_is_false. intros H.
    apply existsb_exists in H as (h & Hin & Hh). apply Z.leb_le in Hh.
    apply length_zero_iff_nil in Hmo.
    assert (Hf : h ∈ filter (fun h => h <= 8) hours).
    { apply list_elem_of_filter. split; [lia|]. apply list_elem_of_In. exact Hin. }
    rewrite Hmo in Hf. apply elem_of_nil in Hf. exact Hf.
  - symmetry. apply not_true_is_false. intros H.
    apply existsb_exists in H as (h & Hin & Hh). apply Z.leb_le in Hh.
    apply length_zero_iff_nil in Hev.
    assert (Hf : h ∈ filter (fun h => 18 <= h) hours).
    { apply list_elem_of_filter. split; [lia|]. apply list_elem_of_In. exact Hin. }
    rewrite Hev in Hf. apply elem_of_nil in Hf. exact Hf.
Qed.

Lemma counted_at_most_all (hours : list Z) :
  (length (filter (fun h => (18 <= h)%Z) hours)
   + length (filter (fun h => (h <= 8)%Z) hours) <= length hours)%nat.
Proof.
  induction hours as [|h l IH]; [cbn; lia|].
  rewrite !filter_cons. destruct (decide (18 <= h)), (decide (h <= 8)); cbn; lia.
Qed.

(** X4. Whenever the sleep assessment succeeds, its estimate is 6, 7 or 8
    hours; the evening and morning events it counts are distinct events of
    the input; the estimate is 8 when it counted none; and [below_target]
    says whether the estimate is below the target, so that a target of at
    most 6 hours is never missed and one above 8 hours always is. *)
Theorem sleep_estimate_range
    (fromisoformat : string -> res datetime) (str_float : Q -> string)
    (events : list event) (sleep_target_hours : Q) (r : sleep_report) :
  _assess_sleep_impact fromisoformat str_float events sleep_target_hours = Assessed r ->
  (estimated_sleep_hours r = 6%Q \/ estimated_sleep_hours r = 7%Q
   \/ estimated_sleep_hours r = 8%Q)
  /\ (evening_events_count r + morning_events_count r <= length events)%nat
  /\ (evening_events_count r = 0%nat -> morning_events_count r = 0%nat ->
      estimated_sleep_hours r = 8%Q)
  /\ (below_target r = true <-> (estimated_sleep_hours r < sleep_target_hours)%Q)
  /\ ((sleep_target_hours <= 6)%Q -> below_target r = false)
  /\ ((8 < sleep_target_hours)%Q -> below_target r = true).
Proof.
  intros H.
  destruct (hours_split fromisoformat events)
    as [(timed & -> & Hh)|(timed & e & rest & err & -> & Hh & He)].
  2: { rewrite (assess_first_failure _ _ _ _ _ _ _ Hh He) in H. discriminate. }
  rewrite (assess_timed _ _ _ _ Hh) in H. injection H as <-. cbn.
  pose proof (estimate_values timed.*2) as Hv.
  split; [exact Hv|].
  split; [rewrite length_fmap, <- (length_fmap snd timed); apply counted_at_most_all|].
  split; [apply estimate_without_counted|].
  split; [apply Qltb_lt|]. split.
  - intros Ht. apply not_true_is_false. rewrite Qltb_lt. intros Hlt.
    assert (spec_estimated_sleep timed.*2 < 6)%Q as Hc
      by (eapply Qlt_le_trans; [exact Hlt|exact Ht]).
    destruct Hv as [Hv|[Hv|Hv]]; rewrite Hv in Hc; revert Hc; unfold Qlt; cbn; lia.
  - intros Ht. apply Qltb_lt. eapply Qle_lt_trans; [|exact Ht].
    destruct Hv as [Hv|[Hv|Hv]]; rewrite Hv; unfold Qle; cbn; lia.
Qed.

Lemma sleep_estimate_range_witness :
  (1 + 0 <= length [Sample.standup;
                    ev "Call" "2025-01-15T22:30:00Z" "2025-01-15T23:00:00Z"])%nat.
Proof.
  exact (proj1 (proj2 (sleep_estimate_range fromisoformat_basic str_float_integral
    [Sample.standup; ev "Call" "2025-01-15T22:30:00Z" "2025-01-15T23:00:00Z"] 7
    {| estimated_sleep_hours := 6; below_target := true;
       evening_events_count := 1; morning_events_count := 0;
       message := "Estimated sleep: 6.0h (target: 7.0h)" |}
    ltac:(vm_compute; reflexivity)))).
Defined.

Lemma start_hour_missing (fromisoformat : string -> res datetime) (e : event) :
  e !! "start" = None -> start_hour fromisoformat e = Raise (KeyError "start").
Proof.
  intros H. unfold start_hour, parse_time, getitem. rewrite H. reflexivity.
Qed.

(** X5. One event whose start is missing or unreadable makes the sleep
    assessment fail, with the error of the first such event; no estimate is
    given for the remaining events.  When the only defect of the list is
    events without a start, the error names the key ['start']. *)
Theorem sleep_unreadable_start_fails
    (fromisoformat : string -> res datetime) (str_float : Q -> string)
    (events : list event) (e : event) (err : exn) (sleep_target_hours : Q) :
  e ∈ events ->
  start_hour fromisoformat e = Raise err ->
  (exists e' err',
      e' ∈ events /\ start_hour fromisoformat e' = Raise err'
      /\ _assess_sleep_impact fromisoformat str_float events sleep_target_hours
         = Sleep.Failure ("Failed to assess sleep impact: " +:+ str_exn err'))
  /\ (Forall (fun x => x !! "start" = None \/ exists h, start_hour fromisoformat x = Ok h)
             events ->
      _assess_sleep_impact fromisoformat str_float events sleep_target_hours
      = Sleep.Failure "Failed to assess sleep impact: 'start'").
Proof.
  intros Hin He.
  destruct (hours_split fromisoformat events)
    as [(timed & -> & Hh)|(timed & e' & rest & err' & -> & Hh & He')].
  { exfalso. apply list_elem_of_fmap in Hin as ([e0 h] & -> & Hin).
    unfold hours_of in Hh. rewrite Forall_forall in Hh.
    specialize (Hh _ Hin). cbn in Hh, He. congruence. }
  pose proof (assess_first_failure fromisoformat str_float timed e' rest err'
                sleep_target_hours Hh He') as Hf.
  split.
  - exists e', err'. split; [|split; [exact He'|exact Hf]].
    apply elem_of_app. right. apply list_elem_of_here.
  - intros Hall. rewrite Hf.
    rewrite Forall_forall in Hall.
    destruct (Hall e') as [Hnone|[h Hok]].
    + apply elem_of_app. right. apply list_elem_of_here.
    + rewrite (start_hour_missing _ _ Hnone) in He'. injection He' as <-. reflexivity.
    + congruence.
Qed.

Lemma sleep_unreadable_start_fails_witness :
  _assess_sleep_impact fromisoformat_basic str_float_integral
    [Sample.standup; delete "start" Sample.review; Sample.lunch] 7
  = Sleep.Failure "Failed to assess sleep impact: 'start'".
Proof.
  apply (proj2 (sleep_unreadable_start_fails fromisoformat_basic str_float_integral
    [Sample.standup; delete "start" Sample.review; Sample.lunch]
    (delete "start" Sample.review) (KeyError "start") 7
    ltac:(apply elem_of_cons; right; apply list_elem_of_here)
    ltac:(vm_compute; reflexivity))).
  constructor; [right; eexists; vm_compute; reflexivity|].
  constructor; [left; vm_compute; reflexivity|].
  constructor; [right; eexists; vm_compute; reflexivity|constructor].
Defined.

Lemma start_hour_same_start (fromisoformat : string -> res datetime) (a b : event) :
  a !! "start" = b !! "start" -> start_hour fromisoformat a = start_hour fromisoformat b.
Proof.
  intros H. unfold start_hour, parse_time, getitem. rewrite H. reflexivity.
Qed.

(** X6. The sleep assessment reads nothing of an event but its ['start']:
    two lists of events that agree on the starts, position by position, get
    the same result, whatever their ends, titles and other keys are (an
    event without an end is as good as one with an end). *)
Theorem sleep_reads_only_starts
    (fromisoformat : string -> res datetime) (str_float : Q -> string)
    (events1 events2 : list event) (sleep_target_hours : Q) :
  Forall2 (fun a b => a !! "start" = b !! "start") events1 events2 ->
  _assess_sleep_impact fromisoformat str_float events1 sleep_target_hours
  = _assess_sleep_impact fromisoformat str_float events2 sleep_target_hours.
Proof.
  intros Hl. set (P := fun a b : event => a !! "start" = b !! "start") in *.
  assert (Hsel : forall (f : Z -> bool) l1 l2, Forall2 P l1 l2 ->
    match select (fun e => h <- start_hour fromisoformat e;; Ok (f h)) l1,
          select (fun e => h <- start_hour fromisoformat e;; Ok (f h)) l2 with
    | Ok r1, Ok r2 => Forall2 P r1 r2
    | Raise e1, Raise e2 => e1 = e2
    | _, _ => False
    end).
  { intros f l1 l2 H12. unfold select.
    apply (for_each_rel P (Forall2 P)); [|exact H12|constructor].
    intros s t x y Hst Hxy.
    rewrite (start_hour_same_start fromisoformat x y Hxy).
    destruct (start_hour fromisoformat y) as [h|e]; cbn [bind]; [|reflexivity].
    destruct (f h); [|exact Hst].
    apply Forall2_app; [exact Hst|]. constructor; [exact Hxy|constructor]. }
  assert (Hcl :
    match Sleep.classify fromisoformat events1, Sleep.classify fromisoformat events2 with
    | Ok r1, Ok r2 => Forall2 P r1.1 r2.1 /\ Forall2 P r1.2 r2.2
    | Raise e1, Raise e2 => e1 = e2
    | _, _ => False
    end).
  { unfold Sleep.classify.
    apply (for_each_rel P (fun r1 r2 : list event * list event =>
                             Forall2 P r1.1 r2.1 /\ Forall2 P r1.2 r2.2));
      [|exact Hl|split; constructor].
    intros [ev1 mo1] [ev2 mo2] x y [Hev Hmo] Hxy. cbn [fst snd] in *.
    rewrite (start_hour_same_start fromisoformat x y Hxy).
    destruct (start_hour fromisoformat y) as [h|e]; cbn [bind]; [|reflexivity].
    destruct (18 <=? h); [|destruct (h <=? 8)]; cbn [fst snd].
    - split; [|exact Hmo]. apply Forall2_app; [exact Hev|].
      constructor; [exact Hxy|constructor].
    - split; [exact Hev|]. apply Forall2_app; [exact Hmo|].
      constructor; [exact Hxy|constructor].
    - split; assumption. }
  unfold _assess_sleep_impact.
  destruct (Sleep.classify fromisoformat events1) as [[ev1 mo1]|e1],
           (Sleep.classify fromisoformat events2) as [[ev2 mo2]|e2];
    try (destruct Hcl; fail); cbn [bind].
  2: { rewrite Hcl. reflexivity. }
  destruct Hcl as [Hev Hmo]. cbn [fst snd] in *.
  unfold _calculate_sleep_hours.
  pose proof (Hsel (fun h => 22 <=? h) ev1 ev2 Hev) as H1.
  pose proof (Hsel (fun h => h <=? 7) mo1 mo2 Hmo) as H2.
  destruct (select _ ev1) as [l1|x1], (select _ ev2) as [l2|x2];
    try (destruct H1; fail); cbn [bind].
  2: { rewrite H1. reflexivity. }
  destruct (select _ mo1) as [m1|y1], (select _ mo2) as [m2|y2];
    try (destruct H2; fail); cbn [bind].
  2: { rewrite H2. reflexivity. }
  rewrite (Forall2_length _ _ _ H1), (Forall2_length _ _ _ H2),
          (Forall2_length _ _ _ Hev), (Forall2_length _ _ _ Hmo).
  reflexivity.
Qed.

Lemma sleep_reads_only_starts_witness :
  _assess_sleep_impact fromisoformat_basic str_float_integral
    [Sample.standup; Sample.review] 7
  = _assess_sleep_impact fromisoformat_basic str_float_integral
      [delete "end" Sample.standup; <["end" := "whenever"]> Sample.review] 7.
Proof.
  apply (sleep_reads_only_starts fromisoformat_basic str_float_integral).
  repeat constructor; vm_compute; reflexivity.
Defined.

Lemma estimate_app (h1 h2 : list Z) :
  (spec_estimated_sleep (h1 ++ h2) <= spec_estimated_sleep h1)%Q.
Proof.
  unfold spec_estimated_sleep. rewrite !existsb_app.
  destruct (existsb (fun h => 22 <=? h) h1), (existsb (fun h => h <=? 7) h1),
           (existsb (fun h => 22 <=? h) h2), (existsb (fun h => h <=? 7) h2);
    cbn; unfold Qle; cbn; lia.
Qed.

(** X7. More events never mean more sleep: when the assessment succeeds on
    a list and on the list with further events appended, the longer list
    has an estimate that is not higher, counts that are not lower, and is
    below the target whenever the shorter one is. *)
Theorem more_events_less_sleep
    (fromisoformat : string -> res datetime) (str_float : Q -> string)
    (events more : list event) (sleep_target_hours : Q) (r1 r2 : sleep_report) :
  _assess_sleep_impact fromisoformat str_float events sleep_target_hours = Assessed r1 ->
  _assess_sleep_impact fromisoformat str_float (events ++ more) sleep_target_hours
  = Assessed r2 ->
  (estimated_sleep_hours r2 <= estimated_sleep_hours r1)%Q
  /\ (evening_events_count r1 <= evening_events_count r2)%nat
  /\ (morning_events_count r1 <= morning_events_count r2)%nat
  /\ (below_target r1 = true -> below_target r2 = true).
Proof.
  intros H1 H2.
  destruct (hours_split fromisoformat (events ++ more))
    as [(timed & Heq & Hh)|(timed & e & rest & err & Heq & Hh & He)].
  2: { rewrite Heq, (assess_first_failure _ _ _ _ _ _ _ Hh He) in H2. discriminate. }
  set (n := length events).
  assert (Hev : events = (take n timed).*1).
  { rewrite fmap_take, <- Heq. subst n. rewrite take_app_length. reflexivity. }
  assert (Hh1 : hours_of fromisoformat (take n timed)).
  { unfold hours_of in *. apply Forall_take. exact Hh. }
  rewrite Heq, (assess_timed _ _ _ _ Hh) in H2. injection H2 as <-.
  rewrite Hev, (assess_timed _ _ _ _ Hh1) in H1. injection H1 as <-. cbn.
  assert (Hsplit : timed.*2 = (take n timed).*2 ++ (drop n timed).*2)
    by (rewrite <- fmap_app, take_drop; reflexivity).
  rewrite Hsplit, !filter_app, !length_app.
  pose proof (estimate_app (take n timed).*2 (drop n timed).*2) as Hle.
  split; [exact Hle|]. split; [lia|]. split; [lia|].
  rewrite !Qltb_lt. intros Hlt. eapply Qle_lt_trans; [exact Hle|exact Hlt].
Qed.

Lemma more_events_less_sleep_witness :
  (6 <= 8)%Q.
Proof.
  exact (proj1 (more_events_less_sleep fromisoformat_basic str_float_integral
    [Sample.standup] [ev "Call" "2025-01-15T22:30:00Z" "2025-01-15T23:00:00Z"] 7
    {| estimated_sleep_hours := 8; below_target := false;
       evening_events_count := 0; morning_events_count := 0;
       message := "Estimated sleep: 8.0h (target: 7.0h)" |}
    {| estimated_sleep_hours := 6; below_target := true;
       evening_events_count := 1; morning_events_count := 0;
       message := "Estimated sleep: 6.0h (target: 7.0h)" |}
    ltac:(vm_compute; reflexivity) ltac:(vm_compute; reflexivity))).
Defined.

(** ** More on the conversation state *)

(** What a function call of [GeminiCalendarChat] leaves as it is. *)
Lemma chat_execute_frame (fromisoformat : string -> res datetime) (uuid8 : nat -> string)
    (str_float : Q -> string) (now : string) (s : GeminiCalendarChat.session)
    (fc : GeminiCalendarChat.function_call) :
  let s' := session_after
              (GeminiCalendarChat._execute_calendar_function fromisoformat uuid8 str_float
                 now s fc) s in
  GeminiCalendarChat.conversation_history s' = GeminiCalendarChat.conversation_history s
  /\ problem_statement (GeminiCalendarChat.context s')
     = problem_statement (GeminiCalendarChat.context s)
  /\ clarifying_questions (GeminiCalendarChat.context s')
     = clarifying_questions (GeminiCalendarChat.context s)
  /\ user_answers (GeminiCalendarChat.context s')
     = user_answers (GeminiCalendarChat.context s)
  /\ preferences (GeminiCalendarChat.context s')
     = preferences (GeminiCalendarChat.context s)
  /\ session_id (GeminiCalendarChat.context s')
     = session_id (GeminiCalendarChat.context s)
  /\ (chat_keeps_context fc = true ->
      GeminiCalendarChat.context s' = GeminiCalendarChat.context s).
Proof.
  destruct fc; cbn; try (repeat split; congruence).
  unfold GeminiCalendarChat._generate_schedule_proposal.
  destruct (GeminiCalendarChat._generate_proposal_changes uuid8 _ _ _) as [chs k].
  cbn. repeat split. discriminate.
Qed.

Lemma assistant_execute_frame (fromisoformat : string -> res datetime)
    (uuid8 : nat -> string) (now : string) (s : GeminiCalendarAssistant.session)
    (fc : GeminiCalendarAssistant.function_call) :
  let s' := session_after
              (GeminiCalendarAssistant._execute_function_call fromisoformat uuid8
                 now s fc) s in
  problem_statement (GeminiCalendarAssistant.context s')
  = problem_statement (GeminiCalendarAssistant.context s)
  /\ clarifying_questions (GeminiCalendarAssistant.context s')
     = clarifying_questions (GeminiCalendarAssistant.context s)
  /\ user_answers (GeminiCalendarAssistant.context s')
     = user_answers (GeminiCalendarAssistant.context s)
  /\ preferences (GeminiCalendarAssistant.context s')
     = preferences (GeminiCalendarAssistant.context s)
  /\ session_id (GeminiCalendarAssistant.context s')
     = session_id (GeminiCalendarAssistant.context s)
  /\ (assistant_keeps_context fc = true ->
      GeminiCalendarAssistant.context s' = GeminiCalendarAssistant.context s).
Proof.
  destruct fc; cbn; try (repeat split; congruence).
  unfold GeminiCalendarAssistant._generate_schedule_proposal.
  destruct (GeminiCalendarAssistant._generate_proposal_changes uuid8 _ _ _) as [chs k].
  cbn. repeat split. discriminate.
Qed.

Lemma chat_process_history (fromisoformat : string -> res datetime)
    (uuid8 : nat -> string) (str_float : Q -> string) (now : string)
    (s : GeminiCalendarChat.session) (response : GeminiCalendarChat.response)
    (user_input : string) :
  GeminiCalendarChat.conversation_history
    (GeminiCalendarChat._process_enhanced_response fromisoformat uuid8 str_float
       now s response user_input).2
  = GeminiCalendarChat.conversation_history s.
Proof.
  unfold GeminiCalendarChat._process_enhanced_response.
  destruct (GeminiCalendarChat.function_call_part response) as [fc|].
  - pose proof (chat_execute_frame fromisoformat uuid8 str_float now s fc) as (Hh & _).
    destruct (GeminiCalendarChat._execute_calendar_function fromisoformat uuid8
                str_float now s fc) as [[r s2]|e]; exact Hh.
  - destruct (GeminiCalendarChat.text response) as [response_text|e]; [|reflexivity].
    destruct (GeminiCalendarChat._is_clarifying_question
                (GeminiCalendarChat.context s) response_text) as [[|]|e];
      try reflexivity.
    destruct (Nat.ltb _ _); reflexivity.
Qed.

(** The history after a turn of [GeminiCalendarChat]. *)
Lemma chat_turn_history (fromisoformat : string -> res datetime)
    (uuid8 : nat -> string) (str_float : Q -> string) (now : string)
    (reply : res GeminiCalendarChat.response) (s : GeminiCalendarChat.session)
    (user_input : string) :
  GeminiCalendarChat.conversation_history
    (GeminiCalendarChat.chat_with_calendar_context fromisoformat uuid8 str_float
       now reply s user_input).2
  = GeminiCalendarChat.conversation_history s
    ++ [("user", user_input);
        ("assistant",
         (GeminiCalendarChat.chat_with_calendar_context fromisoformat uuid8 str_float
            now reply s user_input).1)].
Proof.
  unfold GeminiCalendarChat.chat_with_calendar_context.
  set (s1 := if String.eqb _ _ then _ else _).
  assert (H1 : GeminiCalendarChat.conversation_history s1
               = GeminiCalendarChat.conversation_history s ++ [("user", user_input)]).
  { subst s1. cbn. destruct (String.eqb _ _); reflexivity. }
  destruct reply as [response|e].
  - pose proof (chat_process_history fromisoformat uuid8 str_float now s1 response
                  user_input) as H2.
    destruct (GeminiCalendarChat._process_enhanced_response fromisoformat uuid8
                str_float now s1 response user_input) as [[answer|e] s2];
      cbn in *; rewrite H2, H1, <- app_assoc; reflexivity.
  - cbn. rewrite H1, <- app_assoc. reflexivity.
Qed.

(** X8. Every turn of [GeminiCalendarChat] appends two entries to the
    conversation history: the user's text, and the very text the turn
    returns, be it an answer or an error message.  The history of a
    conversation is therefore the history it started from followed by the
    transcript of its turns. *)
Theorem chat_history_is_transcript
    (fromisoformat : string -> res datetime) (uuid8 : nat -> string)
    (str_float : Q -> string) :
  (forall now reply s user_input,
     GeminiCalendarChat.conversation_history
       (GeminiCalendarChat.chat_with_calendar_context fromisoformat uuid8 str_float
          now reply s user_input).2
     = GeminiCalendarChat.conversation_history s
       ++ [("user", user_input);
           ("assistant",
            (GeminiCalendarChat.chat_with_calendar_context fromisoformat uuid8 str_float
               now reply s user_input).1)])
  /\ (forall turns s,
        GeminiCalendarChat.conversation_history
          (chat_run fromisoformat uuid8 str_float turns s)
        = GeminiCalendarChat.conversation_history s
          ++ chat_transcript fromisoformat uuid8 str_float turns s).
Proof.
  pose proof (chat_turn_history fromisoformat uuid8 str_float) as Hturn.
  split; [exact Hturn|].
  induction turns as [|t turns IH]; intros s.
  - cbn. rewrite app_nil_r. reflexivity.
  - cbn [chat_run fold_left chat_transcript].
    specialize (Hturn (ct_now t) (ct_reply t) s (ct_input t)).
    specialize (IH (GeminiCalendarChat.chat_with_calendar_context fromisoformat uuid8
                      str_float (ct_now t) (ct_reply t) s (ct_input t)).2).
    unfold chat_run in IH. rewrite IH, Hturn.
    destruct (GeminiCalendarChat.chat_with_calendar_context fromisoformat uuid8
                str_float (ct_now t) (ct_reply t) s (ct_input t)) as [answer s'].
    cbn [fst snd]. rewrite <- app_assoc. reflexivity.
Qed.

Lemma chat_process_context (fromisoformat : string -> res datetime)
    (uuid8 : nat -> string) (str_float : Q -> string) (now : string)
    (s : GeminiCalendarChat.session) (response : GeminiCalendarChat.response)
    (user_input : string) :
  let c := GeminiCalendarChat.context s in
  let c' := GeminiCalendarChat.context
              (GeminiCalendarChat._process_enhanced_response fromisoformat uuid8
                 str_float now s response user_input).2 in
  problem_statement c' = problem_statement c
  /\ clarifying_questions c' = clarifying_questions c
  /\ (user_answers c' = user_answers c
      \/ (user_answers c' = user_answers c ++ [user_input]
          /\ (length (user_answers c) < length (clarifying_questions c))%nat))
  /\ preferences c' = preferences c
  /\ session_id c' = session_id c.
Proof.
  unfold GeminiCalendarChat._process_enhanced_response.
  destruct (GeminiCalendarChat.function_call_part response) as [fc|].
  - pose proof (chat_execute_frame fromisoformat uuid8 str_float now s fc)
      as (_ & Hp & Hq & Ha & Hpr & Hid & _).
    destruct (GeminiCalendarChat._execute_calendar_function fromisoformat uuid8
                str_float now s fc) as [[r s2]|e];
      cbn in *; repeat split; try assumption; left; exact Ha.
  - destruct (GeminiCalendarChat.text response) as [response_text|e];
      [|cbn; repeat split; left; reflexivity].
    pose proof (chat_never_classifies (GeminiCalendarChat.context s) response_text) as Hn.
    destruct (GeminiCalendarChat._is_clarifying_question
                (GeminiCalendarChat.context s) response_text) as [[|]|e];
      [destruct (Hn eq_refl)| |cbn; repeat split; left; reflexivity].
    destruct (Nat.ltb_spec (length (user_answers (GeminiCalendarChat.context s)))
                           (length (clarifying_questions (GeminiCalendarChat.context s))))
      as [Hlt|Hge]; cbn; repeat split.
    + right. split; [reflexivity|exact Hlt].
    + left. reflexivity.
Qed.

(** The context after a turn of [GeminiCalendarChat]. *)
Lemma chat_turn_context (fromisoformat : string -> res datetime)
    (uuid8 : nat -> string) (str_float : Q -> string) (now : string)
    (reply : res GeminiCalendarChat.response) (s : GeminiCalendarChat.session)
    (user_input : string) :
  let c := GeminiCalendarChat.context s in
  let c' := GeminiCalendarChat.context
              (GeminiCalendarChat.chat_with_calendar_context fromisoformat uuid8
                 str_float now reply s user_input).2 in
  problem_statement c' = problem_statement (noted c user_input)
  /\ clarifying_questions c' = clarifying_questions c
  /\ (user_answers c' = user_answers c
      \/ (user_answers c' = user_answers c ++ [user_input]
          /\ (length (user_answers c) < length (clarifying_questions c))%nat))
  /\ preferences c' = preferences c
  /\ session_id c' = session_id c.
Proof.
  unfold GeminiCalendarChat.chat_with_calendar_context.
  set (s1 := if String.eqb _ _ then _ else _).
  assert (H1 : GeminiCalendarChat.context s1
               = noted (GeminiCalendarChat.context s) user_input).
  { subst s1. unfold noted. cbn. destruct (String.eqb _ _); reflexivity. }
  assert (H0 : clarifying_questions (noted (GeminiCalendarChat.context s) user_input)
               = clarifying_questions (GeminiCalendarChat.context s)
               /\ user_answers (noted (GeminiCalendarChat.context s) user_input)
                  = user_answers (GeminiCalendarChat.context s)
               /\ preferences (noted (GeminiCalendarChat.context s) user_input)
                  = preferences (GeminiCalendarChat.context s)
               /\ session_id (noted (GeminiCalendarChat.context s) user_input)
                  = session_id (GeminiCalendarChat.context s)).
  { unfold noted. destruct (String.eqb _ _); repeat split. }
  destruct H0 as (Nq & Na & Npr & Nid).
  destruct reply as [response|e].
  - pose proof (chat_process_context fromisoformat uuid8 str_float now s1 response
                  user_input) as H2.
    cbv zeta in H2. rewrite H1 in H2. rewrite Nq, Na, Npr, Nid in H2.
    destruct (GeminiCalendarChat._process_enhanced_response fromisoformat uuid8
                str_float now s1 response user_input) as [[answer|e] s2];
      cbn in *; exact H2.
  - cbn. rewrite H1. repeat split; try assumption. left. exact Na.
Qed.

(** The context after a turn of [GeminiCalendarAssistant]. *)
Lemma assistant_turn_context (fromisoformat : string -> res datetime)
    (uuid8 : nat -> string)
    (json_dumps : GeminiCalendarAssistant.function_result -> res string) (now : string)
    (reply follow_up : res GeminiCalendarAssistant.response)
    (s : GeminiCalendarAssistant.session) (user_input : string) :
  let c := GeminiCalendarAssistant.context s in
  let c' := GeminiCalendarAssistant.context
              (GeminiCalendarAssistant.process_user_input fromisoformat uuid8
                 json_dumps now reply follow_up s user_input).2 in
  problem_statement c' = problem_statement (noted c user_input)
  /\ user_answers c' = user_answers c
  /\ (clarifying_questions c' = clarifying_questions c
      \/ (exists response_text,
             clarifying_questions c' = clarifying_questions c ++ [response_text]
             /\ contains "?" response_text = true
             /\ (length (user_answers c) < length (clarifying_questions c))%nat))
  /\ preferences c' = preferences c
  /\ session_id c' = session_id c.
Proof.
  unfold GeminiCalendarAssistant.process_user_input.
  remember (if String.eqb (problem_statement (GeminiCalendarAssistant.context s)) ""
            then GeminiCalendarAssistant.with_context s
                   (set_problem_statement (GeminiCalendarAssistant.context s) user_input)
            else s) as s1 eqn:Es1.
  assert (H1 : GeminiCalendarAssistant.context s1
               = noted (GeminiCalendarAssistant.context s) user_input).
  { subst s1. unfold noted. destruct (String.eqb _ _); reflexivity. }
  clear Es1.
  assert (H0 : clarifying_questions (noted (GeminiCalendarAssistant.context s) user_input)
               = clarifying_questions (GeminiCalendarAssistant.context s)
               /\ user_answers (noted (GeminiCalendarAssistant.context s) user_input)
                  = user_answers (GeminiCalendarAssistant.context s)
               /\ preferences (noted (GeminiCalendarAssistant.context s) user_input)
                  = preferences (GeminiCalendarAssistant.context s)
               /\ session_id (noted (GeminiCalendarAssistant.context s) user_input)
                  = session_id (GeminiCalendarAssistant.context s)).
  { unfold noted. destruct (String.eqb _ _); repeat split. }
  destruct H0 as (Nq & Na & Npr & Nid).
  destruct reply as [response|e].
  2: { cbn. rewrite H1. repeat split; try assumption. left. exact Nq. }
  unfold GeminiCalendarAssistant._process_gemini_response.
  destruct (GeminiCalendarAssistant.function_call_part response) as [fc|].
  - pose proof (assistant_execute_frame fromisoformat uuid8 now s1 fc)
      as (Hp & Hq & Ha & Hpr & Hid & _).
    destruct (GeminiCalendarAssistant._execute_function_call fromisoformat uuid8
                now s1 fc) as [[r s2]|e];
      cbn [fst snd session_after] in *; rewrite H1 in *.
    + destruct (GeminiCalendarAssistant._continue_conversation_with_result json_dumps
                  follow_up r user_input); cbn [fst snd];
        (split; [congruence|]); (split; [congruence|]);
        (split; [left; congruence|]); split; congruence.
    + repeat split; try assumption. left. exact Nq.
  - destruct (GeminiCalendarAssistant.text response) as [response_text|e].
    2: { cbn. rewrite H1. repeat split; try assumption. left. exact Nq. }
    rewrite H1, Na, Nq.
    destruct (contains "?" response_text) eqn:Hc; cbn [andb].
    + destruct (Nat.ltb_spec (length (user_answers (GeminiCalendarAssistant.context s)))
                  (length (clarifying_questions (GeminiCalendarAssistant.context s))))
        as [Hlt|Hge].
      * cbn. rewrite ?H1, ?Nq. repeat split; try assumption.
        right. exists response_text. repeat split; assumption.
      * destruct (contains "proposal" (lower response_text)
                  || contains "schedule" (lower response_text));
          cbn; rewrite H1; repeat split; try assumption; left; exact Nq.
    + destruct (contains "proposal" (lower response_text)
                || contains "schedule" (lower response_text));
        cbn; rewrite H1; repeat split; try assumption; left; exact Nq.
Qed.

(** X9. The problem statement is written once.  A turn of either class
    sets it to the user's text when it was empty and leaves it alone
    otherwise, whatever the model answers; so once a conversation has a
    problem statement, no later turn changes it.  The preferences and the
    session identifier are changed by no turn. *)
Theorem problem_statement_set_once
    (fromisoformat : string -> res datetime) (uuid8 : nat -> string)
    (str_float : Q -> string)
    (json_dumps : GeminiCalendarAssistant.function_result -> res string) :
  (forall now reply s user_input,
     let c := GeminiCalendarChat.context s in
     let c' := GeminiCalendarChat.context
                 (GeminiCalendarChat.chat_with_calendar_context fromisoformat uuid8
                    str_float now reply s user_input).2 in
     problem_statement c'
     = (if String.eqb (problem_statement c) "" then user_input else problem_statement c)
     /\ preferences c' = preferences c /\ session_id c' = session_id c)
  /\ (forall now reply follow_up s user_input,
        let c := GeminiCalendarAssistant.context s in
        let c' := GeminiCalendarAssistant.context
                    (GeminiCalendarAssistant.process_user_input fromisoformat uuid8
                       json_dumps now reply follow_up s user_input).2 in
        problem_statement c'
        = (if String.eqb (problem_statement c) "" then user_input else problem_statement c)
        /\ preferences c' = preferences c /\ session_id c' = session_id c)
  /\ (forall turns s,
        problem_statement (GeminiCalendarChat.context s) <> "" ->
        problem_statement
          (GeminiCalendarChat.context (chat_run fromisoformat uuid8 str_float turns s))
        = problem_statement (GeminiCalendarChat.context s))
  /\ (forall turns s,
        problem_statement (GeminiCalendarAssistant.context s) <> "" ->
        problem_statement
          (GeminiCalendarAssistant.context
             (assistant_run fromisoformat uuid8 json_dumps turns s))
        = problem_statement (GeminiCalendarAssistant.context s)).
Proof.
  assert (Hn : forall c user_input,
    problem_statement (noted c user_input)
    = (if String.eqb (problem_statement c) "" then user_input else problem_statement c)).
  { intros c user_input. unfold noted. destruct (String.eqb _ _); reflexivity. }
  assert (H1 : forall now reply s user_input,
     let c := GeminiCalendarChat.context s in
     let c' := GeminiCalendarChat.context
                 (GeminiCalendarChat.chat_with_calendar_context fromisoformat uuid8
                    str_float now reply s user_input).2 in
     problem_statement c'
     = (if String.eqb (problem_statement c) "" then user_input else problem_statement c)
     /\ preferences c' = preferences c /\ session_id c' = session_id c).
  { intros now reply s user_input c c'.
    destruct (chat_turn_context fromisoformat uuid8 str_float now reply s user_input)
      as (Hp & _ & _ & Hpr & Hid).
    subst c c'. rewrite Hp, Hn. repeat split; assumption. }
  assert (H2 : forall now reply follow_up s user_input,
        let c := GeminiCalendarAssistant.context s in
        let c' := GeminiCalendarAssistant.context
                    (GeminiCalendarAssistant.process_user_input fromisoformat uuid8
                       json_dumps now reply follow_up s user_input).2 in
        problem_statement c'
        = (if String.eqb (problem_statement c) "" then user_input else problem_statement c)
        /\ preferences c' = preferences c /\ session_id c' = session_id c).
  { intros now reply follow_up s user_input c c'.
    destruct (assistant_turn_context fromisoformat uuid8 json_dumps now reply follow_up
                s user_input) as (Hp & _ & _ & Hpr & Hid).
    subst c c'. rewrite Hp, Hn. repeat split; assumption. }
  split; [exact H1|]. split; [exact H2|]. split.
  - induction turns as [|t turns IH]; intros s Hs; [reflexivity|].
    cbn [chat_run fold_left].
    destruct (H1 (ct_now t) (ct_reply t) s (ct_input t)) as (Hp & _).
    cbv zeta in Hp.
    destruct (String.eqb_spec (problem_statement (GeminiCalendarChat.context s)) "")
      as [He|_]; [contradiction|].
    unfold chat_run in IH. rewrite IH; [exact Hp|]. rewrite Hp. exact Hs.
  - induction turns as [|t turns IH]; intros s Hs; [reflexivity|].
    cbn [assistant_run fold_left].
    destruct (H2 (at_now t) (at_reply t) (at_follow_up t) s (at_input t)) as (Hp & _).
    cbv zeta in Hp.
    destruct (String.eqb_spec (problem_statement (GeminiCalendarAssistant.context s)) "")
      as [He|_]; [contradiction|].
    unfold assistant_run in IH. rewrite IH; [exact Hp|]. rewrite Hp. exact Hs.
Qed.

(** A conversation that starts without questions and answers stays so. *)
Lemma chat_run_records_nothing (fromisoformat : string -> res datetime)
    (uuid8 : nat -> string) (str_float : Q -> string) (turns : list chat_turn)
    (s : GeminiCalendarChat.session) :
  clarifying_questions (GeminiCalendarChat.context s) = [] ->
  user_answers (GeminiCalendarChat.context s) = [] ->
  clarifying_questions
    (GeminiCalendarChat.context (chat_run fromisoformat uuid8 str_float turns s)) = []
  /\ user_answers
       (GeminiCalendarChat.context (chat_run fromisoformat uuid8 str_float turns s)) = [].
Proof.
  revert s. induction turns as [|t turns IH]; intros s Hq Ha; [split; assumption|].
  cbn [chat_run fold_left].
  destruct (chat_turn_context fromisoformat uuid8 str_float (ct_now t) (ct_reply t)
              s (ct_input t)) as (_ & Hq' & Ha' & _).
  cbv zeta in Hq', Ha'. rewrite Hq, Ha in *.
  apply IH; [exact Hq'|].
  destruct Ha' as [Ha'|[_ Hlt]]; [exact Ha'|cbn in Hlt; lia].
Qed.

Lemma assistant_run_records_nothing (fromisoformat : string -> res datetime)
    (uuid8 : nat -> string)
    (json_dumps : GeminiCalendarAssistant.function_result -> res string)
    (turns : list assistant_turn) (s : GeminiCalendarAssistant.session) :
  clarifying_questions (GeminiCalendarAssistant.context s) = [] ->
  user_answers (GeminiCalendarAssistant.context s) = [] ->
  clarifying_questions
    (GeminiCalendarAssistant.context
       (assistant_run fromisoformat uuid8 json_dumps turns s)) = []
  /\ user_answers
       (GeminiCalendarAssistant.context
          (assistant_run fromisoformat uuid8 json_dumps turns s)) = [].
Proof.
  revert s. induction turns as [|t turns IH]; intros s Hq Ha; [split; assumption|].
  cbn [assistant_run fold_left].
  destruct (assistant_turn_context fromisoformat uuid8 json_dumps (at_now t)
              (at_reply t) (at_follow_up t) s (at_input t)) as (_ & Ha' & Hq' & _).
  cbv zeta in Hq', Ha'. rewrite Hq, Ha in *.
  apply IH; [|exact Ha'].
  destruct Hq' as [Hq'|(x & _ & _ & Hlt)]; [exact Hq'|cbn in Hlt; lia].
Qed.

(** X10. In a conversation that starts from a new session, no clarifying
    question and no answer is ever recorded, in either class and whatever
    the model answers: the lists [clarifying_questions] and [user_answers]
    are empty after every turn, because a question is only recorded while
    there are fewer answers than questions. *)
Theorem new_session_never_records
    (fromisoformat : string -> res datetime) (uuid8 : nat -> string)
    (str_float : Q -> string)
    (json_dumps : GeminiCalendarAssistant.function_result -> res string)
    (session_id : string)
    (chat_turns : list chat_turn) (assistant_turns : list assistant_turn) :
  let chat :=
    chat_run fromisoformat uuid8 str_float chat_turns
      (GeminiCalendarChat.new_session session_id) in
  let assistant :=
    assistant_run fromisoformat uuid8 json_dumps assistant_turns
      GeminiCalendarAssistant.new_session in
  clarifying_questions (GeminiCalendarChat.context chat) = []
  /\ user_answers (GeminiCalendarChat.context chat) = []
  /\ clarifying_questions (GeminiCalendarAssistant.context assistant) = []
  /\ user_answers (GeminiCalendarAssistant.context assistant) = [].
Proof.
  intros chat assistant.
  destruct (chat_run_records_nothing fromisoformat uuid8 str_float chat_turns
              (GeminiCalendarChat.new_session session_id) eq_refl eq_refl).
  destruct (assistant_run_records_nothing fromisoformat uuid8 json_dumps assistant_turns
              GeminiCalendarAssistant.new_session eq_refl eq_refl).
  repeat split; assumption.
Qed.

(** X11. The bookkeeping of questions and answers, from any state.  A turn
    of [GeminiCalendarChat] never changes the recorded questions, and
    records the user's text as an answer only while there are fewer answers
    than questions.  A turn of [GeminiCalendarAssistant] never changes the
    recorded answers, and records a response as a question only if it has a
    question mark and there are fewer answers than questions.  In both
    classes a turn keeps "no more answers than questions". *)
Theorem questions_and_answers_bookkeeping
    (fromisoformat : string -> res datetime) (uuid8 : nat -> string)
    (str_float : Q -> string)
    (json_dumps : GeminiCalendarAssistant.function_result -> res string)
    (now user_input : string)
    (chat_reply : res GeminiCalendarChat.response)
    (reply follow_up : res GeminiCalendarAssistant.response)
    (chat : GeminiCalendarChat.session) (assistant : GeminiCalendarAssistant.session) :
  let c := GeminiCalendarChat.context chat in
  let c' := GeminiCalendarChat.context
              (GeminiCalendarChat.chat_with_calendar_context fromisoformat uuid8
                 str_float now chat_reply chat user_input).2 in
  let a := GeminiCalendarAssistant.context assistant in
  let a' := GeminiCalendarAssistant.context
              (GeminiCalendarAssistant.process_user_input fromisoformat uuid8
                 json_dumps now reply follow_up assistant user_input).2 in
  clarifying_questions c' = clarifying_questions c
  /\ (user_answers c' = user_answers c
      \/ (user_answers c' = user_answers c ++ [user_input]
          /\ (length (user_answers c) < length (clarifying_questions c))%nat))
  /\ ((length (user_answers c) <= length (clarifying_questions c))%nat ->
      (length (user_answers c') <= length (clarifying_questions c'))%nat)
  /\ user_answers a' = user_answers a
  /\ (clarifying_questions a' = clarifying_questions a
      \/ (exists response_text,
             clarifying_questions a' = clarifying_questions a ++ [response_text]
             /\ contains "?" response_text = true
             /\ (length (user_answers a) < length (clarifying_questions a))%nat))
  /\ ((length (user_answers a) <= length (clarifying_questions a))%nat ->
      (length (user_answers a') <= length (clarifying_questions a'))%nat).
Proof.
  intros c c' a a'.
  destruct (chat_turn_context fromisoformat uuid8 str_float now chat_reply chat
              user_input) as (_ & Hq & Ha & _).
  destruct (assistant_turn_context fromisoformat uuid8 json_dumps now reply follow_up
              assistant user_input) as (_ & Ha2 & Hq2 & _).
  cbv zeta in Hq, Ha, Ha2, Hq2. fold c c' in Hq, Ha. fold a a' in Ha2, Hq2.
  split; [exact Hq|]. split; [exact Ha|]. split.
  { intros Hle. rewrite Hq. destruct Ha as [->|[-> Hlt]]; [exact Hle|].
    rewrite length_app. cbn. lia. }
  split; [exact Ha2|]. split; [exact Hq2|].
  intros Hle. rewrite Ha2. destruct Hq2 as [->|(x & -> & _ & _)]; [exact Hle|].
  rewrite length_app. cbn. lia.
Qed.

(** ** Clarifying questions in a conversation *)


(** ** More on the calendar functions *)

(** X12. Creating, updating or deleting an event, analysing conflicts and
    assessing sleep change nothing in the context of the session: what
    [get_calendar_context] reports is the same before and after the call
    (the created event is not added to [current_events]).  Reading the
    calendar replaces [current_events] by the mock events of the start
    date, three in [GeminiCalendarChat] and two in
    [GeminiCalendarAssistant], whatever [end_date] and [max_results] are. *)
Theorem calendar_writes_leave_context
    (fromisoformat : string -> res datetime) (uuid8 : nat -> string)
    (str_float : Q -> string) (now : string)
    (chat : GeminiCalendarChat.session) (assistant : GeminiCalendarAssistant.session)
    (chat_call : GeminiCalendarChat.function_call)
    (assistant_call : GeminiCalendarAssistant.function_call) :
  chat_keeps_context chat_call = true ->
  assistant_keeps_context assistant_call = true ->
  GeminiCalendarChat.context
    (session_after
       (GeminiCalendarChat._execute_calendar_function fromisoformat uuid8 str_float
          now chat chat_call) chat)
  = GeminiCalendarChat.context chat
  /\ GeminiCalendarAssistant.context
       (session_after
          (GeminiCalendarAssistant._execute_function_call fromisoformat uuid8
             now assistant assistant_call) assistant)
     = GeminiCalendarAssistant.context assistant
  /\ (forall start_date end_date max_results,
        let s' := session_after
                    (GeminiCalendarChat._execute_calendar_function fromisoformat uuid8
                       str_float now chat
                       (GeminiCalendarChat.get_calendar_events start_date end_date
                          max_results)) chat in
        GeminiCalendarChat.context s'
        = set_current_events (GeminiCalendarChat.context chat)
            (current_events (GeminiCalendarChat.context s'))
        /\ ce_start <$> current_events (GeminiCalendarChat.context s')
           = [start_date +:+ "T09:00:00Z"; start_date +:+ "T12:00:00Z";
              start_date +:+ "T14:00:00Z"])
  /\ (forall start_date end_date max_results,
        let s' := session_after
                    (GeminiCalendarAssistant._execute_function_call fromisoformat uuid8
                       now assistant
                       (GeminiCalendarAssistant.get_calendar_events start_date end_date
                          max_results)) assistant in
        GeminiCalendarAssistant.context s'
        = set_current_events (GeminiCalendarAssistant.context assistant)
            (current_events (GeminiCalendarAssistant.context s'))
        /\ ce_start <$> current_events (GeminiCalendarAssistant.context s')
           = [start_date +:+ "T09:00:00Z"; start_date +:+ "T12:00:00Z"]).
Proof.
  intros Hc Ha.
  split; [apply (chat_execute_frame fromisoformat uuid8 str_float now chat chat_call);
          exact Hc|].
  split; [apply (assistant_execute_frame fromisoformat uuid8 now assistant assistant_call);
          exact Ha|].
  split; intros; split; reflexivity.
Qed.

Lemma calendar_writes_leave_context_witness :
  GeminiCalendarChat.context
    (session_after
       (GeminiCalendarChat._execute_calendar_function fromisoformat_basic uuid8_sample
          str_float_integral "2025-01-15T08:00:00" revised_session
          (GeminiCalendarChat.create_calendar_event "Gym" "2025-01-15T18:00:00Z"
             "2025-01-15T19:00:00Z" "" "")) revised_session)
  = GeminiCalendarChat.context revised_session.
Proof.
  exact (proj1 (calendar_writes_leave_context fromisoformat_basic uuid8_sample
    str_float_integral "2025-01-15T08:00:00" revised_session
    GeminiCalendarAssistant.new_session
    (GeminiCalendarChat.create_calendar_event "Gym" "2025-01-15T18:00:00Z"
       "2025-01-15T19:00:00Z" "" "")
    (GeminiCalendarAssistant.delete_calendar_event "event_1")
    eq_refl eq_refl)).
Defined.

Lemma dt_sub_swap (a b : datetime) (d : Z) :
  dt_sub a b = Ok d -> dt_sub b a = Ok (- d).
Proof.
  unfold dt_sub. destruct (utcoffset a), (utcoffset b); intros H;
    try discriminate; injection H as <-; f_equal; lia.
Qed.

(** The duration in binary64.  The seconds of a difference are the float
    of Python's quotient, also for a number of microseconds of more than 53
    bits: Python prints the two floats written in hexadecimal here as
    9007199254.740993 and -314159265358.9793.  An hour and a half are 90 minutes, less than a
    minute counts as none in either direction, and a microsecond less than
    315570240 minutes (six hundred years) counts as 315570240, because the
    seconds are rounded to the nearest float before they are divided. *)
Example minutes_in_binary64 :
  sixty = FloatOps.Prim2SF 60%float
  /\ FloatOps.SF2Prim (total_seconds 5400000000) = 5400%float
  /\ FloatOps.SF2Prim (total_seconds 9007199254740993) = 0x1.0c6f7a0b5ed8ep+33%float
  /\ FloatOps.SF2Prim (total_seconds (- 314159265358979323))
     = (-0x1.249567d93beadp+38)%float
  /\ minutes_of 5400000000 = Ok 90
  /\ minutes_of 59999999 = Ok 0
  /\ minutes_of (- 59999999) = Ok 0
  /\ minutes_of (315570240 * 60000000 - 1) = Ok 315570240
  /\ Z.quot (315570240 * 60000000 - 1) 60000000 = 315570239.
Proof. repeat split; vm_compute; reflexivity. Qed.

(** Rounding to the nearest float does not depend on the sign. *)
Lemma binary_round_aux_opp (s : bool) (m e : Z) (l : SpecFloat.location) :
  SpecFloat.binary_round_aux FloatOps.prec FloatOps.emax (negb s) m e l
  = SpecFloat.SFopp (SpecFloat.binary_round_aux FloatOps.prec FloatOps.emax s m e l).
Proof.
  unfold SpecFloat.binary_round_aux.
  destruct (SpecFloat.shr_fexp FloatOps.prec FloatOps.emax m e l) as [mrs1 e1].
  destruct (SpecFloat.shr_fexp FloatOps.prec FloatOps.emax _ e1 _) as [mrs2 e2].
  destruct (SpecFloat.shr_m mrs2); [reflexivity| |reflexivity].
  destruct (Z.leb _ _); reflexivity.
Qed.

Lemma SF64div_opp (x : SpecFloat.spec_float) (m : positive) (e : Z) :
  FloatAxioms.SF64div (SpecFloat.SFopp x) (SpecFloat.S754_finite false m e)
  = SpecFloat.SFopp (FloatAxioms.SF64div x (SpecFloat.S754_finite false m e)).
Proof.
  unfold FloatAxioms.SF64div.
  destruct x as [s|s| |s mx ex]; cbn [SpecFloat.SFopp SpecFloat.SFdiv];
    rewrite ?xorb_false_r; try reflexivity.
  destruct (SpecFloat.SFdiv_core_binary _ _ _ _ _ _) as [[mz ez] lz].
  apply binary_round_aux_opp.
Qed.

Lemma int_of_float_opp (x : SpecFloat.spec_float) (n : Z) :
  int_of_float x = Ok n -> int_of_float (SpecFloat.SFopp x) = Ok (- n).
Proof.
  destruct x as [s|s| |s m e]; cbn [int_of_float SpecFloat.SFopp]; intros H;
    try discriminate; injection H as <-; [reflexivity|].
  f_equal. destruct s; cbn [negb]; lia.
Qed.

(** The minutes of a difference and of its opposite are opposite. *)
Lemma minutes_of_opp (d n : Z) :
  minutes_of d = Ok n -> minutes_of (- d) = Ok (- n).
Proof.
  unfold minutes_of, sixty. intros H.
  assert (Ht : total_seconds (- d) = SpecFloat.SFopp (total_seconds d)
               \/ d = 0).
  { destruct d as [|p|p]; [right; reflexivity|left|left].
    - change (- Z.pos p) with (Z.neg p).
      exact (SF64div_opp (SpecFloat.S754_finite false p 0) 1000000 0).
    - change (- Z.neg p) with (Z.pos p).
      exact (SF64div_opp (SpecFloat.S754_finite true p 0) 1000000 0). }
  destruct Ht as [Ht| ->].
  - rewrite Ht, SF64div_opp. apply int_of_float_opp. exact H.
  - vm_compute in H. injection H as <-. vm_compute. reflexivity.
Qed.

Lemma calculate_duration_swap (fromisoformat : string -> res datetime)
    (start end_ : string) (minutes : Z) :
  _calculate_duration fromisoformat start end_ = Ok minutes ->
  _calculate_duration fromisoformat end_ start = Ok (- minutes).
Proof.
  unfold _calculate_duration. intros H.
  destruct (fromisoformat (replace start "Z" "+00:00")) as [ds|]; [|discriminate].
  destruct (fromisoformat (replace end_ "Z" "+00:00")) as [de|]; [|discriminate].
  cbn [bind] in *.
  destruct (dt_sub de ds) as [d|] eqn:E; [|discriminate].
  rewrite (dt_sub_swap _ _ _ E). cbn [bind] in *.
  apply minutes_of_opp. exact H.
Qed.

(** X13. [_create_calendar_event] does not compare the two times: when an
    event from [start] to [end] has a duration of [minutes], the event
    from [end] to [start] is created as well, with the duration
    [- minutes].  Both classes do so. *)
Theorem create_event_accepts_reversed_times
    (fromisoformat : string -> res datetime) (uuid8 : nat -> string)
    (chat : GeminiCalendarChat.session) (assistant : GeminiCalendarAssistant.session)
    (title start_datetime end_datetime description location : string) (minutes : Z) :
  _calculate_duration fromisoformat start_datetime end_datetime = Ok minutes ->
  (exists event,
      (GeminiCalendarChat._create_calendar_event fromisoformat uuid8 chat title
         end_datetime start_datetime description location).1
      = GeminiCalendarChat.r_created
          ("event_" +:+ uuid8 (GeminiCalendarChat.drawn chat)) event
          ("Created event: " +:+ title +:+ " from " +:+ end_datetime
           +:+ " to " +:+ start_datetime)
      /\ ce_start event = end_datetime /\ ce_end event = start_datetime
      /\ ce_duration_minutes event = - minutes)
  /\ (exists event,
        (GeminiCalendarAssistant._create_calendar_event fromisoformat uuid8 assistant
           title end_datetime start_datetime description location).1
        = GeminiCalendarAssistant.r_created
            ("event_" +:+ uuid8 (GeminiCalendarAssistant.drawn assistant)) event
            ("Created event: " +:+ title)
        /\ ce_start event = end_datetime /\ ce_end event = start_datetime
        /\ ce_duration_minutes event = - minutes).
Proof.
  intros H. apply calculate_duration_swap in H.
  unfold GeminiCalendarChat._create_calendar_event,
         GeminiCalendarAssistant._create_calendar_event.
  rewrite H. cbn [fst]. split; eexists; (split; [reflexivity|]); repeat split.
Qed.

Lemma create_event_accepts_reversed_times_witness :
  exists event,
    (GeminiCalendarChat._create_calendar_event fromisoformat_basic uuid8_sample
       (GeminiCalendarChat.new_session "session-1") "Standup"
       "2025-01-15T10:30:00Z" "2025-01-15T09:00:00Z" "" "").1
    = GeminiCalendarChat.r_created "event_00000000" event
        "Created event: Standup from 2025-01-15T10:30:00Z to 2025-01-15T09:00:00Z"
    /\ ce_start event = "2025-01-15T10:30:00Z" /\ ce_end event = "2025-01-15T09:00:00Z"
    /\ ce_duration_minutes event = - 90.
Proof.
  exact (proj1 (create_event_accepts_reversed_times fromisoformat_basic uuid8_sample
    (GeminiCalendarChat.new_session "session-1") GeminiCalendarAssistant.new_session
    "Standup" "2025-01-15T09:00:00Z" "2025-01-15T10:30:00Z" "" "" 90
    ltac:(vm_compute; reflexivity))).
Defined.

(** ** The answers of [GeminiCalendarChat] to function calls *)

Lemma issue_response (error user_input : string) :
  error <> "" ->
  GeminiCalendarChat._generate_function_result_response
    (GeminiCalendarChat.r_error error) user_input
  = "I encountered an issue: " +:+ error
    +:+ ". Please try again or rephrase your request.".
Proof.
  intros H. destruct error; [contradiction|reflexivity].
Qed.

Lemma chat_error_independent_of_session (fromisoformat : string -> res datetime)
    (uuid8 : nat -> string) (str_float : Q -> string) (now : string)
    (s s0 s' : GeminiCalendarChat.session) (fc : GeminiCalendarChat.function_call)
    (error : string) :
  GeminiCalendarChat._execute_calendar_function fromisoformat uuid8 str_float now s fc
  = Ok (GeminiCalendarChat.r_error error, s') ->
  (exists s0',
     GeminiCalendarChat._execute_calendar_function fromisoformat uuid8 str_float
       now s0 fc = Ok (GeminiCalendarChat.r_error error, s0'))
  /\ error <> "".
Proof.
  destruct fc; cbn [GeminiCalendarChat._execute_calendar_function].
  - discriminate.
  - unfold GeminiCalendarChat._create_calendar_event.
    destruct (_calculate_duration _ _ _); [discriminate|].
    intros H. injection H as <- _. split; [eexists; reflexivity|discriminate].
  - discriminate.
  - discriminate.
  - unfold GeminiCalendarChat._generate_schedule_proposal.
    destruct (GeminiCalendarChat._generate_proposal_changes _ _ _ _). discriminate.
  - unfold Chat._analyze_schedule_conflicts.
    destruct (conflict_loop _ _ _); [discriminate|].
    intros H. injection H as <- _. split; [eexists; reflexivity|discriminate].
  - unfold _assess_sleep_impact.
    match goal with |- context [match ?m with Ok _ => _ | Raise _ => _ end] =>
      destruct m end; [discriminate|].
    intros H. injection H as <- _. split; [eexists; reflexivity|discriminate].
  - intros H. injection H as <- _. split; [eexists; reflexivity|discriminate].
  - intros H. injection H as <- _. split; [eexists; reflexivity|discriminate].
  - discriminate.
Qed.

Lemma chat_raise_independent_of_session (fromisoformat : string -> res datetime)
    (uuid8 : nat -> string) (str_float : Q -> string) (now : string)
    (s s0 : GeminiCalendarChat.session) (fc : GeminiCalendarChat.function_call)
    (e : exn) :
  GeminiCalendarChat._execute_calendar_function fromisoformat uuid8 str_float now s fc
  = Raise e ->
  GeminiCalendarChat._execute_calendar_function fromisoformat uuid8 str_float now s0 fc
  = Raise e.
Proof.
  destruct fc; cbn [GeminiCalendarChat._execute_calendar_function];
    try discriminate.
  intros H. exact H.
Qed.

(** X14. Whenever a function call of [GeminiCalendarChat] ends in an error
    dictionary (an unknown function, arguments that do not fit, times that
    cannot be read, a failed analysis), the error text is not empty and the
    turn answers "I encountered an issue: ..." with that text: no failed
    call is answered as a completed action.  A call whose arguments cannot
    be read raises before the [try] of [_execute_calendar_function]; the
    turn then answers "I encountered an error: ..." with the text of the
    exception. *)
Theorem chat_function_errors_are_reported
    (fromisoformat : string -> res datetime) (uuid8 : nat -> string)
    (str_float : Q -> string) (now : string) (s : GeminiCalendarChat.session)
    (fc : GeminiCalendarChat.function_call) (text : res string)
    (user_input : string) :
  let answer :=
    (GeminiCalendarChat.chat_with_calendar_context fromisoformat uuid8 str_float now
       (Ok {| GeminiCalendarChat.function_call_part := Some fc;
              GeminiCalendarChat.text := text |}) s user_input).1 in
  (forall error s',
     GeminiCalendarChat._execute_calendar_function fromisoformat uuid8 str_float
       now s fc = Ok (GeminiCalendarChat.r_error error, s') ->
     error <> ""
     /\ answer = "I encountered an issue: " +:+ error
                 +:+ ". Please try again or rephrase your request.")
  /\ (forall e,
        GeminiCalendarChat._execute_calendar_function fromisoformat uuid8 str_float
          now s fc = Raise e ->
        answer = "I encountered an error: " +:+ str_exn e).
Proof.
  intros answer. subst answer.
  unfold GeminiCalendarChat.chat_with_calendar_context.
  remember (if String.eqb _ _ then _ else _) as s1 eqn:Es1. clear Es1.
  unfold GeminiCalendarChat._process_enhanced_response.
  cbn [GeminiCalendarChat.function_call_part].
  split.
  - intros error s' H.
    destruct (chat_error_independent_of_session fromisoformat uuid8 str_float now s s1
                s' fc error H) as [[s2 H1] Hne].
    split; [exact Hne|].
    rewrite H1. cbn [fst snd]. apply issue_response. exact Hne.
  - intros e H.
    rewrite (chat_raise_independent_of_session fromisoformat uuid8 str_float now s s1
               fc e H).
    reflexivity.
Qed.

Lemma chat_function_errors_are_reported_witness :
  (GeminiCalendarChat.chat_with_calendar_context fromisoformat_basic uuid8_sample
     str_float_integral "2025-01-15T08:00:00"
     (Ok {| GeminiCalendarChat.function_call_part :=
              Some (GeminiCalendarChat.unknown_function "book_flight");
            GeminiCalendarChat.text := Raise (ValueError "no text part") |})
     (GeminiCalendarChat.new_session "session-1") "Book me a flight").1
  = "I encountered an issue: Unknown function: book_flight"
    +:+ ". Please try again or rephrase your request."
  /\ (GeminiCalendarChat.chat_with_calendar_context fromisoformat_basic uuid8_sample
        str_float_integral "2025-01-15T08:00:00"
        (Ok {| GeminiCalendarChat.function_call_part :=
                 Some (GeminiCalendarChat.unreadable_args "book_flight"
                         (TypeError "'NoneType' object is not iterable"));
               GeminiCalendarChat.text := Raise (ValueError "no text part") |})
        (GeminiCalendarChat.new_session "session-1") "Book me a flight").1
     = "I encountered an error: 'NoneType' object is not iterable".
Proof.
  split.
  - exact (proj2 (proj1 (chat_function_errors_are_reported fromisoformat_basic
      uuid8_sample str_float_integral "2025-01-15T08:00:00"
      (GeminiCalendarChat.new_session "session-1")
      (GeminiCalendarChat.unknown_function "book_flight")
      (Raise (ValueError "no text part")) "Book me a flight")
      "Unknown function: book_flight" (GeminiCalendarChat.new_session "session-1")
      eq_refl)).
  - exact (proj2 (chat_function_errors_are_reported fromisoformat_basic
      uuid8_sample str_float_integral "2025-01-15T08:00:00"
      (GeminiCalendarChat.new_session "session-1")
      (GeminiCalendarChat.unreadable_args "book_flight"
         (TypeError "'NoneType' object is not iterable"))
      (Raise (ValueError "no text part")) "Book me a flight")
      (TypeError "'NoneType' object is not iterable") eq_refl).
Defined.

Lemma existsb_flat_map_pairs (p : string -> bool) (updates : list (string * string)) :
  existsb p (flat_map (fun kv => [kv.1; kv.2]) updates)
  = existsb (fun kv => p kv.1 || p kv.2) updates.
Proof.
  induction updates as [|[k v] l IH]; [reflexivity|].
  cbn [flat_map app existsb fst snd]. rewrite IH, orb_assoc. reflexivity.
Qed.

(** X15. How [GeminiCalendarChat] acknowledges a calendar change.  The word
    is chosen by looking for "Created" and "Updated" in the printed result,
    so a creation is always acknowledged as created, but an update is
    acknowledged as created when the identifier of the event or one of the
    updates contains "Created", and a deletion is acknowledged as deleted
    only when the identifier contains neither word. *)
Theorem acknowledgement_follows_printed_words (user_input : string) :
  (forall event_id event title rest,
     GeminiCalendarChat._generate_function_result_response
       (GeminiCalendarChat.r_created event_id event ("Created event: " +:+ title +:+ rest))
       user_input
     = GeminiCalendarChat.check_mark
       +:+ " I've created the calendar event successfully. "
       +:+ "Created event: " +:+ title +:+ rest)
  /\ (forall event_id updates,
        GeminiCalendarChat._generate_function_result_response
          (GeminiCalendarChat._update_calendar_event event_id updates) user_input
        = GeminiCalendarChat.check_mark +:+ " I've "
          +:+ (if contains "Created" event_id
                  || existsb (fun kv => contains "Created" kv.1 || contains "Created" kv.2)
                             updates
               then "created" else "updated")
          +:+ " the calendar event successfully. Updated event " +:+ event_id)
  /\ (forall event_id,
        GeminiCalendarChat._generate_function_result_response
          (GeminiCalendarChat._delete_calendar_event event_id) user_input
        = GeminiCalendarChat.check_mark +:+ " I've "
          +:+ (if contains "Created" event_id then "created"
               else if contains "Updated" event_id then "updated" else "deleted")
          +:+ " the calendar event successfully. Deleted event " +:+ event_id).
Proof.
  split; [|split].
  - intros event_id event title rest.
    unfold GeminiCalendarChat._generate_function_result_response.
    replace (existsb (contains "Created")
               (GeminiCalendarChat.printed_values
                  (GeminiCalendarChat.r_created event_id event
                     ("Created event: " +:+ title +:+ rest)))) with true; [reflexivity|].
    symmetry. apply existsb_exists. exists ("Created event: " +:+ title +:+ rest).
    split; [|reflexivity].
    cbn [GeminiCalendarChat.printed_values]. do 7 right. left. reflexivity.
  - intros event_id updates.
    unfold GeminiCalendarChat._generate_function_result_response,
           GeminiCalendarChat._update_calendar_event.
    cbn [GeminiCalendarChat.printed_values existsb].
    rewrite !existsb_flat_map_pairs.
    change (contains "Updated" ("Updated event " +:+ event_id)) with true.
    change (contains "Created" ("Updated event " +:+ event_id))
      with (contains "Created" event_id).
    rewrite orb_true_l, orb_true_r.
    destruct (contains "Created" event_id); cbn [orb]; [reflexivity|].
    destruct (existsb _ updates); reflexivity.
  - intros event_id.
    unfold GeminiCalendarChat._generate_function_result_response,
           GeminiCalendarChat._delete_calendar_event.
    cbn [GeminiCalendarChat.printed_values existsb].
    change (contains "Updated" ("Deleted event " +:+ event_id))
      with (contains "Updated" event_id).
    change (contains "Created" ("Deleted event " +:+ event_id))
      with (contains "Created" event_id).
    rewrite !orb_false_r, !orb_diag. reflexivity.
Qed.

(** ** The two proposal builders compared *)

(** X16. The builder of [GeminiCalendarAssistant] is the older one: for
    every text its changes are, in type, title and target, a subsequence of
    the changes [GeminiCalendarChat] generates for the same text.  The chat
    class always proposes between one and three changes; the assistant
    proposes at most two, and none at all unless the text contains
    "hectic", "busy" or "sleep". *)
Theorem assistant_changes_within_chat_changes
    (uuid8 uuid8' : nat -> string) (k k' : nat) (problem : string)
    (constraints : list string) :
  let chat := (GeminiCalendarChat._generate_proposal_changes uuid8 k problem
                 constraints).1 in
  let assistant := (GeminiCalendarAssistant._generate_proposal_changes uuid8' k' problem
                      constraints).1 in
  sublist (shape <$> assistant) (shape <$> chat)
  /\ (1 <= length chat <= 3)%nat
  /\ (length assistant <= 2)%nat
  /\ (assistant = [] <-> fires ["hectic"; "busy"; "sleep"] problem = false).
Proof.
  unfold GeminiCalendarChat._generate_proposal_changes,
         GeminiCalendarAssistant._generate_proposal_changes, fires.
  cbn [existsb]. rewrite !orb_false_r.
  destruct (contains "hectic" (lower problem)), (contains "busy" (lower problem)),
           (contains "sleep" (lower problem)), (contains "tired" (lower problem)),
           (contains "meeting" (lower problem)), (contains "conflict" (lower problem));
    cbn; (split; [repeat constructor|]); (split; [lia|]); (split; [lia|]);
    split; intros H; (discriminate || reflexivity).
Qed.

(** ** Letter case *)

Lemma lower_char_idempotent (c : ascii) : lower_char (lower_char c) = lower_char c.
Proof.
  destruct c as [[] [] [] [] [] [] [] []]; reflexivity.
Qed.

Lemma lower_idempotent (s : string) : lower (lower s) = lower s.
Proof.
  induction s as [|c s IH]; [reflexivity|].
  cbn [lower]. rewrite lower_char_idempotent, IH. reflexivity.
Qed.

(** X17. Capital letters make no difference to what is derived from a
    text: the fallback embedding of a text is that of its lowercased form,
    and both proposal builders generate for a problem description what they
    generate for its lowercased form.  Two texts that differ only in letter
    case therefore get the same embedding and the same changes. *)
Theorem letter_case_is_ignored (uuid8 : nat -> string) (k : nat) (text : string)
    (constraints : list string) :
  _generate_fallback_embedding (lower text) = _generate_fallback_embedding text
  /\ GeminiCalendarChat._generate_proposal_changes uuid8 k (lower text) constraints
     = GeminiCalendarChat._generate_proposal_changes uuid8 k text constraints
  /\ GeminiCalendarAssistant._generate_proposal_changes uuid8 k (lower text) constraints
     = GeminiCalendarAssistant._generate_proposal_changes uuid8 k text constraints
  /\ (forall text', lower text' = lower text ->
        _generate_fallback_embedding text' = _generate_fallback_embedding text).
Proof.
  unfold _generate_fallback_embedding, GeminiCalendarChat._generate_proposal_changes,
         GeminiCalendarAssistant._generate_proposal_changes.
  rewrite !lower_idempotent. repeat split. intros text' ->. reflexivity.
Qed.

(** ** Embeddings read from the model's reply *)

Lemma fallback_floats_total {F} (of_exact : Q -> F) (text : string) :
  EmbeddingService.fallback_floats of_exact text
  = Ok (of_exact <$> (fallback_value text <$> seq 0 768)).
Proof.
  unfold EmbeddingService.fallback_floats. rewrite fallback_embedding_loop. reflexivity.
Qed.

Lemma fit_length {F} (zero : F) (embedding : list F) :
  length (EmbeddingService.fit zero embedding) = 768%nat.
Proof.
  unfold EmbeddingService.fit.
  destruct (Nat.eqb_spec (length embedding) 768) as [He|Hne]; [exact He|].
  destruct (Nat.ltb_spec 768 (length embedding)) as [Hlt|Hge].
  - rewrite length_take. lia.
  - rewrite length_app, repeat_length. lia.
Qed.

(** The outcome of [get_embedding]: the fitted values read from the reply,
    or the fallback embedding. *)
Lemma get_embedding_cases {F} (py_float : string -> res F) (of_exact : Q -> F) (zero : F)
    (reply : res string) (text : string) :
  EmbeddingService.get_embedding py_float of_exact zero reply text
  = Ok (of_exact <$> (fallback_value text <$> seq 0 768))
  \/ exists response_text embedding,
       reply = Ok response_text /\ response_text <> ""
       /\ EmbeddingService.parse_values py_float
            (EmbeddingService.re_sub_non_numeric (EmbeddingService.strip response_text))
          = Ok embedding
       /\ EmbeddingService.get_embedding py_float of_exact zero reply text
          = Ok (EmbeddingService.fit zero embedding).
Proof.
  unfold EmbeddingService.get_embedding.
  destruct reply as [response_text|e]; cbn [bind].
  2: { left. apply fallback_floats_total. }
  destruct (String.eqb_spec response_text "") as [->|Hne].
  { left. rewrite fallback_floats_total. reflexivity. }
  destruct (EmbeddingService.parse_values py_float _) as [embedding|e] eqn:E.
  - right. exists response_text, embedding. repeat split; [exact Hne|exact E].
  - left. destruct e; rewrite ?fallback_floats_total; reflexivity.
Qed.

(** X18. For texts and replies of code points below 256, [get_embedding]
    returns 768 values, whatever the model replies and also when it fails;
    and [get_embeddings_batch] returns one such embedding for each text. *)
Theorem get_embedding_has_768_values {F} (py_float : string -> res F)
    (of_exact : Q -> F) (zero : F) :
  (forall reply text,
     exists embedding,
       EmbeddingService.get_embedding py_float of_exact zero reply text = Ok embedding
       /\ length embedding = 768%nat)
  /\ (forall reply texts,
        exists embeddings,
          EmbeddingService.get_embeddings_batch py_float of_exact zero reply texts
          = Ok embeddings
          /\ length embeddings = length texts
          /\ Forall (fun embedding => length embedding = 768%nat) embeddings).
Proof.
  assert (H1 : forall reply text,
     exists embedding,
       EmbeddingService.get_embedding py_float of_exact zero reply text = Ok embedding
       /\ length embedding = 768%nat).
  { intros reply text.
    destruct (get_embedding_cases py_float of_exact zero reply text)
      as [H|(t & embedding & _ & _ & _ & H)]; rewrite H; eexists; (split; [reflexivity|]).
    - rewrite !length_fmap, length_seq. reflexivity.
    - apply fit_length. }
  split; [exact H1|].
  intros reply texts. unfold EmbeddingService.get_embeddings_batch.
  enough (G : forall l acc,
    Forall (fun embedding : list F => length embedding = 768%nat) acc ->
    exists embeddings,
      for_each (fun embeddings '(i, text) =>
                  embedding <- EmbeddingService.get_embedding py_float of_exact zero
                                 (reply i) text;;
                  Ok (embeddings ++ [embedding])) l acc = Ok embeddings
      /\ length embeddings = (length acc + length l)%nat
      /\ Forall (fun embedding => length embedding = 768%nat) embeddings).
  { destruct (G (enumerate texts 0) [] (Forall_nil_2 _)) as (embeddings & H & Hl & Hf).
    exists embeddings. split; [exact H|]. split; [|exact Hf].
    rewrite Hl. cbn. clear. generalize 0%nat.
    induction texts as [|t l IH]; intros n; [reflexivity|]. cbn. rewrite IH. reflexivity. }
  induction l as [|[i text] l IH]; intros acc Hacc.
  - exists acc. split; [reflexivity|]. split; [cbn; lia|exact Hacc].
  - cbn [for_each]. destruct (H1 (reply i) text) as (embedding & -> & Hlen). cbn [bind].
    destruct (IH (acc ++ [embedding])) as (embeddings & H & Hl & Hf).
    { apply Forall_app. split; [exact Hacc|]. constructor; [exact Hlen|constructor]. }
    exists embeddings. split; [exact H|]. split; [|exact Hf].
    rewrite Hl, length_app. cbn. lia.
Qed.

Lemma for_each_raises_at {A S} (body : S -> A -> res S) (l : list A) (x : A) :
  x ∈ l -> (forall s, exists e, body s x = Raise e) ->
  forall s, exists e, for_each body l s = Raise e.
Proof.
  intros Hin Hx. induction l as [|y l IH]; intros s.
  - apply elem_of_nil in Hin. destruct Hin.
  - cbn [for_each]. destruct (body s y) as [s1|e] eqn:E; cbn [bind]; [|eauto].
    apply elem_of_cons in Hin as [->|Hin].
    + destruct (Hx s) as [e He]. congruence.
    + apply IH. exact Hin.
Qed.

(** X19. When no embedding can be read from the reply, [get_embedding]
    returns the fallback embedding of the text: when the call of the model
    raises, when the reply is empty, and when one of the pieces between the
    commas of the cleaned reply is not a number for [float]. *)
Theorem get_embedding_falls_back {F} (py_float : string -> res F)
    (of_exact : Q -> F) (zero : F) (reply : res string) (text : string) :
  match reply with
  | Raise _ => True
  | Ok response_text =>
      response_text = ""
      \/ exists piece e,
           piece ∈ EmbeddingService.split_on
                     (EmbeddingService.re_sub_non_numeric
                        (EmbeddingService.strip response_text)) ","
           /\ EmbeddingService.strip piece <> ""
           /\ py_float (EmbeddingService.strip piece) = Raise e
  end ->
  EmbeddingService.get_embedding py_float of_exact zero reply text
  = Ok (of_exact <$> (fallback_value text <$> seq 0 768)).
Proof.
  intros H.
  destruct (get_embedding_cases py_float of_exact zero reply text)
    as [Hf|(t & embedding & -> & Hne & Hp & _)]; [exact Hf|].
  exfalso. destruct H as [->|(piece & e & Hin & Hs & He)]; [contradiction|].
  unfold EmbeddingService.parse_values in Hp.
  match type of Hp with for_each ?body ?l ?s0 = _ =>
    destruct (for_each_raises_at body l piece Hin) with (s := s0) as [e' He']
  end.
  2: { rewrite Hp in He'. discriminate. }
  intros s. destruct (String.eqb_spec (EmbeddingService.strip piece) "") as [Hc|_];
    [contradiction|].
  rewrite He. cbn [bind]. eauto.
Qed.

Example float_decimal_values :
  float_decimal "0.5" = Ok (1 * (0 + 5 / 10))%Q
  /\ float_decimal "-12" = Ok (-12)%Q
  /\ float_decimal "1-5" = Raise (ValueError "could not convert string to float: '1-5'")
  /\ float_decimal "." = Raise (ValueError "could not convert string to float: '.'").
Proof. repeat split; vm_compute; reflexivity. Qed.

Lemma get_embedding_falls_back_witness :
  EmbeddingService.get_embedding float_decimal (fun q => q) 0%Q
    (Ok "Here it is: 0.5, 1e-5, 0.25") "focus blocks"
  = Ok ((fun q => q) <$> (fallback_value "focus blocks" <$> seq 0 768)).
Proof.
  apply (get_embedding_falls_back float_decimal (fun q => q) 0%Q
           (Ok "Here it is: 0.5, 1e-5, 0.25") "focus blocks").
  right. exists "1-5", (ValueError "could not convert string to float: '1-5'").
  split; [|split].
  - vm_compute. apply elem_of_cons; right. apply list_elem_of_here.
  - vm_compute. discriminate.
  - vm_compute. reflexivity.
Defined.

Example get_embedding_pads :
  match EmbeddingService.get_embedding float_decimal (fun q => q) 0%Q
          (Ok "[0.5, -0.25]") "focus blocks" with
  | Ok embedding => take 3 embedding
  | Raise _ => []
  end
  = [(1 * (0 + 5 / 10))%Q; (-1 * (0 + 25 / 100))%Q; 0%Q].
Proof. vm_compute. reflexivity. Qed.

Lemma lstrip_list_Forall (P : ascii -> Prop) (cs : list ascii) :
  Forall P cs -> Forall P (EmbeddingService.lstrip_list cs).
Proof.
  induction 1 as [|c cs Hc Hcs IH]; [constructor|].
  cbn. destruct (isspace c); [exact IH|constructor; assumption].
Qed.

Lemma strip_Forall (P : ascii -> Prop) (s : string) :
  Forall P (list_ascii_of_string s) ->
  Forall P (list_ascii_of_string (EmbeddingService.strip s)).
Proof.
  intros H. unfold EmbeddingService.strip.
  rewrite list_ascii_of_string_of_list_ascii.
  apply Forall_rev, lstrip_list_Forall, Forall_rev, lstrip_list_Forall, H.
Qed.

Lemma re_sub_only_commas (s : string) :
  Forall (fun c => EmbeddingService.numeric_char c = true -> c = ","%char)
         (list_ascii_of_string s) ->
  Forall (fun c => c = ","%char)
         (list_ascii_of_string (EmbeddingService.re_sub_non_numeric s)).
Proof.
  induction s as [|c s IH]; intros H; [constructor|].
  cbn in H. apply Forall_cons in H as [Hc Hs].
  cbn. destruct (EmbeddingService.numeric_char c) eqn:E; [|exact (IH Hs)].
  cbn. constructor; [exact (Hc eq_refl)|exact (IH Hs)].
Qed.

Lemma parse_values_only_commas {F} (py_float : string -> res F) (s : string) :
  Forall (fun c => c = ","%char) (list_ascii_of_string s) ->
  EmbeddingService.parse_values py_float s = Ok [].
Proof.
  unfold EmbeddingService.parse_values, EmbeddingService.split_on.
  generalize (@nil F). induction s as [|c s IH]; intros acc H; [reflexivity|].
  cbn in H. apply Forall_cons in H as [-> Hs].
  cbn [EmbeddingService.split_on_aux Ascii.eqb Bool.eqb]. cbn [for_each].
  change (EmbeddingService.strip (string_of_list_ascii (rev []))) with "".
  cbn [String.eqb bind]. exact (IH acc Hs).
Qed.

(** X20. A reply that is not empty but holds no digit, no period and no
    minus sign ("Sorry, I cannot help") is not treated as a failure: no
    number is read from it, the empty list is padded, and [get_embedding]
    returns 768 zeros instead of the fallback embedding of the text. *)
Theorem reply_without_numbers_gives_zeros {F} (py_float : string -> res F)
    (of_exact : Q -> F) (zero : F) (response_text text : string) :
  response_text <> "" ->
  Forall (fun c => EmbeddingService.numeric_char c = true -> c = ","%char)
         (list_ascii_of_string response_text) ->
  EmbeddingService.get_embedding py_float of_exact zero (Ok response_text) text
  = Ok (repeat zero 768).
Proof.
  intros Hne H. unfold EmbeddingService.get_embedding. cbn [bind].
  destruct (String.eqb_spec response_text "") as [He|_]; [contradiction|].
  rewrite parse_values_only_commas.
  - reflexivity.
  - apply re_sub_only_commas, strip_Forall, H.
Qed.

Lemma reply_without_numbers_gives_zeros_witness :
  EmbeddingService.get_embedding float_decimal (fun q => q) 0%Q
    (Ok "Sorry, I cannot help") "focus blocks"
  = Ok (repeat 0%Q 768).
Proof.
  apply (reply_without_numbers_gives_zeros float_decimal (fun q => q) 0%Q
           "Sorry, I cannot help" "focus blocks").
  - discriminate.
  - repeat constructor; vm_compute; discriminate.
Defined.

(** ** The order of the floats *)

Lemma rank_lt_irrefl (a : Z * Z * Z) : ~ rank_lt a a.
Proof. destruct a as [[a1 a2] a3]. unfold rank_lt. cbn. lia. Qed.

Lemma rank_lt_asym (a b : Z * Z * Z) : rank_lt a b -> ~ rank_lt b a.
Proof. destruct a as [[a1 a2] a3], b as [[b1 b2] b3]. unfold rank_lt. cbn. lia. Qed.

Lemma rank_lt_trans (a b c : Z * Z * Z) : rank_lt a b -> rank_lt b c -> rank_lt a c.
Proof.
  destruct a as [[a1 a2] a3], b as [[b1 b2] b3], c as [[c1 c2] c3].
  unfold rank_lt. cbn. lia.
Qed.

Lemma rank_trichotomy (a b : Z * Z * Z) : rank_lt a b \/ a = b \/ rank_lt b a.
Proof.
  destruct a as [[a1 a2] a3], b as [[b1 b2] b3]. unfold rank_lt. cbn.
  destruct (Z.lt_total a1 b1) as [|[->|]]; [lia| |lia].
  destruct (Z.lt_total a2 b2) as [|[->|]]; [lia| |lia].
  destruct (Z.lt_total a3 b3) as [|[->|]]; [lia| |lia].
  right. left. reflexivity.
Qed.

(** The comparison of two numbers is the comparison of their ranks. *)
Lemma SFcompare_rank (x y : SpecFloat.spec_float) :
  x <> SpecFloat.S754_nan -> y <> SpecFloat.S754_nan ->
  match SpecFloat.SFcompare x y with
  | Some Lt => rank_lt (sf_rank x) (sf_rank y)
  | Some Eq => sf_rank x = sf_rank y
  | Some Gt => rank_lt (sf_rank y) (sf_rank x)
  | None => False
  end.
Proof.
  intros Hx Hy.
  destruct x as [sx|sx| |sx mx ex], y as [sy|sy| |sy my ey];
    try contradiction; try destruct sx; try destruct sy; cbn;
    try reflexivity; try (unfold rank_lt; cbn; lia).
  all: destruct (Z.compare_spec ex ey) as [->|Hlt|Hgt]; cbn;
    try (unfold rank_lt; cbn; lia).
  all: change (Pos.compare_cont Eq mx my) with (Pos.compare mx my);
    destruct (Pos.compare_spec mx my) as [->|Hm|Hm]; cbn;
    try reflexivity; unfold rank_lt; cbn; lia.
Qed.

Lemma is_number_not_nan (x : PrimFloat.float) :
  is_number x -> FloatOps.Prim2SF x <> SpecFloat.S754_nan.
Proof.
  unfold is_number. rewrite FloatAxioms.eqb_spec. intros H Hn. rewrite Hn in H.
  discriminate.
Qed.

Lemma ltb_rank (x y : PrimFloat.float) :
  is_number x -> is_number y ->
  (PrimFloat.ltb x y = true <-> rank_lt (rank x) (rank y)).
Proof.
  intros Hx Hy. rewrite FloatAxioms.ltb_spec. unfold SpecFloat.SFltb, rank.
  pose proof (SFcompare_rank _ _ (is_number_not_nan x Hx) (is_number_not_nan y Hy)) as H.
  destruct (SpecFloat.SFcompare _ _) as [[]|]; split; intros G;
    try discriminate; try reflexivity; try exact H; exfalso.
  - rewrite H in G. exact (rank_lt_irrefl _ G).
  - exact (rank_lt_asym _ _ G H).
  - exact H.
Qed.

Lemma eqb_rank (x y : PrimFloat.float) :
  is_number x -> is_number y ->
  (PrimFloat.eqb x y = true <-> rank x = rank y).
Proof.
  intros Hx Hy. rewrite FloatAxioms.eqb_spec. unfold SpecFloat.SFeqb, rank.
  pose proof (SFcompare_rank _ _ (is_number_not_nan x Hx) (is_number_not_nan y Hy)) as H.
  destruct (SpecFloat.SFcompare _ _) as [[]|]; split; intros G;
    try discriminate; try reflexivity; try exact H; exfalso.
  - rewrite G in H. exact (rank_lt_irrefl _ H).
  - rewrite G in H. exact (rank_lt_irrefl _ H).
  - exact H.
Qed.

Lemma leb_rank (x y : PrimFloat.float) :
  is_number x -> is_number y ->
  (PrimFloat.leb x y = true <-> ~ rank_lt (rank y) (rank x)).
Proof.
  intros Hx Hy. rewrite FloatAxioms.leb_spec. unfold SpecFloat.SFleb, rank.
  pose proof (SFcompare_rank _ _ (is_number_not_nan x Hx) (is_number_not_nan y Hy)) as H.
  destruct (SpecFloat.SFcompare _ _) as [[]|]; split; intros G;
    try discriminate; try reflexivity.
  - rewrite H. apply rank_lt_irrefl.
  - apply rank_lt_asym. exact H.
  - contradiction.
  - destruct H.
Qed.

(** ** Retrieval of the most similar embeddings *)

Lemma insert_descending_perm (x : EmbeddingService.scored) (l : list EmbeddingService.scored) :
  EmbeddingService.insert_descending x l ≡ₚ x :: l.
Proof.
  induction l as [|y l IH]; [reflexivity|].
  cbn. destruct (PrimFloat.ltb _ _); [reflexivity|].
  rewrite IH. apply Permutation_swap.
Qed.

Lemma sort_fold_perm (l acc : list EmbeddingService.scored) :
  fold_left (fun sorted x => EmbeddingService.insert_descending x sorted) l acc ≡ₚ acc ++ l.
Proof.
  revert acc. induction l as [|x l IH]; intros acc.
  - cbn. rewrite app_nil_r. reflexivity.
  - cbn [fold_left]. rewrite IH, insert_descending_perm.
    rewrite (Permutation_middle acc l x). reflexivity.
Qed.

Lemma sort_descending_perm (l : list EmbeddingService.scored) :
  EmbeddingService.sort_descending l ≡ₚ l.
Proof. apply (sort_fold_perm l []). Qed.

Lemma score_all_lookup (ddot : list float -> list float -> float)
    (query : list float) (candidates : list (list float)) (i : nat) :
  EmbeddingService.score_all ddot query candidates !! i
  = (fun c => {| EmbeddingService.r_index := i;
                 EmbeddingService.r_similarity := similarity ddot query c;
                 EmbeddingService.r_embedding := c |}) <$> candidates !! i.
Proof.
  unfold EmbeddingService.score_all. rewrite list_lookup_fmap.
  destruct (candidates !! i) as [c|] eqn:E.
  - rewrite (enumerate_lookup candidates 0 i c E). reflexivity.
  - replace (enumerate candidates 0 !! i) with (@None (nat * list float)); [reflexivity|].
    symmetry. apply lookup_ge_None_2. apply lookup_ge_None_1 in E.
    enough (H : forall (l : list (list float)) k, length (enumerate l k) = length l)
      by (rewrite H; exact E).
    induction l as [|y l IH]; intros k; [reflexivity|]. cbn. rewrite IH. reflexivity.
Qed.

Lemma score_all_length (ddot : list float -> list float -> float)
    (query : list float) (candidates : list (list float)) :
  length (EmbeddingService.score_all ddot query candidates) = length candidates.
Proof.
  unfold EmbeddingService.score_all. rewrite length_fmap.
  generalize 0%nat. induction candidates as [|y l IH]; intros k; [reflexivity|].
  cbn. rewrite IH. reflexivity.
Qed.

Lemma score_all_indices (ddot : list float -> list float -> float)
    (query : list float) (candidates : list (list float)) :
  EmbeddingService.r_index <$> EmbeddingService.score_all ddot query candidates
  = seq 0 (length candidates).
Proof.
  apply list_eq. intros i. rewrite list_lookup_fmap, score_all_lookup.
  destruct (candidates !! i) as [c|] eqn:E; cbn.
  - symmetry. apply lookup_seq_lt. apply lookup_lt_Some in E. exact E.
  - symmetry. apply lookup_seq_ge. apply lookup_ge_None_1 in E. exact E.
Qed.

Lemma slice_to_take {A} (l : list A) (k : Z) :
  exists n, EmbeddingService.slice_to l k = take n l
            /\ n = (if (0 <=? k)%Z then Z.to_nat k else length l - Z.to_nat (- k))%nat.
Proof. unfold EmbeddingService.slice_to. destruct (0 <=? k); eauto. Qed.

(** X21. What [find_most_similar] returns, whatever the similarities are.
    For [k >= 0] it returns [min(k, n)] entries for [n] candidates, and for
    a negative [k] all but the last [-k] of the ranking.  Every entry
    carries the index of a candidate, that candidate's embedding and its
    similarity to the query, and no candidate is returned twice.  With
    [k >= n] the result is a rearrangement of all the candidates. *)
Theorem find_most_similar_entries
    (ddot : list float -> list float -> float)
    (query : list float) (candidates : list (list float)) (k : Z) :
  let result := EmbeddingService.find_most_similar ddot query candidates k in
  length result
  = (if (0 <=? k)%Z then Nat.min (Z.to_nat k) (length candidates)
     else length candidates - Z.to_nat (- k))%nat
  /\ Forall (fun r =>
               candidates !! EmbeddingService.r_index r
               = Some (EmbeddingService.r_embedding r)
               /\ EmbeddingService.r_similarity r
                  = similarity ddot query (EmbeddingService.r_embedding r)) result
  /\ NoDup (EmbeddingService.r_index <$> result)
  /\ (Z.of_nat (length candidates) <= k ->
      result ≡ₚ EmbeddingService.score_all ddot query candidates).
Proof.
  intros result. subst result. unfold EmbeddingService.find_most_similar.
  set (all := EmbeddingService.score_all ddot query candidates).
  pose proof (sort_descending_perm all) as Hperm.
  assert (Hlen : length (EmbeddingService.sort_descending all) = length candidates).
  { rewrite Hperm. apply score_all_length. }
  destruct (slice_to_take (EmbeddingService.sort_descending all) k) as (n & -> & Hn).
  assert (Hsub : take n (EmbeddingService.sort_descending all)
                 `sublist_of` EmbeddingService.sort_descending all)
    by apply sublist_take.
  split; [|split; [|split]].
  - rewrite length_take, Hlen, Hn. rewrite Hlen. destruct (0 <=? k); lia.
  - apply Forall_forall. intros r Hr.
    assert (Hin : r ∈ all).
    { rewrite <- Hperm. eapply elem_of_sublist; [exact Hr|exact Hsub]. }
    apply list_elem_of_lookup_1 in Hin as [i Hi]. subst all.
    rewrite score_all_lookup in Hi.
    destruct (candidates !! i) as [c|] eqn:E; [|discriminate].
    cbn in Hi. injection Hi as <-. cbn. split; [exact E|reflexivity].
  - rewrite fmap_take. eapply sublist_NoDup; [|apply sublist_take].
    rewrite Hperm. subst all. rewrite score_all_indices. apply NoDup_seq.
  - intros Hk. rewrite take_ge; [exact Hperm|].
    rewrite Hlen, Hn, Hlen.
    destruct (Z.leb_spec 0 k); lia.
Qed.

Lemma insert_descending_sorted (x : EmbeddingService.scored)
    (l : list EmbeddingService.scored) :
  is_number (EmbeddingService.r_similarity x) ->
  Forall (fun y => is_number (EmbeddingService.r_similarity y)) l ->
  Forall (fun y => (EmbeddingService.r_index y < EmbeddingService.r_index x)%nat) l ->
  StronglySorted ranked_before l ->
  StronglySorted ranked_before (EmbeddingService.insert_descending x l).
Proof.
  intros Hx Hl Hidx Hs. induction l as [|y l IH]; [repeat constructor|].
  apply Forall_cons in Hl as [Hy Hl]. apply Forall_cons in Hidx as [Hiy Hidx].
  apply StronglySorted_cons in Hs as [Hyl Hs].
  cbn. destruct (PrimFloat.ltb (EmbeddingService.r_similarity y)
                               (EmbeddingService.r_similarity x)) eqn:E.
  - apply StronglySorted_cons. split; [|apply StronglySorted_cons; split; assumption].
    constructor; [left; exact E|].
    rewrite Forall_forall in Hyl, Hl |- *. intros z Hz.
    apply (ltb_rank _ _ Hy Hx) in E.
    destruct (Hyl z Hz) as [Hlt|[Heq _]].
    + left. apply (ltb_rank _ _ (Hl z Hz) Hy) in Hlt.
      apply (ltb_rank _ _ (Hl z Hz) Hx). eapply rank_lt_trans; eassumption.
    + left. apply (eqb_rank _ _ Hy (Hl z Hz)) in Heq.
      apply (ltb_rank _ _ (Hl z Hz) Hx). rewrite <- Heq. exact E.
  - apply StronglySorted_cons. split; [|apply IH; assumption].
    rewrite insert_descending_perm. constructor; [|exact Hyl].
    destruct (rank_trichotomy (rank (EmbeddingService.r_similarity x))
                              (rank (EmbeddingService.r_similarity y))) as [H|[H|H]].
    + left. apply (ltb_rank _ _ Hx Hy). exact H.
    + right. split; [|exact Hiy]. apply (eqb_rank _ _ Hy Hx). symmetry. exact H.
    + apply (ltb_rank _ _ Hy Hx) in H. congruence.
Qed.

Lemma sort_fold_sorted (l acc : list EmbeddingService.scored) :
  Forall (fun y => is_number (EmbeddingService.r_similarity y)) (acc ++ l) ->
  StronglySorted Nat.lt (EmbeddingService.r_index <$> l) ->
  Forall (fun a => Forall (fun x => (EmbeddingService.r_index a
                                     < EmbeddingService.r_index x)%nat) l) acc ->
  StronglySorted ranked_before acc ->
  StronglySorted ranked_before
    (fold_left (fun sorted x => EmbeddingService.insert_descending x sorted) l acc).
Proof.
  revert acc. induction l as [|x l IH]; intros acc Hnum Hidx Hacc Hs; [exact Hs|].
  cbn [fold_left]. rewrite fmap_cons in Hidx.
  apply StronglySorted_cons in Hidx as [Hxl Hidx].
  apply Forall_app in Hnum as [Hna Hnl]. apply Forall_cons in Hnl as [Hnx Hnl].
  apply IH.
  - rewrite insert_descending_perm. apply Forall_app. split; [|exact Hnl].
    constructor; assumption.
  - exact Hidx.
  - rewrite insert_descending_perm. constructor.
    + apply Forall_forall. intros z Hz. rewrite Forall_forall in Hxl.
      apply (Hxl (EmbeddingService.r_index z)). apply list_elem_of_fmap.
      exists z. split; [reflexivity|exact Hz].
    + eapply Forall_impl; [exact Hacc|]. intros a Ha. cbv beta in Ha.
      apply Forall_cons in Ha as [_ Ha]. exact Ha.
  - apply insert_descending_sorted; try assumption.
    eapply Forall_impl; [exact Hacc|]. intros a Ha. cbv beta in Ha.
    apply Forall_cons in Ha as [Ha _]. exact Ha.
Qed.

(** The whole ranking is in order when every similarity is a number. *)
Lemma ranking_sorted (ddot : list float -> list float -> float)
    (query : list float) (candidates : list (list float)) :
  Forall (fun c => is_number (similarity ddot query c)) candidates ->
  StronglySorted ranked_before
    (EmbeddingService.sort_descending
       (EmbeddingService.score_all ddot query candidates)).
Proof.
  intros Hnum. apply sort_fold_sorted.
  - cbn [app]. apply Forall_forall. intros r Hr.
    apply list_elem_of_lookup_1 in Hr as [i Hi]. rewrite score_all_lookup in Hi.
    destruct (candidates !! i) as [c|] eqn:E; [|discriminate].
    cbn in Hi. injection Hi as <-. cbn.
    rewrite Forall_forall in Hnum. apply Hnum. eapply list_elem_of_lookup_2. exact E.
  - rewrite score_all_indices. generalize 0%nat.
    induction (length candidates) as [|n IH]; intros k; [constructor|].
    cbn. apply StronglySorted_cons. split; [|apply IH].
    apply Forall_forall. intros j Hj. apply elem_of_seq in Hj. lia.
  - constructor.
  - constructor.
Qed.

(** X22. When every similarity is a number (none is NaN),
    [find_most_similar] returns the best candidates in order: each entry is
    ranked before the entries after it, that is, its similarity is greater,
    or equal with a smaller index; so the similarities do not increase
    along the result, equal ones keep the order of the candidates, and
    every candidate left out is ranked after every entry returned. *)
Theorem find_most_similar_ranked
    (ddot : list float -> list float -> float)
    (query : list float) (candidates : list (list float)) (k : Z) :
  Forall (fun c => is_number (similarity ddot query c)) candidates ->
  let result := EmbeddingService.find_most_similar ddot query candidates k in
  StronglySorted ranked_before result
  /\ (forall i j a b, (i < j)%nat -> result !! i = Some a -> result !! j = Some b ->
        PrimFloat.leb (EmbeddingService.r_similarity b) (EmbeddingService.r_similarity a)
        = true)
  /\ (forall r x, r ∈ result ->
        x ∈ EmbeddingService.score_all ddot query candidates -> x ∉ result ->
        ranked_before r x).
Proof.
  intros Hnum result. subst result. unfold EmbeddingService.find_most_similar.
  pose proof (ranking_sorted ddot query candidates Hnum) as Hs.
  set (all := EmbeddingService.score_all ddot query candidates) in *.
  pose proof (sort_descending_perm all) as Hperm.
  assert (Hall : forall r, r ∈ all -> is_number (EmbeddingService.r_similarity r)).
  { intros r Hr. apply list_elem_of_lookup_1 in Hr as [i Hi]. subst all.
    rewrite score_all_lookup in Hi.
    destruct (candidates !! i) as [c|] eqn:E; [|discriminate].
    cbn in Hi. injection Hi as <-. cbn.
    rewrite Forall_forall in Hnum. apply Hnum. eapply list_elem_of_lookup_2. exact E. }
  destruct (slice_to_take (EmbeddingService.sort_descending all) k) as (n & -> & _).
  rewrite <- (take_drop n (EmbeddingService.sort_descending all)) in Hs.
  assert (Hst : StronglySorted ranked_before (take n (EmbeddingService.sort_descending all)))
    by (eapply StronglySorted_app_1_l; exact Hs).
  assert (Htake : forall r, r ∈ take n (EmbeddingService.sort_descending all) -> r ∈ all).
  { intros r Hr. rewrite <- Hperm.
    eapply elem_of_sublist; [exact Hr|apply sublist_take]. }
  split; [exact Hst|]. split.
  - intros i j a b Hij Ha Hb.
    assert (Hab : ranked_before a b).
    { rewrite <- (take_drop (S i) (take n (EmbeddingService.sort_descending all))) in Hst.
      eapply StronglySorted_app_1_elem_of; [exact Hst| |].
      - apply (list_elem_of_lookup_2 _ i). rewrite lookup_take_lt by lia. exact Ha.
      - eapply (list_elem_of_lookup_2 _ (j - S i)). rewrite lookup_drop.
        replace (S i + (j - S i))%nat with j by lia. exact Hb. }
    pose proof (Hall a (Htake a (list_elem_of_lookup_2 _ _ _ Ha))) as Hna.
    pose proof (Hall b (Htake b (list_elem_of_lookup_2 _ _ _ Hb))) as Hnb.
    apply (leb_rank _ _ Hnb Hna).
    destruct Hab as [Hlt|[Heq _]].
    + apply (ltb_rank _ _ Hnb Hna) in Hlt. apply rank_lt_asym. exact Hlt.
    + apply (eqb_rank _ _ Hna Hnb) in Heq. rewrite Heq. apply rank_lt_irrefl.
  - intros r x Hr Hx Hnot.
    eapply StronglySorted_app_1_elem_of; [exact Hs|exact Hr|].
    rewrite <- Hperm in Hx.
    rewrite <- (take_drop n (EmbeddingService.sort_descending all)) in Hx.
    apply elem_of_app in Hx as [Hx|Hx]; [contradiction|exact Hx].
Qed.

Example find_most_similar_sample :
  (fun r => (EmbeddingService.r_index r, EmbeddingService.r_embedding r)) <$>
    EmbeddingService.find_most_similar ddot_left [1; 0]%float
      [[0; 1]; [1; 0]; [1; 1]; [2; 0]]%float 3
  = [(1%nat, [1; 0]%float); (3%nat, [2; 0]%float); (2%nat, [1; 1]%float)].
Proof. vm_compute. reflexivity. Qed.

Lemma find_most_similar_ranked_witness :
  StronglySorted ranked_before
    (EmbeddingService.find_most_similar ddot_left [1; 0]%float
       [[0; 1]; [1; 0]; [1; 1]; [2; 0]]%float 3).
Proof.
  apply (find_most_similar_ranked ddot_left [1; 0]%float
           [[0; 1]; [1; 0]; [1; 1]; [2; 0]]%float 3).
  repeat constructor; vm_compute; reflexivity.
Defined.

Lemma zero_norm_similarity (ddot : list float -> list float -> float)
    (query candidate : list float) :
  PrimFloat.eqb (np_linalg_norm ddot query) 0 = true ->
  similarity ddot query candidate = 0%float.
Proof.
  intros H. unfold similarity, cosine.
  destruct (np_dot ddot query candidate) as [d|e]; cbn [bind]; [|reflexivity].
  rewrite H. reflexivity.
Qed.

Lemma insert_descending_tie (x : EmbeddingService.scored)
    (l : list EmbeddingService.scored) :
  EmbeddingService.r_similarity x = 0%float ->
  Forall (fun y => EmbeddingService.r_similarity y = 0%float) l ->
  EmbeddingService.insert_descending x l = l ++ [x].
Proof.
  intros Hx Hl. induction Hl as [|y l Hy Hl IH]; [reflexivity|].
  cbn. rewrite Hy, Hx, IH. reflexivity.
Qed.

Lemma sort_fold_tie (l acc : list EmbeddingService.scored) :
  Forall (fun y => EmbeddingService.r_similarity y = 0%float) (acc ++ l) ->
  fold_left (fun sorted x => EmbeddingService.insert_descending x sorted) l acc = acc ++ l.
Proof.
  revert acc. induction l as [|x l IH]; intros acc H; [rewrite app_nil_r; reflexivity|].
  cbn [fold_left]. apply Forall_app in H as [Ha Hl]. apply Forall_cons in Hl as [Hx Hl].
  rewrite (insert_descending_tie x acc Hx Ha), IH.
  - rewrite <- app_assoc. reflexivity.
  - apply Forall_app. split; [apply Forall_app; split; [exact Ha|repeat constructor; exact Hx]
                             |exact Hl].
Qed.

(** X23. A query of norm zero (such as the 768 zeros of a reply without
    numbers) has similarity 0.0 to every candidate, so nothing is ranked:
    [find_most_similar] returns the candidates at the head of the list, in
    their order, each with similarity 0.0. *)
Theorem zero_query_returns_first_candidates
    (ddot : list float -> list float -> float)
    (query : list float) (candidates : list (list float)) (k : Z) :
  PrimFloat.eqb (np_linalg_norm ddot query) 0 = true ->
  let result := EmbeddingService.find_most_similar ddot query candidates k in
  (forall candidate, similarity ddot query candidate = 0%float)
  /\ EmbeddingService.r_index <$> result = seq 0 (length result)
  /\ EmbeddingService.r_embedding <$> result = take (length result) candidates
  /\ Forall (fun r => EmbeddingService.r_similarity r = 0%float) result.
Proof.
  intros H result.
  pose proof (fun c => zero_norm_similarity ddot query c H) as Hz.
  split; [exact Hz|].
  assert (Hall : Forall (fun y => EmbeddingService.r_similarity y = 0%float)
                        (EmbeddingService.score_all ddot query candidates)).
  { apply Forall_forall. intros r Hr.
    apply list_elem_of_lookup_1 in Hr as [i Hi]. rewrite score_all_lookup in Hi.
    destruct (candidates !! i) as [c|]; [|discriminate].
    cbn in Hi. injection Hi as <-. cbn. apply Hz. }
  assert (Hsort : EmbeddingService.sort_descending
                    (EmbeddingService.score_all ddot query candidates)
                  = EmbeddingService.score_all ddot query candidates).
  { apply (sort_fold_tie _ []). exact Hall. }
  subst result. unfold EmbeddingService.find_most_similar. rewrite Hsort.
  destruct (slice_to_take (EmbeddingService.score_all ddot query candidates) k)
    as (n & -> & _).
  rewrite length_take, score_all_length.
  split; [|split].
  - rewrite fmap_take, score_all_indices.
    apply list_eq. intros i. destruct (decide (i < n `min` length candidates)%nat) as [Hi|Hi].
    + rewrite lookup_take_lt, !lookup_seq_lt by lia. reflexivity.
    + rewrite lookup_seq_ge by lia. apply lookup_ge_None_2.
      rewrite length_take, length_seq. lia.
  - rewrite fmap_take.
    replace (EmbeddingService.r_embedding
               <$> EmbeddingService.score_all ddot query candidates) with candidates.
    + destruct (Nat.le_gt_cases n (length candidates)) as [Hn|Hn].
      * rewrite Nat.min_l by exact Hn. reflexivity.
      * rewrite Nat.min_r by lia. rewrite !take_ge by lia. reflexivity.
    + apply list_eq. intros i. rewrite list_lookup_fmap, score_all_lookup.
      destruct (candidates !! i); reflexivity.
  - apply Forall_take. exact Hall.
Qed.

Lemma zero_query_returns_first_candidates_witness :
  EmbeddingService.r_index <$>
    EmbeddingService.find_most_similar ddot_left [0; 0]%float
      [[0; 1]; [1; 0]; [1; 1]; [2; 0]]%float 3
  = seq 0 (length (EmbeddingService.find_most_similar ddot_left [0; 0]%float
                     [[0; 1]; [1; 0]; [1; 1]; [2; 0]]%float 3)).
Proof.
  exact (proj1 (proj2 (zero_query_returns_first_candidates ddot_left [0; 0]%float
    [[0; 1]; [1; 0]; [1; 1]; [2; 0]]%float 3 ltac:(vm_compute; reflexivity)))).
Defined.

(** ** The chat server *)

Lemma dict_get_set (d : ChatServer.session_dict) (k k' : string)
    (v : GeminiCalendarChat.session) :
  ChatServer.dict_get (ChatServer.dict_set d k v) k'
  = if String.eqb k k' then Some v else ChatServer.dict_get d k'.
Proof.
  induction d as [|[k0 v0] d IH]; cbn.
  - reflexivity.
  - destruct (String.eqb_spec k0 k) as [->|Hne]; cbn.
    + destruct (String.eqb k k'); reflexivity.
    + rewrite IH. destruct (String.eqb_spec k0 k') as [->|Hne'].
      * destruct (String.eqb_spec k k') as [->|_]; [contradiction|reflexivity].
      * reflexivity.
Qed.

Lemma dict_set_new (d : ChatServer.session_dict) (k : string)
    (v : GeminiCalendarChat.session) :
  ChatServer.dict_get d k = None -> ChatServer.dict_set d k v = d ++ [(k, v)].
Proof.
  induction d as [|[k0 v0] d IH]; cbn; [reflexivity|].
  destruct (String.eqb k0 k); [discriminate|]. intros H. rewrite (IH H). reflexivity.
Qed.

Lemma dict_set_keys (d : ChatServer.session_dict) (k : string)
    (v v' : GeminiCalendarChat.session) :
  ChatServer.dict_get d k = Some v' -> (ChatServer.dict_set d k v).*1 = d.*1.
Proof.
  induction d as [|[k0 v0] d IH]; cbn; [discriminate|].
  destruct (String.eqb k0 k); [reflexivity|]. intros H. cbn. rewrite (IH H). reflexivity.
Qed.

Lemma dict_get_None (d : ChatServer.session_dict) (k : string) :
  ChatServer.dict_get d k = None <-> k ∉ d.*1.
Proof.
  induction d as [|[k0 v0] d IH]; cbn.
  - split; [intros _; apply not_elem_of_nil|reflexivity].
  - destruct (String.eqb_spec k0 k) as [->|Hne].
    + split; [discriminate|]. intros H. exfalso. apply H. apply list_elem_of_here.
    + rewrite IH. rewrite not_elem_of_cons. split; [intros H; split; congruence|tauto].
Qed.

Lemma dict_get_del (d : ChatServer.session_dict) (k k' : string) :
  NoDup d.*1 ->
  ChatServer.dict_get (ChatServer.dict_del d k) k'
  = if String.eqb k k' then None else ChatServer.dict_get d k'.
Proof.
  induction d as [|[k0 v0] d IH]; cbn; intros Hnd.
  - destruct (String.eqb k k'); reflexivity.
  - apply NoDup_cons in Hnd as [Hk0 Hnd].
    destruct (String.eqb_spec k0 k) as [E0|Hne].
    + destruct (String.eqb_spec k k') as [E1|Hne'].
      * apply dict_get_None. rewrite <- E1, <- E0. exact Hk0.
      * replace (String.eqb k0 k') with false; [reflexivity|].
        symmetry. apply String.eqb_neq. congruence.
    + cbn. rewrite (IH Hnd).
      destruct (String.eqb_spec k0 k') as [->|Hne'].
      * destruct (String.eqb_spec k k') as [->|_]; [contradiction|reflexivity].
      * reflexivity.
Qed.

(** What [get_or_create_session] returns for a given identifier. *)
Lemma get_or_create_given (time_now : Z) (construct : res string)
    (sessions : ChatServer.session_dict) (session_id : string) :
  session_id <> "" ->
  ChatServer.get_or_create_session time_now construct sessions (Some session_id)
  = match ChatServer.dict_get sessions session_id with
    | Some chat => Ok (session_id, chat, sessions)
    | None =>
        match construct with
        | Ok uid =>
            Ok (session_id, GeminiCalendarChat.new_session uid,
                sessions ++ [(session_id, GeminiCalendarChat.new_session uid)])
        | Raise e => Raise e
        end
    end.
Proof.
  intros Hne. unfold ChatServer.get_or_create_session.
  destruct (String.eqb_spec session_id "") as [He|_]; [contradiction|].
  destruct (ChatServer.dict_get sessions session_id) eqn:E; [reflexivity|].
  destruct construct as [uid|e]; cbn [bind]; [|reflexivity].
  rewrite (dict_set_new _ _ _ E). reflexivity.
Qed.

(** X24. Requests that lack a required field are answered with status 400
    and change no session: [send_message] with the JSON body [null] or a
    JSON object without a message ("Message is required"), [send_message]
    with a message but without a session identifier, or with an empty one,
    and [get_context] without a session identifier ("Session ID is
    required").  A [send_message] or [start_conversation] whose body
    [get_json] cannot read (it raises) is answered with status 500 and the
    text of the exception, and changes no session either.  No session is
    created for any of them and the model is not asked. *)
Theorem incomplete_requests_are_rejected
    (fromisoformat : string -> res datetime) (uuid8 : nat -> string)
    (str_float : Q -> string) (time_now : Z) (construct : res string) (now : string)
    (reply : res GeminiCalendarChat.response) (timestamp : string)
    (sessions : ChatServer.session_dict) :
  (forall data : option (gmap string string),
     data ≫= (fun d : gmap string string => d !! "message") = None ->
     ChatServer.send_message fromisoformat uuid8 str_float time_now construct now reply
       timestamp sessions (Ok data)
     = (ChatServer.bad_request "Message is required", sessions))
  /\ (forall (d : gmap string string) message,
        d !! "message" = Some message ->
        d !! "session_id" = None \/ d !! "session_id" = Some "" ->
        ChatServer.send_message fromisoformat uuid8 str_float time_now construct now reply
          timestamp sessions (Ok (Some d))
        = (ChatServer.bad_request "Session ID is required", sessions))
  /\ (forall session_id,
        session_id = None \/ session_id = Some "" ->
        ChatServer.get_context time_now construct sessions session_id
        = (ChatServer.bad_request "Session ID is required", sessions))
  /\ (forall e,
        ChatServer.send_message fromisoformat uuid8 str_float time_now construct now reply
          timestamp sessions (Raise e)
        = (ChatServer.server_error (str_exn e), sessions)
        /\ ChatServer.start_conversation fromisoformat uuid8 str_float time_now construct
             now reply timestamp sessions (Raise e)
           = (ChatServer.server_error (str_exn e), sessions))
  /\ ChatServer.status_code (ChatServer.bad_request "Message is required") = 400
  /\ ChatServer.status_code (ChatServer.bad_request "Session ID is required") = 400
  /\ (forall error, ChatServer.status_code (ChatServer.server_error error) = 500).
Proof.
  split; [|split; [|split; [|split; [|repeat split]]]].
  - intros data H. unfold ChatServer.send_message. rewrite H. reflexivity.
  - intros d message Hm Hs. unfold ChatServer.send_message. cbn [mbind option_bind].
    rewrite Hm. destruct Hs as [-> | ->]; reflexivity.
  - intros session_id [-> | ->]; reflexivity.
  - intros e. split; reflexivity.
Qed.

(** X25. A request for one session leaves the other sessions alone.  After
    [send_message] or [get_context] for the identifier [session_id], every
    other identifier has the session it had before; no session is removed,
    and at most one is added, at the end. *)
Theorem requests_leave_other_sessions
    (fromisoformat : string -> res datetime) (uuid8 : nat -> string)
    (str_float : Q -> string) (time_now : Z) (construct : res string) (now : string)
    (reply : res GeminiCalendarChat.response) (timestamp : string)
    (sessions : ChatServer.session_dict) (d : gmap string string)
    (message session_id : string) :
  d !! "message" = Some message ->
  d !! "session_id" = Some session_id ->
  let after_message :=
    (ChatServer.send_message fromisoformat uuid8 str_float time_now construct now reply
       timestamp sessions (Ok (Some d))).2 in
  let after_context :=
    (ChatServer.get_context time_now construct sessions (Some session_id)).2 in
  (forall other, other <> session_id ->
     ChatServer.dict_get after_message other = ChatServer.dict_get sessions other
     /\ ChatServer.dict_get after_context other = ChatServer.dict_get sessions other)
  /\ (after_message.*1 = sessions.*1 \/ after_message.*1 = sessions.*1 ++ [session_id])
  /\ (after_context = sessions
      \/ exists chat, after_context = sessions ++ [(session_id, chat)]).
Proof.
  intros Hm Hs after_message after_context. subst after_message after_context.
  unfold ChatServer.send_message, ChatServer.get_context. cbn [mbind option_bind].
  rewrite Hm, Hs.
  destruct session_id as [|c rest].
  { cbn. split; [intros; split; reflexivity|]. split; left; reflexivity. }
  cbv beta iota.
  assert (Hne : String c rest <> "") by discriminate.
  set (session_id := String c rest) in *.
  rewrite (get_or_create_given _ _ _ _ Hne).
  destruct (ChatServer.dict_get sessions session_id) as [chat|] eqn:E.
  - destruct (GeminiCalendarChat.chat_with_calendar_context _ _ _ _ _ chat message)
      as [response chat'].
    cbn [snd]. split; [|split].
    + intros other Ho. rewrite dict_get_set.
      destruct (String.eqb_spec session_id other) as [->|_]; [contradiction|].
      split; reflexivity.
    + left. eapply dict_set_keys. exact E.
    + left. reflexivity.
  - destruct construct as [uid|e]; cbn [snd].
    2: { split; [intros; split; reflexivity|]. split; left; reflexivity. }
    destruct (GeminiCalendarChat.chat_with_calendar_context _ _ _ _ _ _ message)
      as [response chat'].
    cbn [snd]. split; [|split].
    + intros other Ho. rewrite dict_get_set.
      destruct (String.eqb_spec session_id other) as [->|_]; [contradiction|].
      rewrite <- (dict_set_new sessions session_id (GeminiCalendarChat.new_session uid) E).
      rewrite dict_get_set.
      destruct (String.eqb_spec session_id other) as [->|_]; [contradiction|].
      split; reflexivity.
    + right.
      rewrite (dict_set_keys _ session_id chat' (GeminiCalendarChat.new_session uid)).
      * rewrite fmap_app. reflexivity.
      * rewrite <- (dict_set_new sessions session_id (GeminiCalendarChat.new_session uid) E).
        rewrite dict_get_set, String.eqb_refl. reflexivity.
    + right. eexists. reflexivity.
Qed.

Lemma requests_leave_other_sessions_witness :
  ChatServer.dict_get
    (ChatServer.send_message fromisoformat_basic uuid8_sample str_float_integral
       1736928000 (Ok "uid-2") "2025-01-15T08:00:00" (chat_says "Tell me more.")
       "2025-01-15T08:00:01" [("alice", revised_session)]
       (Ok (Some (message_request "bob" "My week is hectic")))).2 "alice"
  = Some revised_session.
Proof.
  exact (proj1 (proj1 (requests_leave_other_sessions fromisoformat_basic uuid8_sample
    str_float_integral 1736928000 (Ok "uid-2") "2025-01-15T08:00:00"
    (chat_says "Tell me more.") "2025-01-15T08:00:01" [("alice", revised_session)]
    (message_request "bob" "My week is hectic") "My week is hectic" "bob"
    ltac:(vm_compute; reflexivity) ltac:(vm_compute; reflexivity))
    "alice" ltac:(discriminate))).
Defined.

(** X26. Asking for the context of a session that does not exist creates
    it: [get_context], a read, adds an empty session under the identifier
    and reports its context (no problem statement, no events, no
    proposals), so the number of active sessions grows by one.  When the
    chat object cannot be constructed the answer has status 500 and the
    sessions are unchanged. *)
Theorem get_context_creates_session
    (time_now : Z) (timestamp : string) (sessions : ChatServer.session_dict)
    (session_id : string) :
  session_id <> "" ->
  ChatServer.dict_get sessions session_id = None ->
  (forall uid,
     ChatServer.get_context time_now (Ok uid) sessions (Some session_id)
     = (ChatServer.context_of
          {| ChatServer.cc_session_id := uid;
             ChatServer.cc_problem_statement := "";
             ChatServer.questions_asked := [];
             ChatServer.answers_provided := [];
             ChatServer.current_events_count := 0;
             ChatServer.proposals_generated := 0;
             ChatServer.cc_preferences := preferences (new_context uid) |}
          session_id,
        sessions ++ [(session_id, GeminiCalendarChat.new_session uid)])
     /\ ChatServer.health_check timestamp
          (ChatServer.get_context time_now (Ok uid) sessions (Some session_id)).2
        = ChatServer.healthy timestamp (S (length sessions)))
  /\ (forall e,
        ChatServer.get_context time_now (Raise e) sessions (Some session_id)
        = (ChatServer.server_error (str_exn e), sessions)).
Proof.
  intros Hne Hnone.
  destruct session_id as [|c rest]; [contradiction|].
  unfold ChatServer.get_context. cbv beta iota.
  split.
  - intros uid. rewrite (get_or_create_given _ _ _ _ Hne), Hnone.
    split; [reflexivity|].
    unfold ChatServer.health_check. cbn [snd]. rewrite length_app. cbn.
    f_equal. lia.
  - intros e. rewrite (get_or_create_given _ _ _ _ Hne), Hnone. reflexivity.
Qed.

Lemma get_context_creates_session_witness :
  (ChatServer.get_context 1736928000 (Ok "uid-2") [("alice", revised_session)]
     (Some "bob")).2
  = [("alice", revised_session); ("bob", GeminiCalendarChat.new_session "uid-2")].
Proof.
  pose proof (proj1 (get_context_creates_session 1736928000 "2025-01-15T08:00:01"
    [("alice", revised_session)] "bob" ltac:(discriminate) ltac:(reflexivity)) "uid-2")
    as [H _].
  rewrite H. reflexivity.
Defined.

Lemma dict_set_appended (d : ChatServer.session_dict) (k : string)
    (v v' : GeminiCalendarChat.session) :
  ChatServer.dict_get d k = None ->
  ChatServer.dict_set (d ++ [(k, v)]) k v' = d ++ [(k, v')].
Proof.
  induction d as [|[k0 v0] d IH]; cbn.
  - intros _. rewrite String.eqb_refl. reflexivity.
  - destruct (String.eqb k0 k); [discriminate|]. intros H. rewrite (IH H). reflexivity.
Qed.

(** [start_conversation] for an identifier without session. *)
Lemma start_conversation_fresh (fromisoformat : string -> res datetime)
    (uuid8 : nat -> string) (str_float : Q -> string) (time_now : Z) (uid : string)
    (now : string) (reply : res GeminiCalendarChat.response) (timestamp : string)
    (sessions : ChatServer.session_dict) (data : option (gmap string string))
    (session_id : string) :
  session_id
  = match default ∅ data !! "session_id" with
    | Some given => if String.eqb given "" then "session_" +:+ pretty time_now else given
    | None => "session_" +:+ pretty time_now
    end ->
  ChatServer.dict_get sessions session_id = None ->
  let turn :=
    GeminiCalendarChat.chat_with_calendar_context fromisoformat uuid8 str_float
      now reply (GeminiCalendarChat.new_session uid) ChatServer.greeting in
  ChatServer.start_conversation fromisoformat uuid8 str_float time_now (Ok uid)
    now reply timestamp sessions (Ok data)
  = (ChatServer.started session_id turn.1 timestamp, sessions ++ [(session_id, turn.2)]).
Proof.
  intros Hid Hnone turn. unfold ChatServer.start_conversation,
    ChatServer.get_or_create_session.
  rewrite <- Hid, Hnone. cbn [bind]. fold turn.
  rewrite (dict_set_new _ _ _ Hnone).
  destruct turn as [answer chat]. cbn [fst snd].
  rewrite (dict_set_appended _ _ _ _ Hnone). reflexivity.
Qed.

(** A request for an identifier that has a session. *)
Lemma requests_for_existing_session (fromisoformat : string -> res datetime)
    (uuid8 : nat -> string) (str_float : Q -> string) (time_now : Z)
    (construct : res string) (now : string) (reply : res GeminiCalendarChat.response)
    (timestamp : string) (sessions : ChatServer.session_dict)
    (chat : GeminiCalendarChat.session) (session_id : string) :
  ChatServer.dict_get sessions session_id = Some chat ->
  (forall d : gmap string string,
     d !! "session_id" = Some session_id -> session_id <> "" ->
     (forall message, d !! "message" = Some message ->
        let turn :=
          GeminiCalendarChat.chat_with_calendar_context fromisoformat uuid8 str_float
            now reply chat message in
        ChatServer.send_message fromisoformat uuid8 str_float time_now construct
          now reply timestamp sessions (Ok (Some d))
        = (ChatServer.replied turn.1 session_id timestamp,
           ChatServer.dict_set sessions session_id turn.2)))
  /\ (forall data,
        session_id
        = match default ∅ data !! "session_id" with
          | Some given =>
              if String.eqb given "" then "session_" +:+ pretty time_now else given
          | None => "session_" +:+ pretty time_now
          end ->
        let turn :=
          GeminiCalendarChat.chat_with_calendar_context fromisoformat uuid8 str_float
            now reply chat ChatServer.greeting in
        ChatServer.start_conversation fromisoformat uuid8 str_float time_now construct
          now reply timestamp sessions (Ok data)
        = (ChatServer.started session_id turn.1 timestamp,
           ChatServer.dict_set sessions session_id turn.2)).
Proof.
  intros Hget. split.
  - intros d Hs Hne message Hm turn. unfold ChatServer.send_message.
    cbn [mbind option_bind]. rewrite Hm, Hs.
    destruct session_id as [|c rest]; [contradiction|]. cbv beta iota.
    rewrite (get_or_create_given _ _ _ _ Hne), Hget. fold turn.
    destruct turn as [answer chat']. reflexivity.
  - intros data Hid turn. unfold ChatServer.start_conversation,
      ChatServer.get_or_create_session.
    rewrite <- Hid, Hget. fold turn. destruct turn as [answer chat']. reflexivity.
Qed.

(** X27. A conversation started through [start_conversation] has the
    server's greeting as its problem statement: the greeting is sent to the
    chat as if the user had typed it, and the problem statement is written
    once.  The message the user then sends is answered in the same session
    but does not become the problem statement. *)
Theorem greeting_becomes_problem_statement
    (fromisoformat : string -> res datetime) (uuid8 : nat -> string)
    (str_float : Q -> string) (time_now time_now' : Z) (uid : string)
    (construct' : res string) (now now' : string)
    (reply reply' : res GeminiCalendarChat.response) (timestamp timestamp' : string)
    (sessions : ChatServer.session_dict) (d d' : gmap string string)
    (session_id message : string) :
  session_id <> "" ->
  ChatServer.dict_get sessions session_id = None ->
  d !! "session_id" = Some session_id ->
  d' !! "message" = Some message ->
  d' !! "session_id" = Some session_id ->
  let started :=
    (ChatServer.start_conversation fromisoformat uuid8 str_float time_now (Ok uid)
       now reply timestamp sessions (Ok (Some d))).2 in
  let continued :=
    (ChatServer.send_message fromisoformat uuid8 str_float time_now' construct'
       now' reply' timestamp' started (Ok (Some d'))).2 in
  exists chat chat',
    ChatServer.dict_get started session_id = Some chat
    /\ problem_statement (GeminiCalendarChat.context chat) = ChatServer.greeting
    /\ ChatServer.dict_get continued session_id = Some chat'
    /\ problem_statement (GeminiCalendarChat.context chat') = ChatServer.greeting
    /\ length (GeminiCalendarChat.conversation_history chat') = 4%nat.
Proof.
  intros Hne Hnone Hd Hm Hs started continued.
  assert (Hid : session_id
                = match default ∅ (Some d) !! "session_id" with
                  | Some given =>
                      if String.eqb given "" then "session_" +:+ pretty time_now else given
                  | None => "session_" +:+ pretty time_now
                  end).
  { change (default ∅ (Some d)) with d. rewrite Hd.
    destruct (String.eqb_spec session_id "") as [He|_]; [contradiction|reflexivity]. }
  pose proof (start_conversation_fresh fromisoformat uuid8 str_float time_now uid now
                reply timestamp sessions (Some d) session_id Hid Hnone) as Hstart.
  cbv zeta in Hstart.
  pose proof (chat_turn_context fromisoformat uuid8 str_float now reply
                (GeminiCalendarChat.new_session uid) ChatServer.greeting) as (Hp & _).
  pose proof (chat_turn_history fromisoformat uuid8 str_float now reply
                (GeminiCalendarChat.new_session uid) ChatServer.greeting) as Hh.
  destruct (GeminiCalendarChat.chat_with_calendar_context fromisoformat uuid8 str_float
              now reply (GeminiCalendarChat.new_session uid) ChatServer.greeting)
    as [answer chat].
  cbn [fst snd] in *.
  assert (Hget : ChatServer.dict_get (sessions ++ [(session_id, chat)]) session_id
                 = Some chat).
  { rewrite <- (dict_set_new sessions session_id chat Hnone).
    rewrite dict_get_set, String.eqb_refl. reflexivity. }
  pose proof (proj1 (requests_for_existing_session fromisoformat uuid8 str_float
                       time_now' construct' now' reply' timestamp'
                       (sessions ++ [(session_id, chat)]) chat session_id Hget)
                d' Hs Hne message Hm) as Hsend.
  cbv zeta in Hsend.
  pose proof (chat_turn_context fromisoformat uuid8 str_float now' reply' chat message)
    as (Hp' & _).
  pose proof (chat_turn_history fromisoformat uuid8 str_float now' reply' chat message)
    as Hh'.
  destruct (GeminiCalendarChat.chat_with_calendar_context fromisoformat uuid8 str_float
              now' reply' chat message) as [answer' chat'].
  cbn [fst snd] in *.
  subst continued started. rewrite Hstart. cbn [snd]. rewrite Hsend. cbn [snd].
  assert (Hgreet : problem_statement (GeminiCalendarChat.context chat)
                   = ChatServer.greeting) by exact Hp.
  exists chat, chat'. split; [exact Hget|]. split; [exact Hgreet|].
  split; [rewrite dict_get_set, String.eqb_refl; reflexivity|].
  split.
  - rewrite Hp'. unfold noted. rewrite Hgreet.
    change (String.eqb ChatServer.greeting "") with false. exact Hgreet.
  - rewrite Hh', Hh. reflexivity.
Qed.

Lemma greeting_becomes_problem_statement_witness :
  exists chat chat',
    ChatServer.dict_get
      (ChatServer.start_conversation fromisoformat_basic uuid8_sample str_float_integral
         1736928000 (Ok "uid-1") "2025-01-15T08:00:00" (chat_says "Hello!")
         "2025-01-15T08:00:01" [] (Ok (Some (session_request "bob")))).2 "bob" = Some chat
    /\ problem_statement (GeminiCalendarChat.context chat) = ChatServer.greeting
    /\ ChatServer.dict_get
         (ChatServer.send_message fromisoformat_basic uuid8_sample str_float_integral
            1736928060 (Raise (RuntimeError "unused")) "2025-01-15T08:01:00"
            (chat_says "Tell me more.") "2025-01-15T08:01:01"
            (ChatServer.start_conversation fromisoformat_basic uuid8_sample
               str_float_integral 1736928000 (Ok "uid-1") "2025-01-15T08:00:00"
               (chat_says "Hello!") "2025-01-15T08:00:01" []
               (Ok (Some (session_request "bob")))).2
            (Ok (Some (message_request "bob" "My week is hectic")))).2 "bob" = Some chat'
    /\ problem_statement (GeminiCalendarChat.context chat') = ChatServer.greeting
    /\ length (GeminiCalendarChat.conversation_history chat') = 4%nat.
Proof.
  apply (greeting_becomes_problem_statement fromisoformat_basic uuid8_sample
           str_float_integral 1736928000 1736928060 "uid-1"
           (Raise (RuntimeError "unused")) "2025-01-15T08:00:00" "2025-01-15T08:01:00"
           (chat_says "Hello!") (chat_says "Tell me more.")
           "2025-01-15T08:00:01" "2025-01-15T08:01:01" []
           (session_request "bob") (message_request "bob" "My week is hectic")
           "bob" "My week is hectic").
  - discriminate.
  - reflexivity.
  - vm_compute. reflexivity.
  - vm_compute. reflexivity.
  - vm_compute. reflexivity.
Defined.

Lemma dict_del_keys (d : ChatServer.session_dict) (k : string) :
  (ChatServer.dict_del d k).*1 `sublist_of` d.*1.
Proof.
  induction d as [|[k0 v0] d IH]; cbn; [constructor|].
  destruct (String.eqb k0 k); cbn.
  - apply sublist_cons. reflexivity.
  - apply sublist_skip. exact IH.
Qed.

(** X28. [clear_conversation] with a session identifier removes that
    session and no other; with the JSON body [null], or a JSON object
    without an identifier (or with an empty one), it removes every session.
    A cleared session is forgotten: the next request for its identifier
    gets a new, empty session.  A clear request whose body [get_json]
    cannot read (it raises) is answered with status 500 and removes no
    session. *)
Theorem clear_conversation_forgets
    (time_now : Z) (uid : string) (sessions : ChatServer.session_dict)
    (d : gmap string string) (session_id : string) :
  NoDup sessions.*1 ->
  d !! "session_id" = Some session_id ->
  session_id <> "" ->
  let remaining := (ChatServer.clear_conversation sessions (Ok (Some d))).2 in
  ChatServer.dict_get remaining session_id = None
  /\ (forall other, other <> session_id ->
        ChatServer.dict_get remaining other = ChatServer.dict_get sessions other)
  /\ remaining.*1 `sublist_of` sessions.*1
  /\ (ChatServer.get_context time_now (Ok uid) remaining (Some session_id)).1
     = ChatServer.context_of
         (ChatServer.get_calendar_context (GeminiCalendarChat.new_session uid)) session_id
  /\ (ChatServer.clear_conversation sessions (Ok None)).2 = []
  /\ (ChatServer.clear_conversation sessions (Ok (Some (delete "session_id" d)))).2 = []
  /\ (forall e,
        ChatServer.clear_conversation sessions (Raise e)
        = (ChatServer.server_error (str_exn e), sessions)).
Proof.
  intros Hnd Hd Hne remaining. subst remaining.
  unfold ChatServer.clear_conversation.
  change (default ∅ (Some d)) with d.
  change (default ∅ (Some (delete "session_id" d))) with (delete "session_id" d).
  change (default ∅ (@None (gmap string string))) with (∅ : gmap string string).
  rewrite Hd, lookup_delete_eq, lookup_empty.
  destruct session_id as [|c rest]; [contradiction|]. cbv beta iota. cbn [snd].
  set (session_id := String c rest) in *.
  assert (Hgone : ChatServer.dict_get (ChatServer.clear_session sessions session_id)
                    session_id = None).
  { unfold ChatServer.clear_session.
    destruct (ChatServer.dict_get sessions session_id) eqn:E; [|exact E].
    rewrite (dict_get_del _ _ _ Hnd), String.eqb_refl. reflexivity. }
  split; [exact Hgone|]. split; [|split; [|split; [|repeat split]]].
  - intros other Ho. unfold ChatServer.clear_session.
    destruct (ChatServer.dict_get sessions session_id) eqn:E; [|reflexivity].
    rewrite (dict_get_del _ _ _ Hnd).
    destruct (String.eqb_spec session_id other) as [->|_]; [contradiction|reflexivity].
  - unfold ChatServer.clear_session.
    destruct (ChatServer.dict_get sessions session_id); [apply dict_del_keys|reflexivity].
  - unfold ChatServer.get_context. subst session_id. cbv beta iota.
    rewrite (get_or_create_given _ _ _ _ Hne), Hgone. reflexivity.
Qed.

Lemma clear_conversation_forgets_witness :
  ChatServer.dict_get
    (ChatServer.clear_conversation
       [("alice", revised_session); ("bob", asked_chat)]
       (Ok (Some (session_request "alice")))).2 "alice"
  = None.
Proof.
  exact (proj1 (clear_conversation_forgets 1736928000 "uid-3"
    [("alice", revised_session); ("bob", asked_chat)] (session_request "alice") "alice"
    ltac:(apply NoDup_cons; split;
            [intros H; apply list_elem_of_singleton in H; discriminate
            |apply NoDup_singleton])
    ltac:(vm_compute; reflexivity)
    ltac:(discriminate))).
Defined.

(** X29. Session identifiers made up by the server collide within a
    second.  [start_conversation] without a session identifier names the
    session after the time in whole seconds; a second such request in the
    same second finds that session and continues it: both answers carry the
    same identifier, one session is stored, and its history holds both
    greetings. *)
Theorem generated_session_ids_collide
    (fromisoformat : string -> res datetime) (uuid8 : nat -> string)
    (str_float : Q -> string) (time_now : Z) (uid : string)
    (construct' : res string) (now now' : string)
    (reply reply' : res GeminiCalendarChat.response) (timestamp timestamp' : string)
    (sessions : ChatServer.session_dict) :
  ChatServer.dict_get sessions ("session_" +:+ pretty time_now) = None ->
  let first :=
    ChatServer.start_conversation fromisoformat uuid8 str_float time_now (Ok uid)
      now reply timestamp sessions (Ok None) in
  let second :=
    ChatServer.start_conversation fromisoformat uuid8 str_float time_now construct'
      now' reply' timestamp' first.2 (Ok None) in
  exists answer answer' chat,
    first.1 = ChatServer.started ("session_" +:+ pretty time_now) answer timestamp
    /\ second.1 = ChatServer.started ("session_" +:+ pretty time_now) answer' timestamp'
    /\ second.2.*1 = sessions.*1 ++ ["session_" +:+ pretty time_now]
    /\ ChatServer.dict_get second.2 ("session_" +:+ pretty time_now) = Some chat
    /\ GeminiCalendarChat.conversation_history chat
       = [("user", ChatServer.greeting); ("assistant", answer);
          ("user", ChatServer.greeting); ("assistant", answer')].
Proof.
  intros Hnone first second.
  set (session_id := "session_" +:+ pretty time_now) in *.
  assert (Hid : session_id
                = match default ∅ (@None (gmap string string)) !! "session_id" with
                  | Some given =>
                      if String.eqb given "" then "session_" +:+ pretty time_now else given
                  | None => "session_" +:+ pretty time_now
                  end) by reflexivity.
  pose proof (start_conversation_fresh fromisoformat uuid8 str_float time_now uid now
                reply timestamp sessions None session_id Hid Hnone) as Hstart.
  cbv zeta in Hstart.
  pose proof (chat_turn_history fromisoformat uuid8 str_float now reply
                (GeminiCalendarChat.new_session uid) ChatServer.greeting) as Hh.
  destruct (GeminiCalendarChat.chat_with_calendar_context fromisoformat uuid8 str_float
              now reply (GeminiCalendarChat.new_session uid) ChatServer.greeting)
    as [answer chat].
  cbn [fst snd] in *.
  assert (Hget : ChatServer.dict_get (sessions ++ [(session_id, chat)]) session_id
                 = Some chat).
  { rewrite <- (dict_set_new sessions session_id chat Hnone).
    rewrite dict_get_set, String.eqb_refl. reflexivity. }
  pose proof (proj2 (requests_for_existing_session fromisoformat uuid8 str_float
                       time_now construct' now' reply' timestamp'
                       (sessions ++ [(session_id, chat)]) chat session_id Hget)
                None Hid) as Hagain.
  cbv zeta in Hagain.
  pose proof (chat_turn_history fromisoformat uuid8 str_float now' reply' chat
                ChatServer.greeting) as Hh'.
  destruct (GeminiCalendarChat.chat_with_calendar_context fromisoformat uuid8 str_float
              now' reply' chat ChatServer.greeting) as [answer' chat'].
  cbn [fst snd] in *.
  subst second first. rewrite Hstart. cbn [fst snd]. rewrite Hagain. cbn [fst snd].
  exists answer, answer', chat'. split; [reflexivity|]. split; [reflexivity|].
  split; [|split].
  - rewrite (dict_set_keys _ session_id chat' chat Hget), fmap_app. reflexivity.
  - rewrite dict_get_set, String.eqb_refl. reflexivity.
  - rewrite Hh', Hh. reflexivity.
Qed.

Lemma generated_session_ids_collide_witness :
  exists answer answer' chat,
    (ChatServer.start_conversation fromisoformat_basic uuid8_sample str_float_integral
       1736928000 (Ok "uid-1") "2025-01-15T08:00:00" (chat_says "Hello!")
       "2025-01-15T08:00:01" [] (Ok None)).1
    = ChatServer.started ("session_" +:+ pretty 1736928000) answer "2025-01-15T08:00:01"
    /\ (ChatServer.start_conversation fromisoformat_basic uuid8_sample
          str_float_integral 1736928000 (Raise (RuntimeError "unused"))
          "2025-01-15T08:00:00" (chat_says "Hello again!") "2025-01-15T08:00:02"
          (ChatServer.start_conversation fromisoformat_basic uuid8_sample
             str_float_integral 1736928000 (Ok "uid-1") "2025-01-15T08:00:00"
             (chat_says "Hello!") "2025-01-15T08:00:01" [] (Ok None)).2 (Ok None)).1
       = ChatServer.started ("session_" +:+ pretty 1736928000) answer'
           "2025-01-15T08:00:02"
    /\ (ChatServer.start_conversation fromisoformat_basic uuid8_sample
          str_float_integral 1736928000 (Raise (RuntimeError "unused"))
          "2025-01-15T08:00:00" (chat_says "Hello again!") "2025-01-15T08:00:02"
          (ChatServer.start_conversation fromisoformat_basic uuid8_sample
             str_float_integral 1736928000 (Ok "uid-1") "2025-01-15T08:00:00"
             (chat_says "Hello!") "2025-01-15T08:00:01" [] (Ok None)).2 (Ok None)).2.*1
       = [] ++ ["session_" +:+ pretty 1736928000]
    /\ ChatServer.dict_get
         (ChatServer.start_conversation fromisoformat_basic uuid8_sample
            str_float_integral 1736928000 (Raise (RuntimeError "unused"))
            "2025-01-15T08:00:00" (chat_says "Hello again!") "2025-01-15T08:00:02"
            (ChatServer.start_conversation fromisoformat_basic uuid8_sample
               str_float_integral 1736928000 (Ok "uid-1") "2025-01-15T08:00:00"
               (chat_says "Hello!") "2025-01-15T08:00:01" [] (Ok None)).2 (Ok None)).2
         ("session_" +:+ pretty 1736928000) = Some chat
    /\ GeminiCalendarChat.conversation_history chat
       = [("user", ChatServer.greeting); ("assistant", answer);
          ("user", ChatServer.greeting); ("assistant", answer')].
Proof.
  exact (generated_session_ids_collide fromisoformat_basic uuid8_sample
    str_float_integral 1736928000 "uid-1" (Raise (RuntimeError "unused"))
    "2025-01-15T08:00:00" "2025-01-15T08:00:00" (chat_says "Hello!")
    (chat_says "Hello again!") "2025-01-15T08:00:01" "2025-01-15T08:00:02" []
    eq_refl).
Defined.

(** ** The answers of [GeminiCalendarAssistant] *)

(** X30. The five kinds of answer of [process_user_input].  An error
    carries the two fixed suggestions and the text of an exception: that of
    the model's call, of reading the text of its reply, of reading the
    arguments of its function call, or of printing the result of the
    function for the follow-up prompt (the last two happen before a [try]).
    A clarifying question is the text of a reply without function call
    that has a question mark, given while fewer answers than questions are
    recorded.  An answer of the kind "proposal" is such a text that
    mentions "proposal" or "schedule", and never carries a proposal: its
    [proposal] is always [None].  A plain response mentions neither word.
    An answer of the kind "function_result" is given for a reply with a
    function call only, and carries what the function returned, also when
    the function failed. *)
Theorem assistant_answer_kinds
    (fromisoformat : string -> res datetime) (uuid8 : nat -> string)
    (json_dumps : GeminiCalendarAssistant.function_result -> res string) (now : string)
    (reply follow_up : res GeminiCalendarAssistant.response)
    (s : GeminiCalendarAssistant.session) (user_input : string) :
  let s1 := GeminiCalendarAssistant.with_context s
              (noted (GeminiCalendarAssistant.context s) user_input) in
  let said message :=
    exists response,
      reply = Ok response
      /\ GeminiCalendarAssistant.function_call_part response = None
      /\ GeminiCalendarAssistant.text response = Ok message in
  match (GeminiCalendarAssistant.process_user_input fromisoformat uuid8 json_dumps
           now reply follow_up s user_input).1 with
  | GeminiCalendarAssistant.t_error message suggestions =>
      suggestions = ["Try rephrasing your request"; "Check your calendar permissions"]
      /\ exists e,
           message = "I encountered an error: " +:+ str_exn e
           /\ (reply = Raise e
               \/ (exists response,
                      reply = Ok response
                      /\ GeminiCalendarAssistant.function_call_part response = None
                      /\ GeminiCalendarAssistant.text response = Raise e)
               \/ (exists response fc,
                      reply = Ok response
                      /\ GeminiCalendarAssistant.function_call_part response = Some fc
                      /\ (GeminiCalendarAssistant._execute_function_call fromisoformat
                            uuid8 now s1 fc = Raise e
                          \/ exists function_result s2,
                               GeminiCalendarAssistant._execute_function_call
                                 fromisoformat uuid8 now s1 fc
                               = Ok (function_result, s2)
                               /\ json_dumps function_result = Raise e)))
  | GeminiCalendarAssistant.t_clarifying_question question message =>
      question = message /\ contains "?" message = true
      /\ (length (user_answers (GeminiCalendarAssistant.context s))
          < length (clarifying_questions (GeminiCalendarAssistant.context s)))%nat
      /\ said message
  | GeminiCalendarAssistant.t_proposal message proposal =>
      proposal = None
      /\ contains "proposal" (lower message) || contains "schedule" (lower message) = true
      /\ said message
  | GeminiCalendarAssistant.t_response message =>
      contains "proposal" (lower message) || contains "schedule" (lower message) = false
      /\ said message
  | GeminiCalendarAssistant.t_function_result message function_result =>
      exists fc response s2 printed,
        reply = Ok response
        /\ GeminiCalendarAssistant.function_call_part response = Some fc
        /\ GeminiCalendarAssistant._execute_function_call fromisoformat uuid8 now s1 fc
           = Ok (function_result, s2)
        /\ json_dumps function_result = Ok printed
  end.
Proof.
  intros s1' said. subst s1' said. cbv beta.
  unfold GeminiCalendarAssistant.process_user_input.
  remember (if String.eqb (problem_statement (GeminiCalendarAssistant.context s)) ""
            then GeminiCalendarAssistant.with_context s
                   (set_problem_statement (GeminiCalendarAssistant.context s) user_input)
            else s) as s1 eqn:Es1.
  assert (H1 : s1 = GeminiCalendarAssistant.with_context s
                      (noted (GeminiCalendarAssistant.context s) user_input)).
  { subst s1. unfold noted. destruct (String.eqb _ _); [reflexivity|].
    destruct s. reflexivity. }
  assert (Hq : clarifying_questions (GeminiCalendarAssistant.context s1)
               = clarifying_questions (GeminiCalendarAssistant.context s)
               /\ user_answers (GeminiCalendarAssistant.context s1)
                  = user_answers (GeminiCalendarAssistant.context s)).
  { rewrite H1. unfold noted. cbn. destruct (String.eqb _ _); split; reflexivity. }
  destruct Hq as [Hq Ha]. clear Es1. rewrite <- H1. clear H1.
  destruct reply as [response|e]; cbn [fst].
  2: { split; [reflexivity|]. exists e. split; [reflexivity|]. left. reflexivity. }
  unfold GeminiCalendarAssistant._process_gemini_response.
  destruct (GeminiCalendarAssistant.function_call_part response) as [fc|] eqn:Efc.
  - destruct (GeminiCalendarAssistant._execute_function_call fromisoformat uuid8 now
                s1 fc) as [[r s2]|e] eqn:Ex; cbn [fst].
    2: { split; [reflexivity|]. exists e. split; [reflexivity|].
         right. right. exists response, fc. split; [reflexivity|].
         split; [exact Efc|]. left. first [exact Ex|reflexivity]. }
    unfold GeminiCalendarAssistant._continue_conversation_with_result.
    destruct (json_dumps r) as [printed|e] eqn:Ej; cbn [bind fst].
    2: { split; [reflexivity|]. exists e. split; [reflexivity|].
         right. right. exists response, fc. split; [reflexivity|].
         split; [exact Efc|]. right. exists r, s2.
         split; [first [exact Ex|reflexivity]|exact Ej]. }
    destruct (r0 <- follow_up;; GeminiCalendarAssistant.text r0); cbn [fst];
      exists fc, response, s2, printed; (split; [reflexivity|]); (split; [exact Efc|]);
      (split; [first [exact Ex|reflexivity]|exact Ej]).
  - destruct (GeminiCalendarAssistant.text response) as [response_text|e] eqn:Et;
      cbn [fst].
    2: { split; [reflexivity|]. exists e. split; [reflexivity|].
         right. left. exists response. split; [reflexivity|]. split; assumption. }
    assert (Hsaid : exists response0,
               Ok response = Ok response0
               /\ GeminiCalendarAssistant.function_call_part response0 = None
               /\ GeminiCalendarAssistant.text response0 = Ok response_text).
    { exists response. split; [reflexivity|]. split; assumption. }
    rewrite Hq, Ha.
    destruct (contains "?" response_text) eqn:Hc; cbn [andb].
    + destruct (Nat.ltb_spec (length (user_answers (GeminiCalendarAssistant.context s)))
                  (length (clarifying_questions (GeminiCalendarAssistant.context s))))
        as [Hlt|Hge]; cbn [fst].
      * split; [reflexivity|]. split; [exact Hc|]. split; [exact Hlt|exact Hsaid].
      * destruct (contains "proposal" (lower response_text)
                  || contains "schedule" (lower response_text)) eqn:Hw; cbn [fst].
        -- split; [reflexivity|]. split; [exact Hw|exact Hsaid].
        -- split; [exact Hw|exact Hsaid].
    + destruct (contains "proposal" (lower response_text)
                || contains "schedule" (lower response_text)) eqn:Hw; cbn [fst].
      * split; [reflexivity|]. split; [exact Hw|exact Hsaid].
      * split; [exact Hw|exact Hsaid].
Qed.
